(** * VoiceFlow analysis scripts: a shallow embedding and its properties

    This development embeds the two scanners of [Scripts/]:
    - [performance_analyzer.py] (class [PerformanceAnalyzer]) in module [Perf];
    - [security_analyzer.py] (class [SecurityAnalyzer]) in module [Sec].

    Conventions of the embedding.
    - Python [str] values are Rocq [string]s; the text is taken to be ASCII
      (for code points below 128 [lower], [\s], [\w] and [\d] are exactly
      Python's).
    - [re] is modelled by a back-tracking matcher (module [Re]) with the
      greedy, leftmost-alternative-first search of Python's engine, for the
      constructs the scripts' patterns use.
    - Python integers are [Z] or [nat] (counts). The performance score is a
      float: the value that is reported is computed and rounded in IEEE
      binary64 ([SpecFloat]); the theorems on the formula, and the test of
      the score against 70, are on the same computation in exact rational
      arithmetic ([Q]).
    - The directory walk is abstracted as the ordered list of files it
      yields; reading a file gives its content or raises.
    - [print] appends a line to an explicit output log. *)

From Stdlib Require Import Ascii String QArith Qround Qminmax DecimalString Lra.
From Stdlib Require Import SpecFloat Lqa.
From stdpp Require Import gmap strings list fin_maps sorting.

Local Open Scope string_scope.

(** ** Python string operations *)

Module Str.

Definition is_upper (c : ascii) : bool :=
  (65 <=? nat_of_ascii c)%nat && (nat_of_ascii c <=? 90)%nat.

Definition is_lower (c : ascii) : bool :=
  (97 <=? nat_of_ascii c)%nat && (nat_of_ascii c <=? 122)%nat.

Definition is_digit (c : ascii) : bool :=
  (48 <=? nat_of_ascii c)%nat && (nat_of_ascii c <=? 57)%nat.

Definition lower_char (c : ascii) : ascii :=
  if is_upper c then ascii_of_nat (nat_of_ascii c + 32) else c.

Definition upper_char (c : ascii) : ascii :=
  if is_lower c then ascii_of_nat (nat_of_ascii c - 32) else c.

(** [s.lower()] *)
Fixpoint lower (s : string) : string :=
  match s with
  | EmptyString => EmptyString
  | String c s' => String (lower_char c) (lower s')
  end.

(** [s.startswith(p)] *)
Fixpoint startswith (p s : string) : bool :=
  match p, s with
  | EmptyString, _ => true
  | String a p', String b s' => Ascii.eqb a b && startswith p' s'
  | String _ _, EmptyString => false
  end.

(** [p in s] *)
Fixpoint contains (p s : string) : bool :=
  startswith p s ||
  match s with
  | EmptyString => false
  | String _ s' => contains p s'
  end.

(** [s.endswith(p)] *)
Definition endswith (p s : string) : bool :=
  (String.length p <=? String.length s)%nat &&
  String.eqb (substring (String.length s - String.length p) (String.length p) s) p.

(** [s.count(c)] for a one-character [c] *)
Fixpoint count_char (c : ascii) (s : string) : nat :=
  match s with
  | EmptyString => 0
  | String a s' => (if Ascii.eqb a c then 1 else 0) + count_char c s'
  end.

(** [s[:n]] *)
Definition take (n : nat) (s : string) : string := substring 0 n s.

(** [s[n:]] *)
Fixpoint drop (n : nat) (s : string) : string :=
  match n, s with
  | O, _ => s
  | S n', String _ s' => drop n' s'
  | S _, EmptyString => EmptyString
  end.

Definition newline : ascii := ascii_of_nat 10.

(** [s.split('\n')]: never empty, one more piece than there are newlines. *)
Fixpoint split_lines (s : string) : list string :=
  match s with
  | EmptyString => [EmptyString]
  | String c s' =>
      if Ascii.eqb c newline then EmptyString :: split_lines s'
      else match split_lines s' with
           | l :: ls => String c l :: ls
           | [] => [String c EmptyString]
           end
  end.

(** [s.replace(a, b)] for one-character [a] and [b] *)
Fixpoint replace_char (a b : ascii) (s : string) : string :=
  match s with
  | EmptyString => EmptyString
  | String c s' => String (if Ascii.eqb c a then b else c) (replace_char a b s')
  end.

Definition is_alpha (c : ascii) : bool := is_upper c || is_lower c.

(** [s.title()]: a letter is upper-cased when it follows a non-letter (or
    starts the string) and lower-cased otherwise. *)
Fixpoint title_go (prev_cased : bool) (s : string) : string :=
  match s with
  | EmptyString => EmptyString
  | String c s' =>
      String (if prev_cased then lower_char c else upper_char c)
             (title_go (is_alpha c) s')
  end.

Definition title (s : string) : string := title_go false s.

(** [str(n)] for a non-negative integer *)
Definition of_nat (n : nat) : string := NilZero.string_of_uint (Nat.to_uint n).

End Str.

(** ** The [re] module: back-tracking regular expressions *)

Module Re.

(** One member of a bracketed set, or a one-character escape. *)
Inductive citem : Type :=
| IChar (c : ascii)            (* a literal character *)
| IRange (lo hi : ascii)       (* [lo-hi] *)
| ISpace                       (* \s *)
| IWord                        (* \w *)
| IDigit.                      (* \d *)

Inductive regex : Type :=
| Eps                                    (* the empty pattern *)
| CSet (neg : bool) (items : list citem) (* [...] or [^...], also one char *)
| Seq (r1 r2 : regex)                    (* r1r2 *)
| Alt (r1 r2 : regex)                    (* r1|r2 *)
| Star (r : regex)                       (* r*, greedy *)
| NegLook (r : regex).                   (* (?!r) *)

Definition is_space (c : ascii) : bool :=
  let n := nat_of_ascii c in
  ((9 <=? n)%nat && (n <=? 13)%nat) || ((28 <=? n)%nat && (n <=? 32)%nat).

Definition is_word (c : ascii) : bool :=
  Str.is_upper c || Str.is_lower c || Str.is_digit c || Ascii.eqb c "_".

Definition item_has (i : citem) (c : ascii) : bool :=
  match i with
  | IChar a => Ascii.eqb a c
  | IRange lo hi =>
      (nat_of_ascii lo <=? nat_of_ascii c)%nat && (nat_of_ascii c <=? nat_of_ascii hi)%nat
  | ISpace => is_space c
  | IWord => is_word c
  | IDigit => Str.is_digit c
  end.

Definition items_have (ic : bool) (items : list citem) (c : ascii) : bool :=
  existsb (fun i => item_has i c
                    || (ic && (item_has i (Str.lower_char c)
                               || item_has i (Str.upper_char c)))) items.

Definition cset_has (ic neg : bool) (items : list citem) (c : ascii) : bool :=
  xorb neg (items_have ic items c).

(** [run ic r s k]: match [r] at the start of [s]; every way of matching
    is tried in the engine's priority order and the first one whose rest
    the continuation [k] accepts wins. *)
Fixpoint run {A} (ic : bool) (r : regex) (s : string) (k : string -> option A)
  {struct r} : option A :=
  match r with
  | Eps => k s
  | CSet neg items =>
      match s with
      | String c s' => if cset_has ic neg items c then k s' else None
      | EmptyString => None
      end
  | Seq r1 r2 => run ic r1 s (fun s' => run ic r2 s' k)
  | Alt r1 r2 =>
      match run ic r1 s k with
      | Some x => Some x
      | None => run ic r2 s k
      end
  | Star r' =>
      (fix loop (fuel : nat) (s : string) {struct fuel} : option A :=
         match fuel with
         | O => k s
         | S fuel' =>
             match run ic r' s (fun s' =>
                      if (String.length s' <? String.length s)%nat
                      then loop fuel' s' else None) with
             | Some x => Some x
             | None => k s
             end
         end) (String.length s) s
  | NegLook r' =>
      match run ic r' s (fun _ => Some tt) with
      | Some _ => None
      | None => k s
      end
  end.

(** Length of the match of [r] at the start of [s], if there is one. *)
Definition match_len (ic : bool) (r : regex) (s : string) : option nat :=
  run ic r s (fun rest => Some (String.length s - String.length rest)).

(** A match object: [start()] and [group(0)]. *)
Record rmatch : Type := { m_start : nat; m_text : string }.

(** Length of the first match of [r] at the start of [s] that is not
    empty, if there is one: what the engine looks for at a position where
    it has just reported an empty match. *)
Definition match_len_nonempty (ic : bool) (r : regex) (s : string) : option nat :=
  run ic r s (fun rest =>
                if (String.length rest <? String.length s)%nat
                then Some (String.length s - String.length rest) else None).

(** The scan of [finditer]: [skip] characters still belong to the previous
    match; otherwise a match is tried at the current position. After an
    empty match the engine tries once more at the same position, now for
    a match that is not empty, before it moves on. *)
Fixpoint scan (ic : bool) (r : regex) (skip pos : nat) (s : string) : list rmatch :=
  match s with
  | EmptyString =>
      match skip, match_len ic r s with
      | O, Some _ => [ {| m_start := pos; m_text := EmptyString |} ]
      | _, _ => []
      end
  | String _ s' =>
      match skip with
      | S skip' => scan ic r skip' (S pos) s'
      | O =>
          match match_len ic r s with
          | Some (S n) =>
              {| m_start := pos; m_text := Str.take (S n) s |}
                :: scan ic r n (S pos) s'
          | Some O =>
              {| m_start := pos; m_text := EmptyString |}
                :: match match_len_nonempty ic r s with
                   | Some n =>
                       {| m_start := pos; m_text := Str.take n s |}
                         :: scan ic r (Nat.pred n) (S pos) s'
                   | None => scan ic r 0 (S pos) s'
                   end
          | None => scan ic r 0 (S pos) s'
          end
      end
  end.

(** [re.finditer(r, s, flags)] *)
Definition finditer (ic : bool) (r : regex) (s : string) : list rmatch :=
  scan ic r 0 0 s.

(** [re.findall(r, s)] for a pattern without groups *)
Definition findall (ic : bool) (r : regex) (s : string) : list string :=
  m_text <$> finditer ic r s.

(** [re.search(r, s)] as a truth value *)
Definition search (ic : bool) (r : regex) (s : string) : bool :=
  match finditer ic r s with [] => false | _ :: _ => true end.

(** *** Pattern syntax *)

Definition chr (c : ascii) : regex := CSet false [IChar c].
Definition any : regex := CSet true [].                     (* . with DOTALL *)
Definition dot : regex := CSet true [IChar Str.newline].    (* . *)
Definition sp : regex := CSet false [ISpace].               (* \s *)
Definition wd : regex := CSet false [IWord].                (* \w *)
Definition dg : regex := CSet false [IDigit].               (* \d *)
Definition one_of (l : list citem) : regex := CSet false l. (* [...] *)
Definition none_of (l : list citem) : regex := CSet true l. (* [^...] *)

Fixpoint lit (s : string) : regex :=
  match s with
  | EmptyString => Eps
  | String c EmptyString => chr c
  | String c s' => Seq (chr c) (lit s')
  end.

Definition plus (r : regex) : regex := Seq r (Star r).      (* r+ *)
Definition opt (r : regex) : regex := Alt r Eps.            (* r? *)

Fixpoint times (n : nat) (r : regex) : regex :=             (* r{n} *)
  match n with
  | O => Eps
  | S n' => Seq r (times n' r)
  end.

Definition at_least (n : nat) (r : regex) : regex :=        (* r{n,} *)
  Seq (times n r) (Star r).

Fixpoint up_to (n : nat) (r : regex) : regex :=             (* r{0,n} *)
  match n with
  | O => Eps
  | S n' => opt (Seq r (up_to n' r))
  end.

Definition between (lo hi : nat) (r : regex) : regex :=     (* r{lo,hi} *)
  Seq (times lo r) (up_to (hi - lo) r).

Fixpoint cat (l : list regex) : regex :=
  match l with
  | [] => Eps
  | [r] => r
  | r :: l' => Seq r (cat l')
  end.

Fixpoint alts (l : list regex) : regex :=
  match l with
  | [] => NegLook Eps
  | [r] => r
  | r :: l' => Alt r (alts l')
  end.

End Re.

(** ** The file tree *)

Module Fs.

(** What [open(path).read()] gives: the content, or an exception. *)
Inductive read_result : Type :=
| ReadOk (content : string)
| ReadError (exn : string).

(** A file met by [os.walk(project_path)] after the pruning of [dirs]:
    [root] as the walk yields it, the file's name, its path relative to
    the project, and what reading it gives. *)
Record source_file : Type := {
  root : string;
  fname : string;
  relative : string;
  read : read_result
}.

(** [posixpath.join(a, b)] *)
Definition join (a b : string) : string :=
  if Str.startswith "/" b then b
  else if String.eqb a "" || Str.endswith "/" a then a ++ b
  else a ++ "/" ++ b.

(** [s.split('/')] *)
Fixpoint split_slash (s : string) : list string :=
  match s with
  | EmptyString => [EmptyString]
  | String c s' =>
      if Ascii.eqb c "/" then EmptyString :: split_slash s'
      else match split_slash s' with
           | p :: ps => String c p :: ps
           | [] => [String c EmptyString]
           end
  end.

(** ['/'.join(parts)] *)
Fixpoint join_slash (parts : list string) : string :=
  match parts with
  | [] => ""
  | [p] => p
  | p :: ps => p ++ "/" ++ join_slash ps
  end.

(** The root of a path: one slash, or two when the path starts with
    exactly two. *)
Definition anchor (s : string) : string :=
  if Str.startswith "/" s
  then if Str.startswith "//" s && negb (Str.startswith "///" s) then "//" else "/"
  else "".

(** The components [pathlib] keeps: neither empty nor a single dot. *)
Definition parts (s : string) : list string :=
  filter (fun p => p <> "" /\ p <> ".") (split_slash s).

(** [str(Path(s))] *)
Definition normal (s : string) : string :=
  match anchor s ++ join_slash (parts s) with
  | EmptyString => "."
  | p => p
  end.

(** [str(Path(root) / file)] *)
Definition path_str (f : source_file) : string := normal (join (root f) (fname f)).

End Fs.

(** ** [performance_analyzer.py] *)

Module Perf.
Import Re Fs.

(** [class Severity(Enum)] *)
Inductive Severity : Type := CRITICAL | HIGH | MEDIUM | LOW | INFO.

(** [class Category(Enum)] *)
Inductive Category : Type :=
| MEMORY | CONCURRENCY | ALGORITHM | IO | UI | NETWORK | DATABASE.

(** [class Impact(Enum)] *)
Inductive Impact : Type := IMPACT_HIGH | IMPACT_MEDIUM | IMPACT_LOW | NEGLIGIBLE.

#[global] Instance Severity_eq_dec : EqDecision Severity.
Proof. solve_decision. Defined.
#[global] Instance Category_eq_dec : EqDecision Category.
Proof. solve_decision. Defined.
#[global] Instance Impact_eq_dec : EqDecision Impact.
Proof. solve_decision. Defined.

Definition severity_value (s : Severity) : string :=
  match s with
  | CRITICAL => "Critical" | HIGH => "High" | MEDIUM => "Medium"
  | LOW => "Low" | INFO => "Info"
  end.

Definition category_value (c : Category) : string :=
  match c with
  | MEMORY => "Memory Management"
  | CONCURRENCY => "Concurrency"
  | ALGORITHM => "Algorithm Complexity"
  | IO => "I/O Operations"
  | UI => "UI Responsiveness"
  | NETWORK => "Network"
  | DATABASE => "Database"
  end.

Definition impact_value (i : Impact) : string :=
  match i with
  | IMPACT_HIGH => "High Performance Impact"
  | IMPACT_MEDIUM => "Medium Performance Impact"
  | IMPACT_LOW => "Low Performance Impact"
  | NEGLIGIBLE => "Negligible"
  end.

(** [@dataclass class PerformanceMetric] *)
Record PerformanceMetric : Type := {
  name : string;
  category : Category;
  severity : Severity;
  file : string;
  line : option nat;
  description : string;
  recommendation : option string;
  estimated_impact : Impact
}.

(** [PerformanceAnalyzer.PATTERNS]; the scan compiles every pattern with
    [re.MULTILINE | re.DOTALL], so [.] is [any]. *)
Definition not_later (word : string) : regex :=        (* (?!.*word) *)
  NegLook (Seq (Star any) (lit word)).

Definition retain_cycles : list (regex * string) :=
  [ (cat [chr "{"; Star sp; lit "[self]"],
     "Strong self capture in closure");
    (cat [chr "{"; Star (one_of [ISpace]); lit "[self]"],
     "Strong self capture in closure");
    (cat [lit "Timer.scheduledTimer"; Star any; lit "target:"; Star sp; lit "self"],
     "Timer with strong self reference");
    (cat [lit "NotificationCenter.default.addObserver(self"; not_later "removeObserver"],
     "Notification observer without removal") ].

Definition memory : list (regex * string) :=
  [ (cat [lit "Data(contentsOf:"; not_later "async"],
     "Synchronous data loading");
    (cat [lit "UIImage(data:"; not_later "async"],
     "Synchronous image loading");
    (cat [lit "class"; plus sp; plus wd; Star any; chr "{"; not_later "deinit"],
     "Class without deinit");
    (cat [lit ".copy()"; not_later "autoreleasepool"],
     "Copy without autorelease pool") ].

Definition concurrency : list (regex * string) :=
  [ (lit "DispatchQueue.main.sync", "Main thread blocking");
    (lit "Task.detached", "Unstructured concurrency");
    (cat [lit "@Published"; not_later "@MainActor"], "Published without MainActor");
    (lit "DispatchSemaphore", "Semaphore usage (consider async/await)");
    (lit ".wait()", "Blocking wait operation") ].

Definition for_in : regex :=                           (* for\s+.*\s+in *)
  cat [lit "for"; plus sp; Star any; plus sp; lit "in"].

Definition algorithm : list (regex * string) :=
  [ (cat [for_in; plus sp; Star any; chr "{"; Star (none_of [IChar "}"]); for_in],
     "Nested loops detected");
    (lit ".sorted().first", "Sorting for single element");
    (cat [lit ".filter("; Star any; lit ").count"; Star sp; lit "=="; Star sp; chr "0"],
     "Inefficient empty check");
    (cat [lit ".map("; Star any; lit ").filter("; Star any; lit ").reduce"],
     "Multiple collection operations");
    (cat [lit "Array(repeating:"; Star any; lit "count:"; Star sp; at_least 4 dg],
     "Large array allocation") ].

Definition io : list (regex * string) :=
  [ (cat [lit "try"; plus sp; lit "String(contentsOf:"; not_later "async"],
     "Synchronous file reading");
    (cat [lit "try"; plus sp; lit "Data(contentsOf:"; not_later "async"],
     "Synchronous data loading");
    (cat [lit "UserDefaults.standard."; plus wd], "UserDefaults access");
    (cat [lit "FileManager.default.";
          alts [lit "createFile"; lit "removeItem"; lit "copyItem"];
          not_later "async"],
     "Synchronous file operations") ].

Definition ui : list (regex * string) :=
  [ (cat [lit ".onAppear"; Star sp; chr "{"; Star (none_of [IChar "}"]); chr ".";
          alts [lit "sorted"; lit "filter"; lit "map"; lit "reduce"]],
     "Heavy operation in onAppear");
    (cat [lit "body"; Star sp; chr ":"; Star sp; lit "some"; plus sp; lit "View";
          Star sp; chr "{"; Star (none_of [IChar "}"]); for_in],
     "Loop in SwiftUI body");
    (cat [lit ".task"; Star sp; chr "{"; not_later "await"], "Task without await");
    (cat [lit "Image(uiImage:"; not_later "async"], "Synchronous image creation") ].

Definition PATTERNS : gmap string (list (regex * string)) :=
  list_to_map
    [ ("retain_cycles", retain_cycles); ("memory", memory);
      ("concurrency", concurrency); ("algorithm", algorithm);
      ("io", io); ("ui", ui) ].

(** The analyzer object: [self.metrics] and what has been printed. *)
Record analyzer : Type := {
  metrics : list PerformanceMetric;
  stdout : list string
}.

Definition append_metric (m : PerformanceMetric) (st : analyzer) : analyzer :=
  {| metrics := metrics st ++ [m]; stdout := stdout st |}.

Definition print (msg : string) (st : analyzer) : analyzer :=
  {| metrics := metrics st; stdout := stdout st ++ [msg] |}.

(** [_get_line_number] *)
Definition _get_line_number (position : nat) (content : string) : nat :=
  Str.count_char Str.newline (Str.take position content) + 1.

(** The metric built in the body of [_check_patterns]. *)
Definition pattern_metric (content file_name pattern_key : string)
    (categ : Category) (sev : Severity) (imp : Impact) (recomm : string)
    (descr : string) (m : rmatch) : PerformanceMetric :=
  {| name := Str.title (Str.replace_char "_" " " pattern_key) ++ " Issue";
     category := categ;
     severity := sev;
     file := file_name;
     line := Some (_get_line_number (m_start m) content);
     description := descr;
     recommendation := Some recomm;
     estimated_impact := imp |}.

(** [_check_patterns]: the two nested [for] loops, as folds over the
    state. *)
Definition _check_patterns (content : string) (lines : list string)
    (file_name pattern_key : string)
    (categ : Category) (sev : Severity) (imp : Impact) (recomm : string)
    (st : analyzer) : analyzer :=
  foldl (fun st pd =>
           foldl (fun st m =>
                    append_metric
                      (pattern_metric content file_name pattern_key categ sev imp recomm pd.2 m)
                      st)
                 st (finditer false pd.1 content))
        st (default [] (PATTERNS !! pattern_key)).

(** The two counting patterns of [_check_specific_issues]. *)
Definition userdefaults_re : regex := lit "UserDefaults.standard".

Definition force_unwrap_re : regex :=                  (* !\s*[,\)\}\.] *)
  cat [chr "!"; Star sp; one_of [IChar ","; IChar ")"; IChar "}"; IChar "."]].

Definition userdefaults_count (content : string) : nat :=
  length (findall false userdefaults_re content).

Definition force_unwrap_count (content : string) : nat :=
  length (findall false force_unwrap_re content).

Definition excessive_userdefaults (file_name : string) (n : nat) : PerformanceMetric :=
  {| name := "Excessive UserDefaults Access";
     category := IO;
     severity := LOW;
     file := file_name;
     line := None;
     description := "File has " ++ Str.of_nat n ++ " UserDefaults accesses";
     recommendation := Some "Cache UserDefaults values in properties";
     estimated_impact := IMPACT_LOW |}.

Definition large_file (file_name : string) (n : nat) : PerformanceMetric :=
  {| name := "Large File";
     category := ALGORITHM;
     severity := LOW;
     file := file_name;
     line := None;
     description := "File has " ++ Str.of_nat n ++ " lines, consider splitting";
     recommendation := Some "Break down into smaller, focused components";
     estimated_impact := IMPACT_LOW |}.

Definition synchronous_network_call (file_name : string) : PerformanceMetric :=
  {| name := "Synchronous Network Call";
     category := NETWORK;
     severity := CRITICAL;
     file := file_name;
     line := None;
     description := "URLSession usage without async/await";
     recommendation := Some "Use async/await for network operations";
     estimated_impact := IMPACT_HIGH |}.

Definition excessive_force_unwrapping (file_name : string) (n : nat) : PerformanceMetric :=
  {| name := "Excessive Force Unwrapping";
     category := MEMORY;
     severity := MEDIUM;
     file := file_name;
     line := None;
     description := "Found " ++ Str.of_nat n ++ " force unwraps";
     recommendation := Some "Use optional binding or nil-coalescing";
     estimated_impact := IMPACT_MEDIUM |}.

(** [if cond: self.metrics.append(m)] *)
Definition append_if (cond : bool) (m : PerformanceMetric) (st : analyzer) : analyzer :=
  if cond then append_metric m st else st.

(** [_check_specific_issues] *)
Definition _check_specific_issues (content : string) (lines : list string)
    (file_name : string) (st : analyzer) : analyzer :=
  let st := append_if (5 <? userdefaults_count content)%nat
              (excessive_userdefaults file_name (userdefaults_count content)) st in
  let st := append_if (500 <? length lines)%nat
              (large_file file_name (length lines)) st in
  let st := append_if (Str.contains "URLSession" content
                       && negb (Str.contains "async" content))
              (synchronous_network_call file_name) st in
  append_if (3 <? force_unwrap_count content)%nat
    (excessive_force_unwrapping file_name (force_unwrap_count content)) st.

(** [_analyze_file] *)
Definition _analyze_file (f : source_file) (st : analyzer) : analyzer :=
  match read f with
  | ReadError e =>
      print ("⚠️  Error reading " ++ path_str f ++ ": " ++ e) st
  | ReadOk content =>
      let lines := Str.split_lines content in
      let file_name := fname f in
      let st := _check_patterns content lines file_name "retain_cycles"
                  MEMORY HIGH IMPACT_HIGH
                  "Use [weak self] or [unowned self] to break retain cycles" st in
      let st := _check_patterns content lines file_name "memory"
                  MEMORY MEDIUM IMPACT_MEDIUM
                  "Consider async operations or proper memory management" st in
      let st := _check_patterns content lines file_name "concurrency"
                  CONCURRENCY HIGH IMPACT_HIGH
                  "Use modern Swift concurrency features" st in
      let st := _check_patterns content lines file_name "algorithm"
                  ALGORITHM MEDIUM IMPACT_MEDIUM
                  "Optimize algorithm for better performance" st in
      let st := _check_patterns content lines file_name "io"
                  IO MEDIUM IMPACT_MEDIUM
                  "Use async I/O operations" st in
      let st := if Str.contains "View" file_name || Str.contains "ViewModel" file_name
                then _check_patterns content lines file_name "ui"
                       UI HIGH IMPACT_HIGH
                       "Move heavy operations out of UI code" st
                else st in
      _check_specific_issues content lines file_name st
  end.

(** [_find_swift_files], over the files the pruned walk visits. *)
Definition _find_swift_files (walk : list source_file) : list source_file :=
  filter (fun f => Str.endswith ".swift" (fname f) = true
                   ∧ Str.contains "Tests" (root f) = false) walk.

(** [sum(1 for m in self.metrics if m.severity == sev)] *)
Definition count_severity (sev : Severity) (ms : list PerformanceMetric) : nat :=
  length (filter (fun m => severity m = sev) ms).

Definition severity_counts_of (ms : list PerformanceMetric) : gmap string nat :=
  list_to_map
    [ ("critical", count_severity CRITICAL ms);
      ("high", count_severity HIGH ms);
      ("medium", count_severity MEDIUM ms);
      ("low", count_severity LOW ms);
      ("info", count_severity INFO ms) ].

(** [severity_counts[k]] for one of the five keys. *)
Definition sc (counts : gmap string nat) (k : string) : nat := default 0 (counts !! k).

(** The [for metric in self.metrics] loop that fills [category_counts]. *)
Definition category_counts_of (ms : list PerformanceMetric) : gmap string nat :=
  foldl (fun counts m =>
           let c := category_value (category m) in
           <[c := default 0 (counts !! c) + 1]> counts)
        ∅ ms.

Definition total_weight_of (counts : gmap string nat) : nat :=
  sc counts "critical" * 10 + sc counts "high" * 5 + sc counts "medium" * 2
  + sc counts "low".

Definition max_weight_of (ms : list PerformanceMetric) : nat :=
  match ms with
  | [] => 1
  | _ :: _ => length ms * 10
  end.

Definition Qnat (n : nat) : Q := inject_Z (Z.of_nat n).

(** [performance_score], as line 308 computes it. *)
Definition performance_score_of (ms : list PerformanceMetric) : Q :=
  Qmax 0 (100 - Qnat (total_weight_of (severity_counts_of ms))
                / Qnat (max_weight_of ms) * 100)%Q.

(** The computation of line 308 in binary64, as Python carries it out:
    [f64 n] is the float of a small integer, the quotient of two integers
    is the float nearest to their exact quotient, and [max(0, x)] keeps [x]
    only when [0 < x]. *)
Definition f64 (n : nat) : spec_float :=
  binary_normalize 53 1024 (Z.of_nat n) 0 false.

(** An integer as an unrounded significand with exponent 0. *)
Definition int_float (n : nat) : spec_float :=
  match Z.of_nat n with
  | Zpos p => S754_finite false p 0
  | _ => S754_zero false
  end.

(** [a / b] for two integers. *)
Definition true_divide (a b : nat) : spec_float :=
  SFdiv 53 1024 (int_float a) (int_float b).

Definition performance_score_float (ms : list PerformanceMetric) : spec_float :=
  let ratio := true_divide (total_weight_of (severity_counts_of ms)) (max_weight_of ms) in
  let x := SFsub 53 1024 (f64 100) (SFmul 53 1024 ratio (f64 100)) in
  if SFltb (f64 0) x then x else f64 0.

(** The rational a finite float stands for. *)
Definition float_value (x : spec_float) : option Q :=
  match x with
  | S754_zero _ => Some 0%Q
  | S754_finite s m e =>
      Some ((if s then -1 else 1) * inject_Z (Z.pos m) * Qpower 2 e)%Q
  | _ => None
  end.

(** [round(x)] to an integer, halves to the even neighbour. *)
Definition round_half_even (x : Q) : Z :=
  let f := Qfloor x in
  match (x - inject_Z f ?= 1 # 2)%Q with
  | Lt => f
  | Gt => (f + 1)%Z
  | Eq => if Z.even f then f else (f + 1)%Z
  end.

(** [round(x, 2)] of a float: the exact value of [x] is rounded to a whole
    number of hundredths, halves to the even one, and the result is the
    float nearest to that decimal; zeros, infinities and NaN come back
    unchanged. *)
Definition round2 (x : spec_float) : spec_float :=
  match x with
  | S754_finite s m e =>
      match round_half_even (inject_Z (Z.pos m) * Qpower 2 e * 100)%Q with
      | Zpos h => SFdiv 53 1024 (S754_finite s h 0) (S754_finite false 100 0)
      | _ => S754_zero s
      end
  | _ => x
  end.

(** Sort keys of [_get_top_issues]. *)
Definition severity_order (s : Severity) : nat :=
  match s with
  | CRITICAL => 0 | HIGH => 1 | MEDIUM => 2 | LOW => 3 | INFO => 4
  end.

Definition sort_key (m : PerformanceMetric) : nat * string :=
  (severity_order (severity m), impact_value (estimated_impact m)).

(** Python's order on the key tuples: first components, then the strings
    by code point. *)
Definition key_leb (a b : nat * string) : bool :=
  (a.1 <? b.1)%nat || ((a.1 =? b.1)%nat && String.leb a.2 b.2).

(** [sorted(xs, key=...)]: the stable sort, here by insertion; [x] goes
    before the first element whose key is strictly larger. *)
Fixpoint insert_by {A} (key : A -> nat * string) (x : A) (l : list A) : list A :=
  match l with
  | [] => [x]
  | y :: l' => if key_leb (key y) (key x) then y :: insert_by key x l'
               else x :: y :: l'
  end.

Definition sorted_by {A} (key : A -> nat * string) (l : list A) : list A :=
  foldl (fun acc x => insert_by key x acc) [] l.

(** [_get_top_issues] *)
Definition _get_top_issues (limit : nat) (ms : list PerformanceMetric)
  : list PerformanceMetric :=
  take limit (sorted_by sort_key ms).

Definition default_limit : nat := 5.

(** The dictionary returned by [_generate_summary]. *)
Record Summary : Type := {
  total_issues : nat;
  severity_counts : gmap string nat;
  category_counts : gmap string nat;
  performance_score : spec_float;
  recommendations : list string;
  top_issues : list PerformanceMetric
}.

Definition cc (counts : gmap string nat) (c : Category) : nat :=
  default 0 (counts !! category_value c).

Definition add_if (cond : bool) (msg : string) (recs : list string) : list string :=
  if cond then recs ++ [msg] else recs.

Definition recommendations_of (sev_counts cat_counts : gmap string nat) (score : Q)
  : list string :=
  let recs := [] in
  let recs := add_if (0 <? sc sev_counts "critical")%nat
                ("Fix " ++ Str.of_nat (sc sev_counts "critical")
                 ++ " critical issues immediately") recs in
  let recs := add_if (3 <? cc cat_counts MEMORY)%nat
                "Review memory management patterns" recs in
  let recs := add_if (3 <? cc cat_counts CONCURRENCY)%nat
                "Audit concurrency patterns for thread safety" recs in
  let recs := add_if (2 <? cc cat_counts UI)%nat
                "Optimize UI operations for responsiveness" recs in
  add_if (match (score ?= 70)%Q with Lt => true | _ => false end)
    "Consider performance profiling with Instruments" recs.

(** [_generate_summary]. The score that is reported is the binary64 one,
    rounded; the test [performance_score < 70] of the recommendations is
    made on the exact value. *)
Definition _generate_summary (st : analyzer) : Summary :=
  let ms := metrics st in
  let sev_counts := severity_counts_of ms in
  let cat_counts := category_counts_of ms in
  let score := performance_score_of ms in
  {| total_issues := length ms;
     severity_counts := sev_counts;
     category_counts := cat_counts;
     performance_score := round2 (performance_score_float ms);
     recommendations := recommendations_of sev_counts cat_counts score;
     top_issues := _get_top_issues default_limit ms |}.

(** The dictionary returned by [analyze]; the timestamp is left out. *)
Record Report : Type := {
  project_path : string;
  report_metrics : list PerformanceMetric;
  summary : Summary
}.

Definition initial : analyzer := {| metrics := []; stdout := [] |}.

(** [analyze], on the files the walk of [project] visits. *)
Definition analyze (project : string) (walk : list source_file)
  : Report * analyzer :=
  let st := print ("🔍 Starting performance analysis for: " ++ project) initial in
  let swift_files := _find_swift_files walk in
  let st := print ("📁 Found " ++ Str.of_nat (length swift_files)
                   ++ " Swift files to analyze") st in
  let st := foldl (fun st f => _analyze_file f st) st swift_files in
  ({| project_path := project;
      report_metrics := metrics st;
      summary := _generate_summary st |}, st).

End Perf.

(** ** [security_analyzer.py] *)

Module Sec.
Import Re Fs.

(** Values stored in the issue dictionaries. *)
Inductive value : Type :=
| VStr (s : string)
| VInt (n : nat)
| VBool (b : bool)
| VStrs (l : list string)
| VDict (d : list (string * list string)).

#[global] Instance value_eq_dec : EqDecision value.
Proof. solve_decision. Defined.

(** An issue is a Python [dict] with string keys. *)
Abbreviation issue := (gmap string value).

(** [self.results], together with what has been printed. *)
Record analyzer : Type := {
  security_score : Z;
  critical_issues : list issue;
  high_issues : list issue;
  medium_issues : list issue;
  low_issues : list issue;
  info : list issue;
  best_practices : list string;
  statistics : gmap string nat;
  stdout : list string
}.

(** [__init__] *)
Definition initial : analyzer :=
  {| security_score := 0; critical_issues := []; high_issues := [];
     medium_issues := []; low_issues := []; info := [];
     best_practices := []; statistics := ∅; stdout := [] |}.

Definition append_critical (i : issue) (st : analyzer) : analyzer :=
  {| security_score := security_score st;
     critical_issues := critical_issues st ++ [i];
     high_issues := high_issues st; medium_issues := medium_issues st;
     low_issues := low_issues st; info := info st;
     best_practices := best_practices st; statistics := statistics st;
     stdout := stdout st |}.

Definition append_high (i : issue) (st : analyzer) : analyzer :=
  {| security_score := security_score st;
     critical_issues := critical_issues st;
     high_issues := high_issues st ++ [i]; medium_issues := medium_issues st;
     low_issues := low_issues st; info := info st;
     best_practices := best_practices st; statistics := statistics st;
     stdout := stdout st |}.

Definition append_medium (i : issue) (st : analyzer) : analyzer :=
  {| security_score := security_score st;
     critical_issues := critical_issues st;
     high_issues := high_issues st; medium_issues := medium_issues st ++ [i];
     low_issues := low_issues st; info := info st;
     best_practices := best_practices st; statistics := statistics st;
     stdout := stdout st |}.

Definition append_low (i : issue) (st : analyzer) : analyzer :=
  {| security_score := security_score st;
     critical_issues := critical_issues st;
     high_issues := high_issues st; medium_issues := medium_issues st;
     low_issues := low_issues st ++ [i]; info := info st;
     best_practices := best_practices st; statistics := statistics st;
     stdout := stdout st |}.

Definition append_info (i : issue) (st : analyzer) : analyzer :=
  {| security_score := security_score st;
     critical_issues := critical_issues st;
     high_issues := high_issues st; medium_issues := medium_issues st;
     low_issues := low_issues st; info := info st ++ [i];
     best_practices := best_practices st; statistics := statistics st;
     stdout := stdout st |}.

Definition print (msg : string) (st : analyzer) : analyzer :=
  {| security_score := security_score st;
     critical_issues := critical_issues st;
     high_issues := high_issues st; medium_issues := medium_issues st;
     low_issues := low_issues st; info := info st;
     best_practices := best_practices st; statistics := statistics st;
     stdout := stdout st ++ [msg] |}.

(** *** The pattern tables of [__init__]

    The tables are dictionaries that the scans only iterate with
    [.items()], in insertion order: they are kept as ordered lists. *)

Definition dquote : ascii := ascii_of_nat 34.
Definition backslash : ascii := ascii_of_nat 92.
Definition quote : regex := one_of [IChar dquote; IChar "'"].
Definition unquoted : regex := none_of [IChar dquote; IChar "'"].
Definition alnum : list citem := [IRange "a" "z"; IRange "A" "Z"; IRange "0" "9"].
Definition either (a b : ascii) : regex := one_of [IChar a; IChar b].

(** Optional blanks, [:] or [=], optional blanks, then a non-empty
    literal between quotes of either kind. *)
Definition assigned_literal : regex :=
  cat [Star sp; either ":" "="; Star sp; quote; plus unquoted; quote].

Definition sensitive_word : regex :=               (* (password|token|key|secret) *)
  alts [lit "password"; lit "token"; lit "key"; lit "secret"].

(** A rule: its name, whether the pattern itself switches case folding on
    with [(?i)], and the pattern. *)
Definition credential_patterns : list (string * (bool * regex)) :=
  [ ("api_key_generic",
     (false, cat [either "a" "A"; either "p" "P"; either "i" "I";
                  opt (either "-" "_");
                  either "k" "K"; either "e" "E"; either "y" "Y";
                  assigned_literal]));
    ("hardcoded_secret",
     (true, cat [alts [lit "secret"; lit "password"; lit "token"; lit "key"];
                 assigned_literal]));
    ("aws_key",
     (false, cat [lit "AKIA"; times 16 (one_of [IRange "0" "9"; IRange "A" "Z"])]));
    ("github_token",
     (false, cat [lit "ghp_"; times 36 (one_of alnum)]));
    ("slack_token",
     (false, cat [lit "xox";
                  one_of [IChar "b"; IChar "a"; IChar "p"; IChar "r"; IChar "s"];
                  chr "-"; between 10 12 (one_of [IRange "0" "9"]);
                  chr "-"; times 24 (one_of alnum)]));
    ("private_key",
     (false, cat [lit "-----BEGIN "; alts [lit "RSA"; lit "EC"; lit "DSA"];
                  lit " PRIVATE KEY-----"]));
    ("bearer_token",
     (false, cat [lit "Bearer"; plus sp;
                  plus (one_of (alnum ++ [IChar "-"; IChar "_"; IChar "."]))]));
    ("basic_auth",
     (false, cat [lit "Basic"; plus sp;
                  plus (one_of (alnum ++ [IChar "+"; IChar "/"]));
                  Star (chr "=")]));
    ("deepgram_key",
     (false, at_least 32 (one_of [IRange "a" "f"; IRange "0" "9"])));
    ("openai_key",
     (false, cat [lit "sk-"; times 48 (one_of alnum)]));
    ("anthropic_key",
     (false, cat [lit "sk-ant-"; at_least 50 (one_of alnum)])) ].

(** Without [re.DOTALL], [.] is [dot]. *)
Definition vulnerability_patterns : list (string * regex) :=
  [ ("sql_injection",
     cat [alts [lit "SELECT"; lit "INSERT"; lit "UPDATE"; lit "DELETE"; lit "DROP"];
          Star dot; chr "+"; Star sp; plus wd]);
    ("command_injection",
     cat [alts [lit "Process"; lit "Runtime"; lit "exec"; lit "system"; lit "popen"];
          Star dot; chr "+"; Star sp; plus wd]);
    ("path_traversal", Alt (lit "../") (Seq (lit "..") (chr backslash)));
    ("weak_random", Alt (lit "arc4random()") (lit "random()"));
    ("unsafe_deserialization",
     Alt (lit "NSKeyedUnarchiver") (cat [lit "JSONSerialization"; Star dot; lit "unsafe"]));
    ("weak_crypto", alts [lit "MD5"; lit "SHA1"; lit "DES"; lit "RC4"]);
    ("http_urls", cat [lit "http://"; none_of [IChar "s"]]);
    ("localhost_refs", alts [lit "localhost"; lit "127.0.0.1"; lit "0.0.0.0"]);
    ("debug_enabled",
     cat [lit "DEBUG"; Star sp; chr "="; Star sp;
          alts [lit "true"; lit "True"; lit "YES"; lit "1"]]);
    ("logging_sensitive",
     cat [alts [lit "print"; lit "NSLog"; lit "os_log"]; Star dot; chr "(";
          sensitive_word]) ].

Definition network_security : list (string * regex) :=
  [ ("no_ssl_pinning",
     cat [lit "URLSession"; NegLook (cat [Star dot; lit "ServerTrustPolicy"])]);
    ("allows_arbitrary_loads", cat [lit "NSAllowsArbitraryLoads"; Star dot; lit "true"]);
    ("no_cert_validation", lit "continueWithoutCredentialForAuthenticationChallenge");
    ("weak_tls",
     cat [lit "TLSMinimumSupportedProtocol"; Star dot; lit "TLS";
          Alt (lit "1.0") (lit "1.1")]);
    ("no_ats", lit "NSAppTransportSecurity") ].

Definition memory_security : list (string * regex) :=
  [ ("unsafe_unowned", cat [lit "unowned"; plus sp; lit "var"]);
    ("force_unwrap_sensitive", cat [sensitive_word; Star dot; chr "!"]);
    ("missing_secure_coding",
     cat [lit "NSCoding"; NegLook (cat [Star dot; lit "NSSecureCoding"])]);
    ("raw_pointers", cat [lit "Unsafe"; opt (lit "Raw"); lit "Pointer"]);
    ("memory_not_cleared",
     cat [sensitive_word;
          NegLook (Alt (cat [Star dot; lit "memset"]) (lit "bzero"))]) ].

(** *** The scanning passes *)

Definition false_positive_indicators : list string :=
  [ "example"; "test"; "mock"; "fake"; "dummy"; "placeholder";
    "YOUR_"; "XXXX"; "..."; "***"; "TODO"; "FIXME" ].

(** [is_false_positive] *)
Definition is_false_positive (text pattern_name : string) : bool :=
  let match_lower := Str.lower text in
  existsb (fun indicator => Str.contains (Str.lower indicator) match_lower)
          false_positive_indicators.

(** [file.endswith((ext1, ext2, ...))] *)
Definition has_ext (exts : list string) (f : source_file) : bool :=
  existsb (fun e => Str.endswith e (fname f)) exts.

(** The [for file in files: if file.endswith(...): try: ... except: pass]
    frame shared by the passes: [body] runs on the content of every file
    with one of the extensions that can be read; a file whose read raises
    leaves the state as it is. *)
Definition for_each_file {S : Type} (exts : list string)
    (body : source_file -> string -> S -> S)
    (walk : list source_file) (st : S) : S :=
  foldl (fun st f =>
           if has_ext exts f then
             match read f with
             | ReadOk content => body f content st
             | ReadError _ => st
             end
           else st)
        st walk.

Definition credential_severity (pattern_name : string) : string :=
  if Str.contains "key" (Str.lower pattern_name) then "critical" else "high".

Definition credential_issue (f : source_file) (line_num : nat) (line : string)
    (pattern_name : string) : issue :=
  list_to_map
    [ ("type", VStr "Hardcoded Credential");
      ("pattern", VStr pattern_name);
      ("file", VStr (relative f));
      ("line", VInt line_num);
      ("snippet", VStr (Str.take 100 line));
      ("severity", VStr (credential_severity pattern_name)) ].

(** The body of [for match in matches] in [scan_credentials]. *)
Definition credential_match (f : source_file) (line_num : nat) (line : string)
    (pattern_name : string) (m : rmatch) (st : analyzer) : analyzer :=
  if is_false_positive (m_text m) pattern_name then st
  else
    let i := credential_issue f line_num line pattern_name in
    if String.eqb (credential_severity pattern_name) "critical"
    then append_critical i st
    else append_high i st.

(** One line of a file against every credential rule. *)
Definition credential_line (f : source_file) (line_num : nat) (line : string)
    (st : analyzer) : analyzer :=
  foldl (fun st rule =>
           foldl (fun st m => credential_match f line_num line rule.1 m st)
                 st (finditer rule.2.1 rule.2.2 line))
        st credential_patterns.

(** The lines of a file with their numbers, from 1. *)
Definition numbered_lines (content : string) : list (nat * string) :=
  imap (fun i line => (S i, line)) (Str.split_lines content).

Definition credential_exts : list string :=
  [".swift"; ".m"; ".h"; ".json"; ".plist"; ".yaml"; ".yml"].

(** [scan_credentials] *)
Definition scan_credentials (walk : list source_file) (st : analyzer) : analyzer :=
  let st := print "  🔍 Scanning for credentials..." st in
  for_each_file credential_exts
    (fun f content st =>
       foldl (fun st nl => credential_line f nl.1 nl.2 st)
             st (numbered_lines content))
    walk st.

(** [get_vulnerability_severity] *)
Definition get_vulnerability_severity (vuln_name : string) : string :=
  let critical := ["sql_injection"; "command_injection"] in
  let high := ["weak_crypto"; "unsafe_deserialization"; "path_traversal"] in
  let medium := ["weak_random"; "http_urls"; "debug_enabled"] in
  if bool_decide (vuln_name ∈ critical) then "critical"
  else if bool_decide (vuln_name ∈ high) then "high"
  else if bool_decide (vuln_name ∈ medium) then "medium"
  else "low".

(** [add_issue] *)
Definition add_issue (i : issue) (severity : string) (st : analyzer) : analyzer :=
  if String.eqb severity "critical" then append_critical i st
  else if String.eqb severity "high" then append_high i st
  else if String.eqb severity "medium" then append_medium i st
  else append_low i st.

Definition pretty_name (rule_name : string) : string :=
  Str.title (Str.replace_char "_" " " rule_name).

Definition vulnerability_issue (f : source_file) (content vuln_name : string)
    (m : rmatch) : issue :=
  list_to_map
    [ ("type", VStr "Security Vulnerability");
      ("vulnerability", VStr (pretty_name vuln_name));
      ("file", VStr (relative f));
      ("line", VInt (Str.count_char Str.newline (Str.take (m_start m) content) + 1));
      ("pattern_matched", VStr (Str.take 100 (m_text m)));
      ("severity", VStr (get_vulnerability_severity vuln_name)) ].

(** [scan_vulnerabilities]: every pattern is searched with
    [re.IGNORECASE]. *)
Definition scan_vulnerabilities (walk : list source_file) (st : analyzer) : analyzer :=
  let st := print "  🐛 Scanning for vulnerabilities..." st in
  for_each_file [".swift"; ".m"; ".h"]
    (fun f content st =>
       foldl (fun st rule =>
                foldl (fun st m =>
                         add_issue (vulnerability_issue f content rule.1 m)
                                   (get_vulnerability_severity rule.1) st)
                      st (finditer true rule.2 content))
             st vulnerability_patterns)
    walk st.

Definition network_severity (sec_name : string) : string :=
  if Str.contains "ssl" sec_name || Str.contains "tls" sec_name
  then "high" else "medium".

Definition network_issue (f : source_file) (sec_name : string) : issue :=
  list_to_map
    [ ("type", VStr "Network Security");
      ("issue", VStr (pretty_name sec_name));
      ("file", VStr (relative f));
      ("severity", VStr (network_severity sec_name)) ].

(** [check_network_security] *)
Definition check_network_security (walk : list source_file) (st : analyzer) : analyzer :=
  let st := print "  🌐 Checking network security..." st in
  for_each_file [".swift"; ".plist"]
    (fun f content st =>
       foldl (fun st rule =>
                if search false rule.2 content
                then add_issue (network_issue f rule.1) (network_severity rule.1) st
                else st)
             st network_security)
    walk st.

Definition memory_issue (f : source_file) (content mem_issue : string)
    (m : rmatch) : issue :=
  list_to_map
    [ ("type", VStr "Memory Security");
      ("issue", VStr (pretty_name mem_issue));
      ("file", VStr (relative f));
      ("line", VInt (Str.count_char Str.newline (Str.take (m_start m) content) + 1));
      ("severity", VStr "medium") ].

(** [check_memory_security] *)
Definition check_memory_security (walk : list source_file) (st : analyzer) : analyzer :=
  let st := print "  💾 Checking memory security..." st in
  for_each_file [".swift"]
    (fun f content st =>
       foldl (fun st rule =>
                foldl (fun st m => append_medium (memory_issue f content rule.1 m) st)
                      st (finditer false rule.2 content))
             st memory_security)
    walk st.

Definition encryption_checks : list (string * string) :=
  [ ("CommonCrypto", "Using CommonCrypto (legacy)");
    ("CryptoKit", "Using CryptoKit (recommended)");
    ("SecKey", "Using SecKey for key management");
    ("Keychain", "Using Keychain for secure storage") ].

(** [check_encryption] *)
Definition check_encryption (walk : list source_file) (st : analyzer) : analyzer :=
  let st := print "  🔐 Checking encryption..." st in
  for_each_file [".swift"]
    (fun f content st =>
       foldl (fun st chk =>
                if Str.contains chk.1 content
                then append_info
                       (list_to_map
                          [ ("type", VStr "Encryption");
                            ("library", VStr chk.1);
                            ("description", VStr chk.2);
                            ("file", VStr (relative f)) ]) st
                else st)
             st encryption_checks)
    walk st.

Definition auth_patterns : list (string * regex) :=
  [ ("biometric", alts [lit "LAContext"; lit "evaluatePolicy"; lit "biometryType"]);
    ("oauth", alts [lit "OAuth"; lit "authorization_code"; lit "client_credentials"]);
    ("jwt",
     Alt (lit "JWT")
         (cat [lit "Bearer"; plus sp; lit "ey";
               one_of [IRange "A" "Z"; IRange "a" "z"; IRange "0" "9"]]));
    ("api_key",
     Alt (cat [either "A" "a"; lit "pi"; either "K" "k"; lit "ey"]) (lit "X-API-Key")) ].

(** [auth_found[auth_type].append(path)], with the key created on first
    use; the dictionary keeps its keys in insertion order. *)
Fixpoint auth_add (auth_type path : string) (found : list (string * list string))
  : list (string * list string) :=
  match found with
  | [] => [(auth_type, [path])]
  | (k, paths) :: rest =>
      if String.eqb k auth_type then (k, (paths ++ [path])%list) :: rest
      else (k, paths) :: auth_add auth_type path rest
  end.

(** The walk of [check_authentication], which fills [auth_found]. *)
Definition auth_found_of (walk : list source_file) : list (string * list string) :=
  for_each_file [".swift"]
    (fun f content found =>
       foldl (fun found rule =>
                if search false rule.2 content
                then auth_add rule.1 (relative f) found
                else found)
             found auth_patterns)
    walk [].

(** [check_authentication] *)
Definition check_authentication (walk : list source_file) (st : analyzer) : analyzer :=
  let st := print "  🔑 Checking authentication..." st in
  let auth_found := auth_found_of walk in
  match auth_found with
  | [] => st
  | _ :: _ =>
      append_info
        (list_to_map
           [ ("type", VStr "Authentication Methods");
             ("methods", VStrs auth_found.*1);
             ("details", VDict auth_found) ]) st
  end.

(** [calculate_security_score]; [files_scanned] stands for the count of
    [rglob('*.swift')]. *)
Definition calculate_security_score (files_scanned : nat) (st : analyzer) : analyzer :=
  let score := 100%Z in
  let score := (score - Z.of_nat (length (critical_issues st)) * 20)%Z in
  let score := (score - Z.of_nat (length (high_issues st)) * 10)%Z in
  let score := (score - Z.of_nat (length (medium_issues st)) * 5)%Z in
  let score := (score - Z.of_nat (length (low_issues st)) * 2)%Z in
  let score := Z.max 0 score in
  {| security_score := score;
     critical_issues := critical_issues st;
     high_issues := high_issues st; medium_issues := medium_issues st;
     low_issues := low_issues st; info := info st;
     best_practices := best_practices st;
     statistics :=
       list_to_map
         [ ("total_issues",
            length (critical_issues st) + length (high_issues st)
            + length (medium_issues st) + length (low_issues st));
           ("critical_count", length (critical_issues st));
           ("high_count", length (high_issues st));
           ("medium_count", length (medium_issues st));
           ("low_count", length (low_issues st));
           ("files_scanned", files_scanned) ];
     stdout := stdout st |}.

End Sec.

(** * Notions used to state the properties *)

(** ** For the performance analyzer *)

Module PerfNotions.
Import Re Fs Perf.

(** Every routine of the analyzer only appends to [self.metrics] and to
    the output. [extend ms out st] is [st] with [ms] and [out] appended;
    [emits g ms out] says that [g] extends any state by them. *)
Definition extend (ms : list PerformanceMetric) (out : list string)
    (st : analyzer) : analyzer :=
  {| metrics := metrics st ++ ms; stdout := stdout st ++ out |}.

Definition emits (g : analyzer -> analyzer)
    (ms : list PerformanceMetric) (out : list string) : Prop :=
  forall st, g st = extend ms out st.

(** The metrics a pattern group contributes for a file. *)
Definition pattern_metrics (content file_name pattern_key : string)
    (categ : Category) (sev : Severity) (imp : Impact) (recomm : string)
  : list PerformanceMetric :=
  concat ((fun pd : regex * string =>
             pattern_metric content file_name pattern_key categ sev imp recomm pd.2
               <$> finditer false pd.1 content)
          <$> default [] (PATTERNS !! pattern_key)).

(** The metrics of [_check_specific_issues] for a file. *)
Definition specific_metrics (content : string) (lines : list string)
    (file_name : string) : list PerformanceMetric :=
  (if (5 <? userdefaults_count content)%nat
   then [excessive_userdefaults file_name (userdefaults_count content)] else [])
  ++ (if (500 <? length lines)%nat then [large_file file_name (length lines)] else [])
  ++ (if Str.contains "URLSession" content && negb (Str.contains "async" content)
      then [synchronous_network_call file_name] else [])
  ++ (if (3 <? force_unwrap_count content)%nat
      then [excessive_force_unwrapping file_name (force_unwrap_count content)] else []).

(** The metrics of [_analyze_file] for a file that can be read. *)
Definition content_metrics (file_name content : string) : list PerformanceMetric :=
  pattern_metrics content file_name "retain_cycles" MEMORY HIGH IMPACT_HIGH
    "Use [weak self] or [unowned self] to break retain cycles"
  ++ pattern_metrics content file_name "memory" MEMORY MEDIUM IMPACT_MEDIUM
       "Consider async operations or proper memory management"
  ++ pattern_metrics content file_name "concurrency" CONCURRENCY HIGH IMPACT_HIGH
       "Use modern Swift concurrency features"
  ++ pattern_metrics content file_name "algorithm" ALGORITHM MEDIUM IMPACT_MEDIUM
       "Optimize algorithm for better performance"
  ++ pattern_metrics content file_name "io" IO MEDIUM IMPACT_MEDIUM
       "Use async I/O operations"
  ++ (if Str.contains "View" file_name || Str.contains "ViewModel" file_name
      then pattern_metrics content file_name "ui" UI HIGH IMPACT_HIGH
             "Move heavy operations out of UI code"
      else [])
  ++ specific_metrics content (Str.split_lines content) file_name.

Definition file_metrics (f : source_file) : list PerformanceMetric :=
  match read f with
  | ReadOk content => content_metrics (fname f) content
  | ReadError _ => []
  end.

Definition file_output (f : source_file) : list string :=
  match read f with
  | ReadOk _ => []
  | ReadError e => ["⚠️  Error reading " ++ path_str f ++ ": " ++ e]
  end.

Definition emitted_severity (s : Severity) : Prop :=
  s = CRITICAL \/ s = HIGH \/ s = MEDIUM \/ s = LOW.

(** The three rules of [_check_specific_issues] that compare a per-file
    count with a trigger. *)
Inductive threshold_rule : Type := UserDefaultsRule | LargeFileRule | ForceUnwrapRule.

Definition trigger (r : threshold_rule) : nat :=
  match r with
  | UserDefaultsRule => 5
  | LargeFileRule => 500
  | ForceUnwrapRule => 3
  end.

Definition observed (r : threshold_rule) (content : string) : nat :=
  match r with
  | UserDefaultsRule => userdefaults_count content
  | LargeFileRule => length (Str.split_lines content)
  | ForceUnwrapRule => force_unwrap_count content
  end.

Definition rule_metric (r : threshold_rule) : string -> nat -> PerformanceMetric :=
  match r with
  | UserDefaultsRule => excessive_userdefaults
  | LargeFileRule => large_file
  | ForceUnwrapRule => excessive_force_unwrapping
  end.

Definition rule_name (r : threshold_rule) : string :=
  match r with
  | UserDefaultsRule => "Excessive UserDefaults Access"
  | LargeFileRule => "Large File"
  | ForceUnwrapRule => "Excessive Force Unwrapping"
  end.

Definition rule_description (r : threshold_rule) (n : nat) : string :=
  match r with
  | UserDefaultsRule => "File has " ++ Str.of_nat n ++ " UserDefaults accesses"
  | LargeFileRule => "File has " ++ Str.of_nat n ++ " lines, consider splitting"
  | ForceUnwrapRule => "Found " ++ Str.of_nat n ++ " force unwraps"
  end.

(** The findings of a list that carry a given name. *)
Definition named (nm : string) (ms : list PerformanceMetric) : list PerformanceMetric :=
  filter (fun m => name m = nm) ms.

(** Two files: five and six uses of [UserDefaults.standard]. *)
Definition defaults_line : string :=
  "let d = UserDefaults.standard" ++ String Str.newline "".

Definition five_uses : source_file :=
  {| root := "App"; fname := "Settings.swift"; relative := "Settings.swift";
     read := ReadOk (defaults_line ++ defaults_line ++ defaults_line
                     ++ defaults_line ++ defaults_line) |}.

Definition six_uses : source_file :=
  {| root := "App"; fname := "Settings.swift"; relative := "Settings.swift";
     read := ReadOk (defaults_line ++ defaults_line ++ defaults_line
                     ++ defaults_line ++ defaults_line ++ defaults_line) |}.

Definition key_le (a b : nat * string) : Prop := key_leb a b = true.

(** [by_key x y]: the key of [x] is at most the key of [y]. *)
Definition by_key {A : Type} (key : A -> nat * string) (x y : A) : Prop :=
  key_le (key x) (key y).

(** A finding list in discovery order, for the ranking. *)
Definition discovered : list PerformanceMetric :=
  [ large_file "A.swift" 600;
    excessive_force_unwrapping "A.swift" 4;
    synchronous_network_call "B.swift";
    excessive_userdefaults "B.swift" 6;
    excessive_force_unwrapping "C.swift" 7;
    synchronous_network_call "D.swift";
    large_file "E.swift" 501 ].

(** The weight one finding contributes, by severity. *)
Definition weight (s : Severity) : nat :=
  match s with
  | CRITICAL => 10 | HIGH => 5 | MEDIUM => 2 | LOW => 1 | INFO => 0
  end.

(** The sum of the weights of a finding list. *)
Definition sum_weights (ms : list PerformanceMetric) : nat :=
  sum_list_with (fun m => weight (severity m)) ms.

(** The raw score as a function of the total weight [w] over the
    maximum weight [n]. *)
Definition ratio_score (w n : nat) : Q := (100 - Qnat w / Qnat n * 100)%Q.

(** An Info finding: well-formed, though no rule of the analyzer emits
    one. *)
Definition info_note : PerformanceMetric :=
  {| name := "Note"; category := ALGORITHM; severity := INFO; file := "A.swift";
     line := None; description := "Informational"; recommendation := None;
     estimated_impact := NEGLIGIBLE |}.

(** The closure pattern: the first two entries of [retain_cycles] are this
    same expression, written with [\s] and with [[\s]]. *)
Definition self_capture : regex := cat [chr "{"; Star sp; lit "[self]"].

Definition other_patterns : list (regex * string) :=
  drop 2 retain_cycles ++ memory ++ concurrency ++ algorithm ++ io ++ ui.

Definition all_patterns : list (regex * string) :=
  retain_cycles ++ memory ++ concurrency ++ algorithm ++ io ++ ui.

(** No pattern of [pats] occurs in [content]. *)
Definition unmatched (content : string) (pats : list (regex * string)) : bool :=
  forallb (fun pd => bool_decide (finditer false pd.1 content = [])) pats.

(** No condition of [_check_specific_issues] holds for [content]. *)
Definition no_specific (content : string) : bool :=
  negb (5 <? userdefaults_count content)%nat
  && negb (500 <? length (Str.split_lines content))%nat
  && negb (Str.contains "URLSession" content && negb (Str.contains "async" content))
  && negb (3 <? force_unwrap_count content)%nat.

(** A readable file in which no rule matches. *)
Definition quiet (f : source_file) : bool :=
  match read f with
  | ReadOk content => unmatched content all_patterns && no_specific content
  | ReadError _ => false
  end.

(** A readable file with one strong-self-capture closure and nothing else
    that a rule matches. *)
Definition capturing (f : source_file) : bool :=
  match read f with
  | ReadOk content =>
      bool_decide (length (finditer false self_capture content) = 1%nat)
      && unmatched content other_patterns && no_specific content
  | ReadError _ => false
  end.

(** Sixteen findings for which rounding the exact score and rounding the
    binary64 score give different hundredths. *)
Definition mixed_findings : list PerformanceMetric :=
  replicate 7 (synchronous_network_call "A.swift")
  ++ replicate 8 (excessive_force_unwrapping "B.swift" 4)
  ++ [large_file "C.swift" 501].

(** The finding a capture on the first line of a file gives. *)
Definition capture_metric (file_name : string) : PerformanceMetric :=
  {| name := "Retain Cycles Issue";
     category := MEMORY;
     severity := HIGH;
     file := file_name;
     line := Some 1%nat;
     description := "Strong self capture in closure";
     recommendation := Some "Use [weak self] or [unowned self] to break retain cycles";
     estimated_impact := IMPACT_HIGH |}.

(** A finding of the scenario. *)
Definition capture_finding (m : PerformanceMetric) : Prop :=
  severity m = HIGH /\ category m = MEMORY
  /\ description m = "Strong self capture in closure"
  /\ name m = "Retain Cycles Issue".

(** A tree of ten Swift files: two with one capturing closure each, eight
    without anything a rule matches. *)
Definition swift_file (file_name content : string) : source_file :=
  {| root := "Sources/App"; fname := file_name;
     relative := "Sources/App/" ++ file_name; read := ReadOk content |}.

Definition scenario_tree : list source_file :=
  [ swift_file "Player.swift" "load { [self] in refresh() }";
    swift_file "Model1.swift" "let x = 1";
    swift_file "Model2.swift" "let x = 1";
    swift_file "Model3.swift" "let x = 1";
    swift_file "Session.swift" "start {[self] in resume() }";
    swift_file "Model4.swift" "let x = 1";
    swift_file "Model5.swift" "let x = 1";
    swift_file "Model6.swift" "let x = 1";
    swift_file "Model7.swift" "let x = 1";
    swift_file "Model8.swift" "let x = 1" ].

End PerfNotions.

(** ** For the security analyzer *)

Module SecNotions.
Import Re Fs Sec.

(** The passes only append to the issue lists and to the output. A [delta]
    collects what is appended to each list. *)
Record delta : Type := {
  d_critical : list issue;
  d_high : list issue;
  d_medium : list issue;
  d_low : list issue;
  d_info : list issue;
  d_out : list string
}.

Definition dempty : delta :=
  {| d_critical := []; d_high := []; d_medium := []; d_low := []; d_info := [];
     d_out := [] |}.

Definition dapp (a b : delta) : delta :=
  {| d_critical := d_critical a ++ d_critical b;
     d_high := d_high a ++ d_high b;
     d_medium := d_medium a ++ d_medium b;
     d_low := d_low a ++ d_low b;
     d_info := d_info a ++ d_info b;
     d_out := d_out a ++ d_out b |}.

Definition dconcat (ds : list delta) : delta := foldr dapp dempty ds.

Definition in_critical (i : issue) : delta :=
  {| d_critical := [i]; d_high := []; d_medium := []; d_low := []; d_info := [];
     d_out := [] |}.
Definition in_high (i : issue) : delta :=
  {| d_critical := []; d_high := [i]; d_medium := []; d_low := []; d_info := [];
     d_out := [] |}.
Definition in_medium (i : issue) : delta :=
  {| d_critical := []; d_high := []; d_medium := [i]; d_low := []; d_info := [];
     d_out := [] |}.
Definition in_low (i : issue) : delta :=
  {| d_critical := []; d_high := []; d_medium := []; d_low := [i]; d_info := [];
     d_out := [] |}.
Definition in_info (i : issue) : delta :=
  {| d_critical := []; d_high := []; d_medium := []; d_low := []; d_info := [i];
     d_out := [] |}.
Definition in_out (msg : string) : delta :=
  {| d_critical := []; d_high := []; d_medium := []; d_low := []; d_info := [];
     d_out := [msg] |}.

Definition extend (d : delta) (st : analyzer) : analyzer :=
  {| security_score := security_score st;
     critical_issues := critical_issues st ++ d_critical d;
     high_issues := high_issues st ++ d_high d;
     medium_issues := medium_issues st ++ d_medium d;
     low_issues := low_issues st ++ d_low d;
     info := info st ++ d_info d;
     best_practices := best_practices st;
     statistics := statistics st;
     stdout := stdout st ++ d_out d |}.

Definition emits (g : analyzer -> analyzer) (d : delta) : Prop :=
  forall st, g st = extend d st.

(** What the frame of a pass appends for one file of the walk. *)
Definition file_delta (exts : list string) (d : source_file -> string -> delta)
    (f : source_file) : delta :=
  if has_ext exts f then
    match read f with
    | ReadOk content => d f content
    | ReadError _ => dempty
    end
  else dempty.

Definition credential_match_delta (f : source_file) (line_num : nat) (line : string)
    (pattern_name : string) (m : rmatch) : delta :=
  if is_false_positive (m_text m) pattern_name then dempty
  else if String.eqb (credential_severity pattern_name) "critical"
       then in_critical (credential_issue f line_num line pattern_name)
       else in_high (credential_issue f line_num line pattern_name).

Definition credential_rule_delta (f : source_file) (line_num : nat) (line : string)
    (rule : string * (bool * regex)) : delta :=
  dconcat (credential_match_delta f line_num line rule.1
             <$> finditer rule.2.1 rule.2.2 line).

Definition credential_line_delta (f : source_file) (line_num : nat) (line : string)
  : delta :=
  dconcat (credential_rule_delta f line_num line <$> credential_patterns).

Definition credential_file_delta (f : source_file) (content : string) : delta :=
  dconcat ((fun nl : nat * string => credential_line_delta f nl.1 nl.2)
             <$> numbered_lines content).

Definition credential_delta (walk : list source_file) : delta :=
  dapp (in_out "  🔍 Scanning for credentials...")
       (dconcat (file_delta credential_exts credential_file_delta <$> walk)).

Definition add_issue_delta (i : issue) (severity : string) : delta :=
  if String.eqb severity "critical" then in_critical i
  else if String.eqb severity "high" then in_high i
  else if String.eqb severity "medium" then in_medium i
  else in_low i.

Definition vulnerability_rule_delta (f : source_file) (content : string)
    (rule : string * regex) : delta :=
  dconcat ((fun m => add_issue_delta (vulnerability_issue f content rule.1 m)
                       (get_vulnerability_severity rule.1))
             <$> finditer true rule.2 content).

Definition vulnerability_file_delta (f : source_file) (content : string) : delta :=
  dconcat (vulnerability_rule_delta f content <$> vulnerability_patterns).

Definition vulnerability_delta (walk : list source_file) : delta :=
  dapp (in_out "  🐛 Scanning for vulnerabilities...")
       (dconcat (file_delta [".swift"; ".m"; ".h"] vulnerability_file_delta <$> walk)).

Definition network_rule_delta (f : source_file) (content : string)
    (rule : string * regex) : delta :=
  if search false rule.2 content
  then add_issue_delta (network_issue f rule.1) (network_severity rule.1)
  else dempty.

Definition network_file_delta (f : source_file) (content : string) : delta :=
  dconcat (network_rule_delta f content <$> network_security).

Definition network_delta (walk : list source_file) : delta :=
  dapp (in_out "  🌐 Checking network security...")
       (dconcat (file_delta [".swift"; ".plist"] network_file_delta <$> walk)).

Definition memory_rule_delta (f : source_file) (content : string)
    (rule : string * regex) : delta :=
  dconcat ((fun m => in_medium (memory_issue f content rule.1 m))
             <$> finditer false rule.2 content).

Definition memory_file_delta (f : source_file) (content : string) : delta :=
  dconcat (memory_rule_delta f content <$> memory_security).

Definition memory_delta (walk : list source_file) : delta :=
  dapp (in_out "  💾 Checking memory security...")
       (dconcat (file_delta [".swift"] memory_file_delta <$> walk)).

(** [dall Pc Ph Pm Pl d]: the findings of [d] satisfy the property given
    for their list. *)
Definition dall (Pc Ph Pm Pl : issue -> Prop) (d : delta) : Prop :=
  Forall Pc (d_critical d) /\ Forall Ph (d_high d)
  /\ Forall Pm (d_medium d) /\ Forall Pl (d_low d).

(** The number of findings of [d]. *)
Definition dsize (d : delta) : nat :=
  length (d_critical d) + length (d_high d) + length (d_medium d) + length (d_low d).

(** The penalty of one finding, by the list it is in. *)
Definition deduction (critical high medium low : nat) : Z :=
  (100 - 20 * Z.of_nat critical - 10 * Z.of_nat high
   - 5 * Z.of_nat medium - 2 * Z.of_nat low)%Z.

(** A credential finding of rule [pattern_name] with severity [sev]. *)
Definition credential_finding (sev : string) (i : issue) : Prop :=
  exists pattern_name,
    i !! "type" = Some (VStr "Hardcoded Credential")
    /\ i !! "pattern" = Some (VStr pattern_name)
    /\ i !! "severity" = Some (VStr sev)
    /\ pattern_name ∈ credential_patterns.*1
    /\ (Str.contains "key" (Str.lower pattern_name) = true <-> sev = "critical")
    /\ (Str.contains "key" (Str.lower pattern_name) = false <-> sev = "high").

(** The matches of the credential rules on a line that the filter
    keeps. *)
Definition kept_matches (line : string) : list rmatch :=
  concat ((fun rule : string * (bool * regex) =>
             filter (fun m => is_false_positive (m_text m) rule.1 = false)
                    (finditer rule.2.1 rule.2.2 line))
          <$> credential_patterns).

(** The files whose content a pass with extensions [exts] scans. *)
Definition scanned (exts : list string) (walk : list source_file)
  : list (source_file * string) :=
  omap (fun f => if has_ext exts f
                 then match read f with
                      | ReadOk content => Some (f, content)
                      | ReadError _ => None
                      end
                 else None) walk.

(** All matches of the rules of a table in the scanned files. *)
Definition table_matches (ic : bool) (table : list (string * regex))
    (files : list (source_file * string)) : list rmatch :=
  concat ((fun fc : source_file * string =>
             concat ((fun rule : string * regex => finditer ic rule.2 fc.2) <$> table))
          <$> files).

(** The number of findings in the four severity lists. *)
Definition findings_count (st : analyzer) : nat :=
  length (critical_issues st) + length (high_issues st)
  + length (medium_issues st) + length (low_issues st).

(** A credential finding comes from a match that the filter kept. *)
Definition reported_from (walk : list source_file) (i : issue) : Prop :=
  exists f content line_num line rule m,
    f ∈ walk /\ read f = ReadOk content
    /\ (line_num, line) ∈ numbered_lines content
    /\ rule ∈ credential_patterns
    /\ m ∈ finditer rule.2.1 rule.2.2 line
    /\ is_false_positive (m_text m) rule.1 = false
    /\ (forall indicator, indicator ∈ false_positive_indicators ->
          Str.contains (Str.lower indicator) (Str.lower (m_text m)) = false)
    /\ i = credential_issue f line_num line rule.1.

(** A line that assigns a placeholder to an API key, and its match by the
    generic API key rule. *)
Definition placeholder_line : string := "let apiKey = 'EXAMPLE_KEY'".

Definition placeholder_match : rmatch :=
  {| m_start := 4; m_text := "apiKey = 'EXAMPLE_KEY'" |}.

Definition config_file (content : string) : source_file :=
  {| root := "Sources"; fname := "Config.swift"; relative := "Sources/Config.swift";
     read := ReadOk content |}.

End SecNotions.

(** ** Sample files *)

Module Samples.
Import Re Fs.

(** A source file that cannot be decoded. *)
Definition undecodable : source_file :=
  {| root := "Sources"; fname := "Secrets.swift"; relative := "Sources/Secrets.swift";
     read := ReadError "'utf-8' codec can't decode byte 0xff in position 0" |}.

(** The same file when the project path is the current directory. *)
Definition undecodable_here : source_file :=
  {| root := "."; fname := "Secrets.swift"; relative := "Secrets.swift";
     read := ReadError "'utf-8' codec can't decode byte 0xff in position 0" |}.

Definition q : string := String Sec.dquote "".

Definition swift (file_name content : string) : source_file :=
  {| root := "Sources"; fname := file_name; relative := "Sources/" ++ file_name;
     read := ReadOk content |}.

End Samples.

(** * The remaining passes of [security_analyzer.py] *)

Module SecRest.
Import Re Fs Sec.

(** [oct(n)]: "0o" followed by the octal digits of [n]. The digits are
    produced from the last one; [fuel] bounds their number. *)
Definition oct_digit (d : N) : ascii := ascii_of_N (48 + d).

Fixpoint oct_digits (fuel : nat) (n : N) (acc : string) : string :=
  match fuel with
  | O => acc
  | S fuel' =>
      let acc' := String (oct_digit (n mod 8)) acc in
      if (n <? 8)%N then acc' else oct_digits fuel' (n / 8) acc'
  end.

Definition oct (n : N) : string :=
  "0o" ++ oct_digits (S (N.to_nat (N.log2 n))) n "".

(** [s[-3:]] *)
Definition last3 (s : string) : string := Str.drop (String.length s - 3) s.

(** A path met by [rglob(pattern)], relative to the project, with the
    [st_mode] that [os.stat] gives for it, or [None] when [os.stat]
    raises. *)
Record stat_entry : Type := {
  st_relative : string;
  st_mode : option N
}.

Definition sensitive_patterns : list string :=
  ["*.plist"; "*.entitlements"; "*.xcconfig"; "*.p12"; "*.cer"].

Definition permission_issue (path mode : string) : issue :=
  list_to_map
    [ ("type", VStr "File Permission");
      ("file", VStr path);
      ("current_permission", VStr mode);
      ("recommended", VStr "644 or 600");
      ("severity", VStr "low") ].

(** The body of the loop over the paths of one pattern. *)
Definition check_permission (e : stat_entry) (st : analyzer) : analyzer :=
  match st_mode e with
  | None => st
  | Some n =>
      let mode := last3 (oct n) in
      if negb (String.eqb mode "644") && negb (String.eqb mode "600")
      then append_low (permission_issue (st_relative e) mode) st
      else st
  end.

(** [check_file_permissions]; [rglob] stands for [self.project_path.rglob]. *)
Definition check_file_permissions (rglob : string -> list stat_entry)
    (st : analyzer) : analyzer :=
  let st := print "  📁 Checking file permissions..." st in
  foldl (fun st pattern => foldl (fun st e => check_permission e st) st (rglob pattern))
        st sensitive_patterns.

(** The text [from: ] followed by a double quote and [major]. *)
Definition from_major (major : string) : string :=
  "from: " ++ String dquote major.

(** [check_dependencies]. [package_swift] is [None] when the file does not
    exist; [findall_urls] stands for the [re.findall] of the dependency
    pattern, whose lazy quantifiers module [Re] does not have: nothing but
    the content of the Info entry depends on it. *)
Definition check_dependencies (findall_urls : string -> list string)
    (package_swift : option read_result) (st : analyzer) : analyzer :=
  let st := print "  📦 Checking dependencies..." st in
  match package_swift with
  | Some (ReadOk content) =>
      let deps := findall_urls content in
      let st := append_info
                  (list_to_map
                     [ ("type", VStr "Dependencies");
                       ("count", VInt (length deps));
                       ("dependencies", VStrs deps);
                       ("recommendation",
                        VStr "Regularly update and audit dependencies for vulnerabilities") ])
                  st in
      if Str.contains (from_major "1.") content || Str.contains (from_major "0.") content
      then append_medium
             (list_to_map
                [ ("type", VStr "Outdated Dependencies");
                  ("file", VStr "Package.swift");
                  ("issue", VStr "Some dependencies may be outdated");
                  ("severity", VStr "medium") ]) st
      else st
  | Some (ReadError _) => st
  | None => st
  end.

Definition security_keys : list (string * string) :=
  [ ("NSAppTransportSecurity", "Network security configuration");
    ("UIRequiresPersistentWiFi", "WiFi requirement");
    ("LSApplicationQueriesSchemes", "URL schemes");
    ("NSMicrophoneUsageDescription", "Microphone permission");
    ("NSCameraUsageDescription", "Camera permission") ].

(** [analyze_info_plist] *)
Definition analyze_info_plist (info_plist : option read_result) (st : analyzer)
  : analyzer :=
  let st := print "  📋 Analyzing Info.plist..." st in
  match info_plist with
  | Some (ReadOk content) =>
      foldl (fun st kd =>
               if Str.contains kd.1 content
               then append_info
                      (list_to_map
                         [ ("type", VStr "Info.plist Configuration");
                           ("key", VStr kd.1);
                           ("description", VStr kd.2);
                           ("found", VBool true) ]) st
               else st)
            st security_keys
  | Some (ReadError _) => st
  | None => st
  end.

(** A pass that can raise: it ends in a state, or in the exception. *)
Inductive outcome : Type :=
| Done (st : analyzer)
| Raised (exn : string).

(** [self.results['best_practices'] = practices] *)
Definition set_best_practices (practices : list string) (st : analyzer) : analyzer :=
  {| security_score := security_score st;
     critical_issues := critical_issues st;
     high_issues := high_issues st; medium_issues := medium_issues st;
     low_issues := low_issues st; info := info st;
     best_practices := practices; statistics := statistics st;
     stdout := stdout st |}.

(** The three parts of [check_best_practices]; the two files are read
    outside any [try]. *)
Definition gitignore_practice (gitignore : option read_result)
  : string + list string :=
  match gitignore with
  | None => inr []
  | Some (ReadError e) => inl e
  | Some (ReadOk content) =>
      if Str.contains "xcuserdata" content && Str.contains "DerivedData" content
      then inr ["✅ Proper .gitignore configuration"]
      else inr ["⚠️ .gitignore may need updates"]
  end.

Definition docs_practice (security_docs : list string) : string :=
  match security_docs with
  | _ :: _ => "✅ Security documentation found"
  | [] => "❌ No security documentation (SECURITY.md)"
  end.

Definition swiftlint_practice (swiftlint : option read_result) : string + string :=
  match swiftlint with
  | None => inr "❌ No SwiftLint configuration"
  | Some (ReadError e) => inl e
  | Some (ReadOk content) =>
      if Str.contains "force_unwrapping" content
      then inr "✅ SwiftLint with security rules"
      else inr "⚠️ SwiftLint present but may need security rules"
  end.

(** [check_best_practices]; each file is [None] when it does not exist,
    [security_docs] is the result of the glob for SECURITY*.md. *)
Definition check_best_practices (gitignore : option read_result)
    (security_docs : list string) (swiftlint : option read_result)
    (st : analyzer) : outcome :=
  let st := print "  ✅ Checking best practices..." st in
  match gitignore_practice gitignore with
  | inl e => Raised e
  | inr practices =>
      let practices := (practices ++ [docs_practice security_docs])%list in
      match swiftlint_practice swiftlint with
      | inl e => Raised e
      | inr practice => Done (set_best_practices (practices ++ [practice])%list st)
      end
  end.

(** What the passes of one run see of the project. *)
Record project : Type := {
  walk : list source_file;
  rglob : string -> list stat_entry;
  package_swift : option read_result;
  dependency_urls : string -> list string;
  info_plist : option read_result;
  gitignore : option read_result;
  security_docs : list string;
  swiftlint : option read_result;
  swift_files : nat
}.

(** The nine passes of [analyze] that cannot raise, in order. *)
Definition scanning_passes (p : project) (st : analyzer) : analyzer :=
  let st := print "🔒 Starting Security Analysis..." st in
  let st := scan_credentials (walk p) st in
  let st := scan_vulnerabilities (walk p) st in
  let st := check_network_security (walk p) st in
  let st := check_memory_security (walk p) st in
  let st := check_file_permissions (rglob p) st in
  let st := check_dependencies (dependency_urls p) (package_swift p) st in
  let st := check_encryption (walk p) st in
  let st := check_authentication (walk p) st in
  analyze_info_plist (info_plist p) st.

(** [analyze] *)
Definition analyze (p : project) (st : analyzer) : outcome :=
  match check_best_practices (gitignore p) (security_docs p) (swiftlint p)
          (scanning_passes p st) with
  | Raised e => Raised e
  | Done st => Done (calculate_security_score (swift_files p) st)
  end.

End SecRest.

(** * Further notions *)

Module MoreNotions.
Import Re Fs.

(** The sum of the entries of a dictionary of counts. *)
Definition sum_values (m : gmap string nat) : nat :=
  map_fold (fun _ n acc => (n + acc)%nat) 0%nat m.

(** The number of findings of a category. *)
Definition count_category (c : Perf.Category) (ms : list Perf.PerformanceMetric) : nat :=
  length (filter (fun m => Perf.category m = c) ms).

(** A file that [_find_swift_files] keeps. *)
Definition swift_source (f : source_file) : Prop :=
  Str.endswith ".swift" (fname f) = true /\ Str.contains "Tests" (root f) = false.

(** A sample: a file of three lines with a closure on the second. *)
Definition three_lines : source_file :=
  {| root := "Sources"; fname := "Player.swift"; relative := "Sources/Player.swift";
     read := ReadOk ("import Foundation" ++ String Str.newline ""
                     ++ "load { [self] in refresh() }" ++ String Str.newline ""
                     ++ "let x = 1") |}.

(** A sample: a Swift file in a test directory. *)
Definition player_tests : source_file :=
  {| root := "VoiceFlowTests"; fname := "PlayerTests.swift";
     relative := "VoiceFlowTests/PlayerTests.swift";
     read := ReadOk "load { [self] in refresh() }" |}.

(** The five recommendations of [_generate_summary], in the order of its
    tests; [n] is the number of critical findings. *)
Definition fix_critical (n : nat) : string :=
  "Fix " ++ Str.of_nat n ++ " critical issues immediately".

Definition all_recommendations (n : nat) : list string :=
  [ fix_critical n;
    "Review memory management patterns";
    "Audit concurrency patterns for thread safety";
    "Optimize UI operations for responsiveness";
    "Consider performance profiling with Instruments" ].

(** The position just after a match. *)
Definition m_end (m : rmatch) : nat := (m_start m + String.length (m_text m))%nat.

(** [a] ends before [b] starts: the two do not overlap. *)
Definition precedes (a b : rmatch) : Prop := (m_end a <= m_start b)%nat.

(** The line of [a] is not after the line of [b]. *)
Definition line_le (a b : Perf.PerformanceMetric) : Prop :=
  match Perf.line a, Perf.line b with
  | Some i, Some j => (i <= j)%nat
  | _, _ => False
  end.

(** Two samples with the same content: only the name of the second
    contains View. *)
Definition loader : source_file :=
  {| root := "Sources"; fname := "Loader.swift"; relative := "Sources/Loader.swift";
     read := ReadOk "Image(uiImage: picture)" |}.

Definition loader_view : source_file :=
  {| root := "Sources"; fname := "LoaderView.swift";
     relative := "Sources/LoaderView.swift";
     read := ReadOk "Image(uiImage: picture)" |}.

(** The entry [severity] of an issue is [sev]. *)
Definition has_severity (sev : string) (i : Sec.issue) : Prop :=
  i !! "severity" = Some (Sec.VStr sev).

(** Every finding is in the list of its own severity. *)
Definition filed (st : Sec.analyzer) : Prop :=
  Forall (has_severity "critical") (Sec.critical_issues st)
  /\ Forall (has_severity "high") (Sec.high_issues st)
  /\ Forall (has_severity "medium") (Sec.medium_issues st)
  /\ Forall (has_severity "low") (Sec.low_issues st).

(** Two states with the same findings. *)
Definition same_findings (a b : Sec.analyzer) : Prop :=
  Sec.critical_issues a = Sec.critical_issues b
  /\ Sec.high_issues a = Sec.high_issues b
  /\ Sec.medium_issues a = Sec.medium_issues b
  /\ Sec.low_issues a = Sec.low_issues b.

(** The last three octal digits of [n]. *)
Definition octal3 (n : N) : string :=
  String (SecRest.oct_digit ((n / 64) mod 8))
    (String (SecRest.oct_digit ((n / 8) mod 8))
       (String (SecRest.oct_digit (n mod 8)) "")).

(** A sample project: a source file with a password and a weak hash, a
    notes file with a password, an executable property list, a package
    file with an early version, no configuration files. *)
Definition login_swift : source_file :=
  {| root := "App"; fname := "Login.swift"; relative := "Login.swift";
     read := ReadOk "let password = 'hunter2'; let h = MD5(x)" |}.

Definition notes_txt : source_file :=
  {| root := "App"; fname := "notes.txt"; relative := "notes.txt";
     read := ReadOk "let password = 'hunter2'" |}.

Definition sample_project : SecRest.project :=
  {| SecRest.walk := [login_swift; notes_txt];
     SecRest.rglob := fun pattern =>
       if String.eqb pattern "*.plist"
       then [ {| SecRest.st_relative := "App/Info.plist";
                 SecRest.st_mode := Some 33261%N |} ]
       else [];
     SecRest.package_swift := Some (ReadOk ("from: " ++ String Sec.dquote "1.2.0"));
     SecRest.dependency_urls := fun _ => [];
     SecRest.info_plist := None;
     SecRest.gitignore := None;
     SecRest.security_docs := [];
     SecRest.swiftlint := None;
     SecRest.swift_files := 1 |}.

(** The same project with a [.gitignore] that cannot be read. *)
Definition locked_project : SecRest.project :=
  {| SecRest.walk := [login_swift; notes_txt];
     SecRest.rglob := fun _ => [];
     SecRest.package_swift := None;
     SecRest.dependency_urls := fun _ => [];
     SecRest.info_plist := None;
     SecRest.gitignore := Some (ReadError "[Errno 13] Permission denied: '.gitignore'");
     SecRest.security_docs := [];
     SecRest.swiftlint := None;
     SecRest.swift_files := 1 |}.

End MoreNotions.

(** * Properties of the performance analyzer *)

Module PerfFacts.
Import Re Fs Perf PerfNotions.

(** ** What a step appends *)

Lemma extend_nil st : extend [] [] st = st.
Proof. destruct st; unfold extend; simpl. by rewrite !app_nil_r. Qed.

Lemma extend_extend ms1 out1 ms2 out2 st :
  extend ms2 out2 (extend ms1 out1 st) = extend (ms1 ++ ms2) (out1 ++ out2) st.
Proof. unfold extend; simpl. by rewrite !app_assoc. Qed.

Lemma emits_id : emits (fun st => st) [] [].
Proof. intros st. by rewrite extend_nil. Qed.

Lemma emits_append_metric m : emits (append_metric m) [m] [].
Proof. intros [ms out]. unfold append_metric, extend; simpl. by rewrite app_nil_r. Qed.

Lemma emits_print msg : emits (print msg) [] [msg].
Proof. intros [ms out]. unfold print, extend; simpl. by rewrite app_nil_r. Qed.

Lemma emits_comp g1 g2 ms1 out1 ms2 out2 :
  emits g1 ms1 out1 -> emits g2 ms2 out2 ->
  emits (fun st => g2 (g1 st)) (ms1 ++ ms2) (out1 ++ out2).
Proof. intros H1 H2 st. by rewrite H1, H2, extend_extend. Qed.

(** A [for] loop whose body appends: the loop appends the bodies'
    contributions in order. *)
Lemma emits_foldl {X} (g : X -> analyzer -> analyzer)
    (ms : X -> list PerformanceMetric) (out : X -> list string) (l : list X) :
  (forall x, emits (g x) (ms x) (out x)) ->
  emits (fun st => foldl (fun st x => g x st) st l)
        (concat (ms <$> l)) (concat (out <$> l)).
Proof.
  intros Hg. induction l as [|x l IH] using rev_ind; intros st; simpl.
  - by rewrite extend_nil.
  - rewrite foldl_snoc, IH, Hg, extend_extend.
    by rewrite !fmap_app, !concat_app; simpl; rewrite !app_nil_r.
Qed.

Lemma concat_fmap_nil {X Y} (l : list X) : concat ((fun _ => @nil Y) <$> l) = [].
Proof. induction l; simpl; auto. Qed.

Lemma concat_fmap_singleton {X Y} (f : X -> Y) (l : list X) :
  concat ((fun x => [f x]) <$> l) = f <$> l.
Proof. induction l as [|x l IH]; csimpl; [done | by rewrite IH]. Qed.

Lemma emits_check_patterns content lines file_name key categ sev imp recomm :
  emits (_check_patterns content lines file_name key categ sev imp recomm)
        (pattern_metrics content file_name key categ sev imp recomm) [].
Proof.
  unfold _check_patterns, pattern_metrics.
  set (pats := default [] (PATTERNS !! key)). clearbody pats.
  intros st.
  rewrite (emits_foldl
             (fun pd st =>
                foldl (fun st m =>
                         append_metric
                           (pattern_metric content file_name key categ sev imp recomm pd.2 m)
                           st) st (finditer false pd.1 content))
             (fun pd => pattern_metric content file_name key categ sev imp recomm pd.2
                          <$> finditer false pd.1 content)
             (fun _ => [])).
  - by rewrite concat_fmap_nil.
  - intros pd st'.
    rewrite (emits_foldl
               (fun m => append_metric
                           (pattern_metric content file_name key categ sev imp recomm pd.2 m))
               (fun m => [pattern_metric content file_name key categ sev imp recomm pd.2 m])
               (fun _ => [])).
    + by rewrite concat_fmap_nil, concat_fmap_singleton.
    + intros m. apply emits_append_metric.
Qed.

Lemma emits_append_if c m : emits (append_if c m) (if c then [m] else []) [].
Proof. destruct c; simpl; [apply emits_append_metric | apply emits_id]. Qed.

Lemma emits_check_specific_issues content lines file_name :
  emits (_check_specific_issues content lines file_name)
        (specific_metrics content lines file_name) [].
Proof.
  intros st. unfold _check_specific_issues, specific_metrics.
  rewrite !emits_append_if, !extend_extend. simpl. by rewrite !app_assoc.
Qed.

Lemma emits_analyze_file f : emits (_analyze_file f) (file_metrics f) (file_output f).
Proof.
  intros st. unfold _analyze_file, file_metrics, file_output.
  destruct (read f) as [content|e]; [|apply emits_print].
  unfold content_metrics.
  rewrite emits_check_specific_issues.
  destruct (Str.contains "View" (fname f) || Str.contains "ViewModel" (fname f));
    rewrite !emits_check_patterns, !extend_extend; simpl;
    by rewrite ?app_nil_r, <- ?app_assoc.
Qed.

(** The state [analyze] ends in: the metrics of the Swift files, in walk
    order, and the printed lines. *)
Lemma analyze_state project walk :
  (analyze project walk).2 =
    {| metrics := concat (file_metrics <$> _find_swift_files walk);
       stdout := [ "🔍 Starting performance analysis for: " ++ project;
                   "📁 Found " ++ Str.of_nat (length (_find_swift_files walk))
                     ++ " Swift files to analyze" ]
                 ++ concat (file_output <$> _find_swift_files walk) |}.
Proof.
  unfold analyze; simpl.
  rewrite (emits_foldl _analyze_file file_metrics file_output _ emits_analyze_file).
  by rewrite !emits_print.
Qed.

Lemma analyze_metrics project walk :
  report_metrics (analyze project walk).1
  = concat (file_metrics <$> _find_swift_files walk).
Proof.
  change (report_metrics (analyze project walk).1)
    with (metrics (analyze project walk).2).
  by rewrite analyze_state.
Qed.

(** ** Severities that are emitted *)

Lemma pattern_metrics_severity content file_name key categ sev imp recomm :
  Forall (fun m => severity m = sev)
         (pattern_metrics content file_name key categ sev imp recomm).
Proof.
  unfold pattern_metrics. apply Forall_concat, Forall_fmap, Forall_forall.
  intros pd _. apply Forall_fmap, Forall_forall. by intros m _.
Qed.

Lemma pattern_metrics_emitted content file_name key categ sev imp recomm :
  emitted_severity sev ->
  Forall (fun m => emitted_severity (severity m))
         (pattern_metrics content file_name key categ sev imp recomm).
Proof.
  intros Hsev. eapply Forall_impl; [apply pattern_metrics_severity|].
  by intros m ->.
Qed.

Lemma specific_metrics_emitted content lines file_name :
  Forall (fun m => emitted_severity (severity m))
         (specific_metrics content lines file_name).
Proof.
  unfold specific_metrics, emitted_severity. rewrite !Forall_app.
  repeat split;
    (case_match; [apply Forall_singleton; simpl; auto | apply Forall_nil_2]).
Qed.

Lemma file_metrics_emitted f :
  Forall (fun m => emitted_severity (severity m)) (file_metrics f).
Proof.
  unfold file_metrics. destruct (read f) as [content|e]; [|constructor].
  unfold content_metrics. rewrite !Forall_app.
  repeat split;
    try (apply pattern_metrics_emitted; unfold emitted_severity; by auto).
  - case_match; [|constructor].
    apply pattern_metrics_emitted; unfold emitted_severity; auto.
  - apply specific_metrics_emitted.
Qed.

Lemma count_severity_0 sev ms :
  Forall (fun m => severity m <> sev) ms -> count_severity sev ms = 0.
Proof.
  unfold count_severity. induction 1 as [|m ms Hm _ IH]; [done|].
  rewrite filter_cons. by destruct (decide (severity m = sev)).
Qed.

(** C9. The performance analyzer never emits an Info finding: every metric
    of a scan, from the pattern groups or from the specific checks, has
    severity Critical, High, Medium or Low, and the summary's
    [severity_counts['info']] is 0. *)
Theorem no_info_finding project (walk : list source_file) :
  Forall (fun m => emitted_severity (severity m) /\ severity m <> INFO)
         (report_metrics (analyze project walk).1)
  /\ severity_counts (summary (analyze project walk).1) !! "info" = Some 0.
Proof.
  assert (Hall : Forall (fun m => emitted_severity (severity m))
                        (report_metrics (analyze project walk).1)).
  { rewrite analyze_metrics. apply Forall_concat, Forall_fmap, Forall_forall.
    intros f _. apply file_metrics_emitted. }
  assert (Hne : Forall (fun m => severity m <> INFO)
                       (report_metrics (analyze project walk).1)).
  { eapply Forall_impl; [exact Hall|].
    intros m [H|[H|[H|H]]]; rewrite H; discriminate. }
  split.
  - apply Forall_and; by split.
  - change (severity_counts (summary (analyze project walk).1))
      with (severity_counts_of (report_metrics (analyze project walk).1)).
    unfold severity_counts_of.
    rewrite (count_severity_0 INFO _ Hne). reflexivity.
Qed.

(** ** Threshold rules *)

Lemma named_app nm ms1 ms2 :
  named nm (ms1 ++ ms2) = (named nm ms1 ++ named nm ms2)%list.
Proof. apply filter_app. Qed.

Lemma named_pattern_metrics nm content file_name key categ sev imp recomm :
  nm <> Str.title (Str.replace_char "_" " " key) ++ " Issue" ->
  named nm (pattern_metrics content file_name key categ sev imp recomm) = [].
Proof.
  intros Hne. unfold pattern_metrics.
  induction (default [] (PATTERNS !! key)) as [|pd pats IH]; [done|].
  rewrite fmap_cons, concat_cons, named_app, IH, app_nil_r.
  induction (finditer false pd.1 content) as [|m l IHl]; [done|].
  rewrite fmap_cons. unfold named in *. rewrite filter_cons, IHl.
  destruct (decide _) as [Heq|]; [|done]. simpl in Heq. congruence.
Qed.

Lemma named_cond nm (c : bool) m :
  named nm (if c then [m] else []) = if c && bool_decide (name m = nm) then [m] else [].
Proof.
  destruct c; [|done]. unfold named. rewrite filter_cons, filter_nil. simpl.
  by destruct (decide (name m = nm)); [rewrite bool_decide_eq_true_2|rewrite bool_decide_eq_false_2].
Qed.

Lemma named_content_metrics (r : threshold_rule) file_name content :
  named (rule_name r) (content_metrics file_name content)
  = if (trigger r <? observed r content)%nat
    then [rule_metric r file_name (observed r content)] else [].
Proof.
  unfold content_metrics. rewrite !named_app.
  rewrite !named_pattern_metrics by (by destruct r).
  assert (named (rule_name r)
            (if Str.contains "View" file_name || Str.contains "ViewModel" file_name
             then pattern_metrics content file_name "ui" UI HIGH IMPACT_HIGH
                    "Move heavy operations out of UI code"
             else []) = []) as ->.
  { case_match; [|done]. apply named_pattern_metrics. by destruct r. }
  unfold specific_metrics. rewrite !named_app, !named_cond. simpl.
  destruct r; simpl; rewrite ?andb_false_r, ?andb_true_r, ?app_nil_r; reflexivity.
Qed.

Lemma named_specific_metrics (r : threshold_rule) file_name content :
  named (rule_name r) (specific_metrics content (Str.split_lines content) file_name)
  = if (trigger r <? observed r content)%nat
    then [rule_metric r file_name (observed r content)] else [].
Proof.
  unfold specific_metrics. rewrite !named_app, !named_cond. simpl.
  destruct r; simpl; rewrite ?andb_false_r, ?andb_true_r, ?app_nil_r; reflexivity.
Qed.

Lemma analyze_file_metrics f st :
  metrics (_analyze_file f st) = (metrics st ++ file_metrics f)%list.
Proof. by rewrite emits_analyze_file. Qed.

(** C4. A threshold rule fires only when the count of the file strictly
    exceeds the trigger: at a count equal to the trigger the analysis of
    the file adds no finding of the rule, at trigger + 1 (and at any larger
    count) it adds exactly one, with no line number and with the observed
    count in its description. *)
Theorem threshold_rule_strict (r : threshold_rule) (f : source_file) (content : string)
    (st : analyzer) :
  read f = ReadOk content ->
  (named (rule_name r)
     (metrics (_check_specific_issues content (Str.split_lines content) (fname f) st))
   = (named (rule_name r) (metrics st)
      ++ if (trigger r <? observed r content)%nat
         then [rule_metric r (fname f) (observed r content)] else [])%list)
  /\ (named (rule_name r) (metrics (_analyze_file f st))
      = (named (rule_name r) (metrics st)
         ++ if (trigger r <? observed r content)%nat
            then [rule_metric r (fname f) (observed r content)] else [])%list)
  /\ (observed r content = trigger r ->
      named (rule_name r) (metrics (_analyze_file f st)) = named (rule_name r) (metrics st))
  /\ (observed r content = S (trigger r) ->
      exists m, named (rule_name r) (metrics (_analyze_file f st))
                = (named (rule_name r) (metrics st) ++ [m])%list
                /\ line m = None
                /\ description m = rule_description r (S (trigger r)))
  /\ (forall m, m ∈ named (rule_name r) (metrics (_analyze_file f initial)) ->
                (trigger r < observed r content)%nat
                /\ line m = None
                /\ description m = rule_description r (observed r content)).
Proof.
  intros Hread.
  assert (Hfile : forall st',
             named (rule_name r) (metrics (_analyze_file f st'))
             = (named (rule_name r) (metrics st')
                ++ if (trigger r <? observed r content)%nat
                   then [rule_metric r (fname f) (observed r content)] else [])%list).
  { intros st'. rewrite analyze_file_metrics, named_app. f_equal.
    unfold file_metrics. rewrite Hread. apply named_content_metrics. }
  split; [|split; [apply Hfile|]].
  { rewrite emits_check_specific_issues. unfold extend; simpl.
    by rewrite named_app, named_specific_metrics. }
  rewrite !Hfile. repeat split.
  - intros ->. by rewrite Nat.ltb_irrefl, app_nil_r.
  - intros ->. rewrite (proj2 (Nat.ltb_lt _ _)) by lia.
    eexists; split; [reflexivity|]. by destruct r.
  - destruct (Nat.ltb_spec (trigger r) (observed r content)); [done|].
    by apply elem_of_nil in H.
  - destruct (trigger r <? observed r content)%nat; [|by apply elem_of_nil in H].
    apply list_elem_of_singleton in H as ->. by destruct r.
  - destruct (trigger r <? observed r content)%nat; [|by apply elem_of_nil in H].
    apply list_elem_of_singleton in H as ->. by destruct r.
Qed.

Lemma threshold_rule_strict_witness :
  named "Excessive UserDefaults Access" (metrics (_analyze_file five_uses initial)) = []
  /\ exists m, named "Excessive UserDefaults Access" (metrics (_analyze_file six_uses initial))
               = [m]
               /\ line m = None
               /\ description m = "File has 6 UserDefaults accesses".
Proof.
  split.
  - apply (threshold_rule_strict UserDefaultsRule five_uses _ initial eq_refl).
    vm_compute. reflexivity.
  - apply (threshold_rule_strict UserDefaultsRule six_uses _ initial eq_refl).
    vm_compute. reflexivity.
Defined.

(** ** Ranking *)

Lemma filter_none {A} (P : A -> Prop) `{forall x, Decision (P x)} (l : list A) :
  Forall (fun x => ~ P x) l -> filter P l = [].
Proof.
  induction 1 as [|x l Hx _ IH]; [done|]. by rewrite filter_cons_False.
Qed.

Section sorting.
Context {A : Type} (key : A -> nat * string).

Lemma key_le_spec a b :
  key_le a b <-> (a.1 < b.1)%nat \/ (a.1 = b.1 /\ String.le a.2 b.2).
Proof.
  unfold key_le, key_leb, String.le.
  rewrite orb_true_iff, andb_true_iff, Nat.ltb_lt, Nat.eqb_eq, Is_true_true.
  tauto.
Qed.

Lemma key_le_refl a : key_le a a.
Proof. apply key_le_spec. right. split; [done|]. reflexivity. Qed.

Lemma key_le_trans a b c : key_le a b -> key_le b c -> key_le a c.
Proof.
  rewrite !key_le_spec. intros [?|[? Hab]] [?|[? Hbc]]; try (left; lia).
  right. split; [lia|]. by etrans.
Qed.

Lemma key_le_total a b : key_le a b \/ key_le b a.
Proof.
  rewrite !key_le_spec.
  destruct (lt_eq_lt_dec a.1 b.1) as [[?|?]|?]; [tauto| |tauto].
  destruct (total String.le a.2 b.2); [left|right]; right; split; auto.
Qed.

Lemma key_leb_false a b : key_leb a b = false -> key_le b a /\ a <> b.
Proof.
  intros Hf. split.
  - destruct (key_le_total a b) as [H|H]; [|done]. unfold key_le in H. congruence.
  - intros ->. pose proof (key_le_refl b) as H. unfold key_le in H. congruence.
Qed.

Lemma insert_by_perm x l : insert_by key x l ≡ₚ x :: l.
Proof.
  induction l as [|y l IH]; simpl; [done|].
  case_match; [|done]. by rewrite IH, Permutation_swap.
Qed.

Lemma insert_by_sorted x l :
  StronglySorted (by_key key) l -> StronglySorted (by_key key) (insert_by key x l).
Proof.
  induction l as [|y l IH]; simpl; intros Hs.
  - repeat constructor.
  - apply StronglySorted_cons in Hs as [Hy Hl].
    destruct (key_leb (key y) (key x)) eqn:Hle.
    + apply StronglySorted_cons. split; [|auto].
      rewrite insert_by_perm. by constructor.
    + apply key_leb_false in Hle as [Hxy _].
      apply StronglySorted_cons. split; [|by apply StronglySorted_cons].
      constructor; [done|].
      eapply Forall_impl; [exact Hy|]. intros z Hz.
      unfold by_key in *. by eapply key_le_trans.
Qed.

(** Insertion keeps the order of the elements of every key class: the
    new element goes behind the ones of its own key. *)
Lemma insert_by_stable (k : nat * string) x l :
  StronglySorted (by_key key) l ->
  filter (fun y => key y = k) (insert_by key x l)
  = (filter (fun y => key y = k) l ++ filter (fun y => key y = k) [x])%list.
Proof.
  induction l as [|y l IH]; simpl; intros Hs; [done|].
  apply StronglySorted_cons in Hs as [Hy Hl].
  destruct (key_leb (key y) (key x)) eqn:Hle.
  - rewrite !filter_cons, IH by done. by case_decide.
  - apply key_leb_false in Hle as [Hxy Hne].
    rewrite (filter_cons _ x (y :: l)), (filter_cons _ x []), filter_nil.
    destruct (decide (key x = k)) as [Hk|Hk]; [|by rewrite app_nil_r].
    assert (Hnone : filter (fun y => key y = k) (y :: l) = []).
    { apply filter_none. constructor.
      - intros Hyk. apply Hne. congruence.
      - eapply Forall_impl; [exact Hy|]. intros z Hyz Hzk.
        apply Hne. unfold by_key in *. rewrite Hzk, <- Hk in Hyz.
        assert (key_le (key y) (key x)) as Hyx by done.
        clear -Hxy Hyx. apply key_le_spec in Hxy, Hyx.
        destruct (key x) as [a s], (key y) as [b t]; simpl in *.
        destruct Hxy as [?|[? Hst]], Hyx as [?|[? Hts]]; try lia.
        f_equal; [done|]. by apply (anti_symm String.le). }
    by rewrite Hnone.
Qed.

Lemma sorted_by_snoc l x : sorted_by key (l ++ [x]) = insert_by key x (sorted_by key l).
Proof. unfold sorted_by. by rewrite foldl_snoc. Qed.

Lemma sorted_by_perm l : sorted_by key l ≡ₚ l.
Proof.
  induction l as [|x l IH] using rev_ind; [done|].
  by rewrite sorted_by_snoc, insert_by_perm, IH, Permutation_cons_append.
Qed.

Lemma sorted_by_sorted l : StronglySorted (by_key key) (sorted_by key l).
Proof.
  induction l as [|x l IH] using rev_ind; [constructor|].
  rewrite sorted_by_snoc. by apply insert_by_sorted.
Qed.

Lemma sorted_by_stable (k : nat * string) l :
  filter (fun y => key y = k) (sorted_by key l) = filter (fun y => key y = k) l.
Proof.
  induction l as [|x l IH] using rev_ind; [done|].
  rewrite sorted_by_snoc, insert_by_stable by apply sorted_by_sorted.
  by rewrite IH, filter_app.
Qed.

Lemma sorted_lookup (l : list A) i j a b :
  StronglySorted (by_key key) l -> l !! i = Some a -> l !! j = Some b ->
  (i < j)%nat -> by_key key a b.
Proof.
  intros Hs. revert i j. induction Hs as [|x l Hl IH Hx]; intros i j Hi Hj Hij.
  - by rewrite lookup_nil in Hi.
  - destruct j as [|j]; [lia|]. simpl in Hj.
    destruct i as [|i]; simpl in Hi.
    + injection Hi as ->. rewrite Forall_forall in Hx.
      apply Hx. by eapply list_elem_of_lookup_2.
    + eapply IH; eauto. lia.
Qed.
End sorting.

Lemma filter_take_prefix {A} (P : A -> Prop) `{forall x, Decision (P x)} n (l : list A) :
  filter P (take n l) `prefix_of` filter P l.
Proof.
  exists (filter P (drop n l)). by rewrite <- filter_app, take_drop.
Qed.

Lemma by_key_sort_key (a b : PerformanceMetric) :
  by_key sort_key a b <->
  (severity_order (severity a) < severity_order (severity b))%nat
  \/ (severity_order (severity a) = severity_order (severity b)
      /\ String.le (impact_value (estimated_impact a))
                    (impact_value (estimated_impact b))).
Proof. unfold by_key. by rewrite key_le_spec. Qed.

Lemma top_sorted limit ms : StronglySorted (by_key sort_key) (_get_top_issues limit ms).
Proof.
  unfold _get_top_issues.
  pose proof (sorted_by_sorted sort_key ms) as Hs.
  rewrite <- (take_drop limit (sorted_by sort_key ms)) in Hs.
  by apply StronglySorted_app_1_l in Hs.
Qed.

(** C6. The top issues are the first [limit] findings (5 in the summary)
    of the findings sorted by severity rank, Critical first, then by the
    impact label compared as a string; findings with the same rank and
    label stay in discovery order. Hence a finding of strictly worse
    severity precedes any finding of better severity in the list. *)
Theorem top_issues_ranked (limit : nat) (ms : list PerformanceMetric) :
  length (_get_top_issues limit ms) = min limit (length ms)
  /\ (length (_get_top_issues limit ms) <= limit)%nat
  /\ _get_top_issues limit ms = take limit (sorted_by sort_key ms)
  /\ sorted_by sort_key ms ≡ₚ ms
  /\ (forall i j a b,
        _get_top_issues limit ms !! i = Some a ->
        _get_top_issues limit ms !! j = Some b ->
        (i < j)%nat ->
        (severity_order (severity a) < severity_order (severity b))%nat
        \/ (severity_order (severity a) = severity_order (severity b)
            /\ String.le (impact_value (estimated_impact a))
                          (impact_value (estimated_impact b))))
  /\ (forall k,
        filter (fun m => sort_key m = k) (sorted_by sort_key ms)
        = filter (fun m => sort_key m = k) ms)
  /\ (forall k,
        filter (fun m => sort_key m = k) (_get_top_issues limit ms)
        `prefix_of` filter (fun m => sort_key m = k) ms)
  /\ (forall i j a b,
        _get_top_issues limit ms !! i = Some a ->
        _get_top_issues limit ms !! j = Some b ->
        (severity_order (severity a) < severity_order (severity b))%nat ->
        (i < j)%nat)
  /\ (forall st, top_issues (_generate_summary st) = _get_top_issues 5 (metrics st)).
Proof.
  assert (Hlen : length (_get_top_issues limit ms) = min limit (length ms)).
  { unfold _get_top_issues. by rewrite length_take, (sorted_by_perm sort_key ms). }
  assert (Hord : forall i j a b,
             _get_top_issues limit ms !! i = Some a ->
             _get_top_issues limit ms !! j = Some b ->
             (i < j)%nat -> by_key sort_key a b).
  { intros i j a b. apply sorted_lookup, top_sorted. }
  split; [exact Hlen|]. split; [lia|]. split; [done|].
  split; [apply sorted_by_perm|]. split.
  { intros i j a b Hi Hj Hij. apply by_key_sort_key. eauto. }
  split; [intros k; apply sorted_by_stable|]. split.
  { intros k. unfold _get_top_issues. rewrite <- (sorted_by_stable sort_key k ms).
    apply filter_take_prefix. }
  split; [|done].
  intros i j a b Hi Hj Hlt.
  destruct (lt_eq_lt_dec i j) as [[?| ->]|Hji]; [done| |].
  - rewrite Hi in Hj. injection Hj as ->. lia.
  - pose proof (Hord j i b a Hj Hi Hji) as Hba.
    apply by_key_sort_key in Hba. lia.
Qed.

Lemma top_issues_ranked_witness :
  _get_top_issues 5 discovered
  = [ synchronous_network_call "B.swift";
      synchronous_network_call "D.swift";
      excessive_force_unwrapping "A.swift" 4;
      excessive_force_unwrapping "C.swift" 7;
      large_file "A.swift" 600 ]
  /\ (1 < 2)%nat.
Proof.
  split; [reflexivity|].
  destruct (top_issues_ranked 5 discovered) as (_ & _ & _ & _ & _ & _ & _ & H & _).
  apply (H 1 2 (synchronous_network_call "D.swift")
           (excessive_force_unwrapping "A.swift" 4)
           eq_refl eq_refl).
  simpl. lia.
Defined.

(** ** The weighted-normalized score *)

Lemma count_severity_cons sev m ms :
  count_severity sev (m :: ms)
  = ((if decide (severity m = sev) then 1 else 0) + count_severity sev ms)%nat.
Proof. unfold count_severity. rewrite filter_cons. by case_decide. Qed.

Lemma sc_counts ms :
  sc (severity_counts_of ms) "critical" = count_severity CRITICAL ms
  /\ sc (severity_counts_of ms) "high" = count_severity HIGH ms
  /\ sc (severity_counts_of ms) "medium" = count_severity MEDIUM ms
  /\ sc (severity_counts_of ms) "low" = count_severity LOW ms
  /\ sc (severity_counts_of ms) "info" = count_severity INFO ms.
Proof. repeat split. Qed.

(** The weight computed from the severity counts is the sum of the
    per-finding weights. *)
Lemma total_weight_sum ms : total_weight_of (severity_counts_of ms) = sum_weights ms.
Proof.
  unfold total_weight_of.
  destruct (sc_counts ms) as (-> & -> & -> & -> & _).
  unfold sum_weights. induction ms as [|m ms IH]; [done|].
  rewrite !count_severity_cons. simpl sum_list_with. rewrite <- IH.
  destruct (severity m); simpl; lia.
Qed.

Lemma sum_weights_le ms : (sum_weights ms <= length ms * 10)%nat.
Proof.
  unfold sum_weights. induction ms as [|m ms IH]; simpl in *; [lia|].
  destruct (severity m); simpl; lia.
Qed.

Lemma sum_weights_app ms1 ms2 :
  sum_weights (ms1 ++ ms2) = (sum_weights ms1 + sum_weights ms2)%nat.
Proof. apply sum_list_with_app. Qed.

Lemma sum_weights_0 ms : sum_weights ms = 0%nat <-> Forall (fun m => severity m = INFO) ms.
Proof.
  unfold sum_weights. induction ms as [|m ms IH]; simpl in *.
  - split; [constructor|done].
  - rewrite Forall_cons, <- IH.
    destruct (severity m); simpl;
      (split; [intros H; first [lia | split; [done|lia]]
              |intros [H1 H2]; first [discriminate | lia]]).
Qed.

Lemma max_weight_nonempty ms : ms <> [] -> max_weight_of ms = (length ms * 10)%nat.
Proof. by destruct ms. Qed.

Lemma max_weight_pos ms : (0 < max_weight_of ms)%nat.
Proof. destruct ms; simpl; lia. Qed.

Lemma Qnat_S k : Qnat (S k) = (Z.pos (Pos.of_succ_nat k) # 1).
Proof. unfold Qnat, inject_Z. by rewrite Zpos_P_of_succ_nat, <- Nat2Z.inj_succ. Qed.

Lemma ratio_score_nonneg w n : (0 < n)%nat -> (w <= n)%nat -> (0 <= ratio_score w n)%Q.
Proof.
  intros Hn Hw. destruct n as [|k]; [lia|]. unfold ratio_score. rewrite Qnat_S.
  unfold Qle, Qminus, Qplus, Qopp, Qdiv, Qmult, Qinv, Qnat, inject_Z; simpl. lia.
Qed.

Lemma ratio_score_le_100 w n : (0 < n)%nat -> (ratio_score w n <= 100)%Q.
Proof.
  intros Hn. destruct n as [|k]; [lia|]. unfold ratio_score. rewrite Qnat_S.
  unfold Qle, Qminus, Qplus, Qopp, Qdiv, Qmult, Qinv, Qnat, inject_Z; simpl. lia.
Qed.

Lemma ratio_score_100 w n : (0 < n)%nat -> (ratio_score w n == 100)%Q <-> w = 0%nat.
Proof.
  intros Hn. destruct n as [|k]; [lia|]. unfold ratio_score. rewrite Qnat_S.
  unfold Qeq, Qminus, Qplus, Qopp, Qdiv, Qmult, Qinv, Qnat, inject_Z; simpl. lia.
Qed.

Lemma ratio_score_le w1 n1 w2 n2 :
  (0 < n1)%nat -> (0 < n2)%nat ->
  (ratio_score w1 n1 <= ratio_score w2 n2)%Q <-> (w2 * n1 <= w1 * n2)%nat.
Proof.
  intros H1 H2. destruct n1 as [|k1]; [lia|]. destruct n2 as [|k2]; [lia|].
  unfold ratio_score. rewrite !Qnat_S.
  unfold Qle, Qminus, Qplus, Qopp, Qdiv, Qmult, Qinv, Qnat, inject_Z; simpl. nia.
Qed.

(** The clamp at 0 never acts: the total weight is at most the maximum. *)
Lemma performance_score_ratio ms :
  (performance_score_of ms == ratio_score (sum_weights ms) (max_weight_of ms))%Q.
Proof.
  unfold performance_score_of. rewrite total_weight_sum.
  apply Q.max_r, ratio_score_nonneg; [apply max_weight_pos|].
  pose proof (sum_weights_le ms). destruct ms; simpl in *; lia.
Qed.

Lemma performance_score_bounds ms : (0 <= performance_score_of ms <= 100)%Q.
Proof.
  rewrite performance_score_ratio. split.
  - apply ratio_score_nonneg; [apply max_weight_pos|].
    pose proof (sum_weights_le ms). destruct ms; simpl in *; lia.
  - apply ratio_score_le_100, max_weight_pos.
Qed.

(** C2. The score of line 308 is 100 - (sum of weights / (N * 10)) * 100
    with weights 10, 5, 2, 1, 0 for Critical, High, Medium, Low, Info and
    N the number of findings; for N = 0 the divisor is 1 and the score is
    100. In binary64 the same formula is evaluated operation by operation,
    it gives exactly 100 for N = 0, and the summary reports its value
    rounded to two decimals. *)
Theorem weighted_normalized_formula (ms : list PerformanceMetric) :
  (performance_score_of ms ==
     match ms with
     | [] => 100
     | _ :: _ => 100 - Qnat (sum_weights ms) / Qnat (length ms * 10) * 100
     end)%Q
  /\ (0 < max_weight_of ms)%nat
  /\ (0 <= performance_score_of ms <= 100)%Q
  /\ performance_score_float ms
     = match ms with
       | [] => f64 100
       | _ :: _ =>
           let x := SFsub 53 1024 (f64 100)
                      (SFmul 53 1024 (true_divide (sum_weights ms) (length ms * 10))
                         (f64 100)) in
           if SFltb (f64 0) x then x else f64 0
       end
  /\ (forall out,
        performance_score (_generate_summary {| metrics := ms; stdout := out |})
        = round2 (performance_score_float ms)).
Proof.
  split; [|split; [apply max_weight_pos|split; [apply performance_score_bounds|split; [|done]]]].
  - rewrite performance_score_ratio. by destruct ms.
  - unfold performance_score_float. rewrite total_weight_sum.
    destruct ms as [|m ms]; [by vm_compute|]. by rewrite max_weight_nonempty.
Qed.

(** Seven Critical, eight Medium and one Low finding: the exact score is
    45.625, the binary64 score lies just above it, and 45.63 is reported. *)
Lemma weighted_normalized_formula_witness :
  (performance_score_of mixed_findings == 45625 # 1000)%Q
  /\ performance_score_float mixed_findings = S754_finite false 6421147906211841 (-47)
  /\ performance_score (_generate_summary {| metrics := mixed_findings; stdout := [] |})
     = true_divide 4563 100.
Proof.
  destruct (weighted_normalized_formula mixed_findings) as (H1 & _ & _ & H2 & H3).
  split; [|split].
  - rewrite H1. reflexivity.
  - rewrite H2. by vm_compute.
  - rewrite H3. by vm_compute.
Defined.

(** C1, as the code has it. The score is 100 exactly when the total
    weight is 0, that is when every finding is Info; for lists without
    Info findings, which are the ones a scan produces, exactly when there
    is no finding. A finding appended to a list does not raise the score
    exactly when its weight times the number of findings is at least the
    total weight of the list; appended to the empty list it never raises
    the score. *)
Theorem weighted_score_100_and_append (ms : list PerformanceMetric) (m : PerformanceMetric) :
  ((performance_score_of ms == 100)%Q <-> Forall (fun x => severity x = INFO) ms)
  /\ (Forall (fun x => severity x <> INFO) ms ->
      ((performance_score_of ms == 100)%Q <-> length ms = 0%nat))
  /\ ((performance_score_of (ms ++ [m]) <= performance_score_of ms)%Q
      <-> (sum_weights ms <= weight (severity m) * length ms)%nat)
  /\ (performance_score_of ([] ++ [m]) <= performance_score_of [])%Q.
Proof.
  assert (H100 : (performance_score_of ms == 100)%Q
                 <-> Forall (fun x => severity x = INFO) ms).
  { rewrite performance_score_ratio, ratio_score_100 by apply max_weight_pos.
    apply sum_weights_0. }
  split; [exact H100|]. split; [|split].
  - intros Hne. rewrite H100. split.
    + intros Hinfo. destruct ms as [|x ms]; [done|].
      apply Forall_cons in Hne as [Hx _], Hinfo as [Hx' _]. done.
    + intros Hlen. destruct ms; [constructor|done].
  - rewrite !performance_score_ratio, ratio_score_le by apply max_weight_pos.
    rewrite sum_weights_app.
    assert (sum_weights [m] = weight (severity m)) as ->
      by (unfold sum_weights; simpl; lia).
    destruct ms as [|x ms]; [simpl; lia|].
    rewrite !max_weight_nonempty, length_app by done.
    generalize (sum_weights (x :: ms)) (weight (severity m)).
    simpl length. generalize (length ms). intros n W w. nia.
  - rewrite !performance_score_ratio, ratio_score_le by apply max_weight_pos.
    simpl. lia.
Qed.

Lemma weighted_score_100_and_append_witness :
  (performance_score_of [synchronous_network_call "A.swift"] == 100)%Q
  <-> length [synchronous_network_call "A.swift"] = 0%nat.
Proof.
  apply (weighted_score_100_and_append [synchronous_network_call "A.swift"]
           (large_file "B.swift" 501)).
  repeat constructor. simpl. discriminate.
Defined.

(** C1 as the specification states it fails: a list of one Info finding
    scores 100, and a Low finding appended to a Critical one raises the
    score from 0 to 45 (44.99999999999999 in binary64). *)
Lemma weighted_score_counterexample :
  ((performance_score_of [info_note] == 100)%Q /\ length [info_note] <> 0%nat)
  /\ (performance_score_of [synchronous_network_call "A.swift"] == 0)%Q
  /\ (performance_score_of
        ([synchronous_network_call "A.swift"] ++ [large_file "B.swift" 501]) == 45)%Q
  /\ ~ (performance_score_of
          ([synchronous_network_call "A.swift"] ++ [large_file "B.swift" 501])
        <= performance_score_of [synchronous_network_call "A.swift"])%Q
  /\ performance_score_float [info_note] = f64 100
  /\ performance_score_float [synchronous_network_call "A.swift"] = S754_zero false
  /\ performance_score_float
       ([synchronous_network_call "A.swift"] ++ [large_file "B.swift" 501])
     = S754_finite false 6333186975989759 (-47)
  /\ SFltb
       (performance_score_float [synchronous_network_call "A.swift"])
       (performance_score_float
          ([synchronous_network_call "A.swift"] ++ [large_file "B.swift" 501]))
     = true.
Proof.
  repeat split; try done. vm_compute. by intros H.
Qed.

(** ** The strong-self-capture scenario *)

Lemma unmatched_app content pats1 pats2 :
  unmatched content (pats1 ++ pats2)
  = unmatched content pats1 && unmatched content pats2.
Proof. apply forallb_app. Qed.

Lemma unmatched_nil {Y} content (pats : list (regex * string))
    (f : regex * string -> rmatch -> Y) :
  unmatched content pats = true ->
  concat ((fun pd => f pd <$> finditer false pd.1 content) <$> pats) = [].
Proof.
  induction pats as [|pd pats IH]; [done|].
  change (unmatched content (pd :: pats))
    with (bool_decide (finditer false pd.1 content = []) && unmatched content pats).
  rewrite andb_true_iff, bool_decide_eq_true. intros [Hpd Hpats].
  by rewrite fmap_cons, concat_cons, Hpd, IH.
Qed.

Lemma pattern_metrics_unmatched content file_name key pats categ sev imp recomm :
  PATTERNS !! key = Some pats -> unmatched content pats = true ->
  pattern_metrics content file_name key categ sev imp recomm = [].
Proof.
  intros Hkey Hun. unfold pattern_metrics. rewrite Hkey. simpl.
  by apply unmatched_nil.
Qed.

Lemma no_specific_nil content lines file_name :
  lines = Str.split_lines content -> no_specific content = true ->
  specific_metrics content lines file_name = [].
Proof.
  intros -> H. unfold no_specific in H. rewrite !andb_true_iff, !negb_true_iff in H.
  destruct H as [[[H1 H2] H3] H4]. unfold specific_metrics.
  by rewrite H1, H2, H3, H4.
Qed.

Lemma quiet_metrics f : quiet f = true -> file_metrics f = [].
Proof.
  unfold quiet, file_metrics. destruct (read f) as [content|e]; [|done].
  unfold all_patterns. rewrite !unmatched_app, !andb_true_iff.
  intros [(H1 & H2 & H3 & H4 & H5 & H6) Hs]. unfold content_metrics.
  rewrite (pattern_metrics_unmatched content _ "retain_cycles" retain_cycles) by done.
  rewrite (pattern_metrics_unmatched content _ "memory" memory) by done.
  rewrite (pattern_metrics_unmatched content _ "concurrency" concurrency) by done.
  rewrite (pattern_metrics_unmatched content _ "algorithm" algorithm) by done.
  rewrite (pattern_metrics_unmatched content _ "io" io) by done.
  rewrite (pattern_metrics_unmatched content _ "ui" ui) by done.
  rewrite no_specific_nil by done. by case_match.
Qed.

(** A capturing file is reported twice: once by each of the two first
    entries of [retain_cycles]. *)
Lemma capturing_metrics f :
  capturing f = true ->
  exists m1 m2, file_metrics f = [m1; m2] /\ capture_finding m1 /\ capture_finding m2.
Proof.
  unfold capturing, file_metrics. destruct (read f) as [content|e]; [|done].
  unfold other_patterns. rewrite !unmatched_app, !andb_true_iff, bool_decide_eq_true.
  intros [[Hone (H1 & H2 & H3 & H4 & H5 & H6)] Hs]. unfold content_metrics.
  rewrite (pattern_metrics_unmatched content _ "memory" memory) by done.
  rewrite (pattern_metrics_unmatched content _ "concurrency" concurrency) by done.
  rewrite (pattern_metrics_unmatched content _ "algorithm" algorithm) by done.
  rewrite (pattern_metrics_unmatched content _ "io" io) by done.
  rewrite (pattern_metrics_unmatched content _ "ui" ui) by done.
  rewrite no_specific_nil by done.
  assert (Hui : (if Str.contains "View" (fname f) || Str.contains "ViewModel" (fname f)
                 then @nil PerformanceMetric else []) = []) by by case_match.
  rewrite Hui. clear Hui. simpl app.
  unfold pattern_metrics.
  change (default [] (PATTERNS !! "retain_cycles"))
    with ((self_capture, "Strong self capture in closure")
          :: (self_capture, "Strong self capture in closure")
          :: drop 2 retain_cycles).
  rewrite !fmap_cons, !concat_cons.
  rewrite (unmatched_nil content (drop 2 retain_cycles)) by done.
  cbn [fst snd].
  destruct (finditer false self_capture content) as [|m [|m' l]]; try done.
  csimpl. eexists _, _. split; [reflexivity|]. by repeat split.
Qed.

Lemma scenario_metrics (files : list source_file) :
  Forall (fun f => quiet f = true \/ capturing f = true) files ->
  length (concat (file_metrics <$> files))
  = (2 * length (filter (fun f => capturing f = true) files))%nat
  /\ Forall capture_finding (concat (file_metrics <$> files)).
Proof.
  induction 1 as [|f files Hf _ [IHlen IHall]]; [by split; [|constructor]|].
  rewrite fmap_cons, concat_cons, length_app, Forall_app, filter_cons, IHlen.
  destruct (decide (capturing f = true)) as [Hc|Hc].
  - destruct (capturing_metrics f Hc) as (m1 & m2 & -> & H1 & H2).
    split; [simpl; lia|]. split; [|done].
    apply Forall_cons; split; [done|]. by apply Forall_singleton.
  - destruct Hf as [Hq|?]; [|done]. rewrite (quiet_metrics f Hq).
    split; [done|]. split; [constructor|done].
Qed.

Lemma count_severity_all sev ms :
  Forall (fun m => severity m = sev) ms -> count_severity sev ms = length ms.
Proof.
  induction 1 as [|m ms Hm _ IH]; [done|].
  rewrite count_severity_cons, IH. by rewrite decide_True.
Qed.

Lemma sum_weights_all sev ms :
  Forall (fun m => severity m = sev) ms -> sum_weights ms = (weight sev * length ms)%nat.
Proof.
  unfold sum_weights. induction 1 as [|m ms Hm _ IH]; simpl; [lia|].
  rewrite IH, Hm. lia.
Qed.

Lemma category_counts_snoc ms m :
  category_counts_of (ms ++ [m])
  = <[category_value (category m) :=
        (default 0 (category_counts_of ms !! category_value (category m)) + 1)%nat]>
      (category_counts_of ms).
Proof. unfold category_counts_of. by rewrite foldl_snoc. Qed.

(** Findings of one category fill one entry of [category_counts]. *)
Lemma category_counts_all c ms :
  Forall (fun m => category m = c) ms -> ms <> [] ->
  category_counts_of ms = {[ category_value c := length ms ]}.
Proof.
  induction ms as [|m ms IH] using rev_ind; [done|].
  rewrite Forall_app, Forall_singleton. intros [Hms Hm] _.
  rewrite category_counts_snoc, Hm, length_app. simpl length.
  destruct (decide (ms = [])) as [->|Hne].
  - change (category_counts_of []) with (∅ : gmap string nat).
    by rewrite lookup_empty, insert_empty.
  - rewrite IH by done. rewrite lookup_singleton_eq, insert_singleton_eq.
    simpl. by rewrite Nat.add_comm.
Qed.

(** A tree of Swift files of which two contain one unguarded
    strong-self-capture closure and where nothing else matches any rule. *)
Lemma scenario_findings (project : string) (walk : list source_file) :
  Forall (fun f => quiet f = true \/ capturing f = true) (_find_swift_files walk) ->
  length (filter (fun f => capturing f = true) (_find_swift_files walk)) = 2%nat ->
  length (report_metrics (analyze project walk).1) = 4%nat
  /\ Forall capture_finding (report_metrics (analyze project walk).1)
  /\ total_issues (summary (analyze project walk).1) = 4%nat
  /\ severity_counts (summary (analyze project walk).1) !! "high" = Some 4%nat
  /\ category_counts (summary (analyze project walk).1) = {[ "Memory Management" := 4%nat ]}
  /\ (performance_score_of (report_metrics (analyze project walk).1) == 50)%Q
  /\ performance_score (summary (analyze project walk).1) = f64 50.
Proof.
  intros Hfiles Htwo.
  destruct (scenario_metrics _ Hfiles) as [Hlen Hall].
  rewrite Htwo in Hlen. rewrite <- (analyze_metrics project) in Hlen, Hall.
  set (ms := report_metrics (analyze project walk).1) in *.
  assert (Hhigh : Forall (fun m => severity m = HIGH) ms)
    by (eapply Forall_impl; [exact Hall|]; by intros m (? & _)).
  assert (Hmem : Forall (fun m => category m = MEMORY) ms)
    by (eapply Forall_impl; [exact Hall|]; by intros m (_ & ? & _)).
  assert (Hne : ms <> []) by (intros E; by rewrite E in Hlen).
  assert (Hscore : (performance_score_of ms == 50)%Q).
  { rewrite performance_score_ratio, max_weight_nonempty by done.
    rewrite (sum_weights_all HIGH) by done. by rewrite Hlen. }
  change (summary (analyze project walk).1)
    with (_generate_summary (analyze project walk).2).
  change (metrics (analyze project walk).2) with ms.
  assert (Hlen4 : length ms = 4%nat) by exact Hlen.
  split; [exact Hlen4|]. split; [exact Hall|]. split; [exact Hlen4|].
  split; [|split; [|split; [exact Hscore|]]].
  - change (severity_counts_of ms !! "high" = Some 4%nat).
    assert (severity_counts_of ms !! "high" = Some (count_severity HIGH ms)) as ->
      by reflexivity.
    by rewrite (count_severity_all HIGH), Hlen4.
  - change (category_counts_of ms = {[ "Memory Management" := 4%nat ]}).
    rewrite (category_counts_all MEMORY) by done. by rewrite Hlen4.
  - change (round2 (performance_score_float ms) = f64 50).
    unfold performance_score_float.
    rewrite total_weight_sum, (sum_weights_all HIGH), max_weight_nonempty, Hlen4 by done.
    by vm_compute.
Qed.

Lemma scenario_tree_files :
  length scenario_tree = 10%nat
  /\ _find_swift_files scenario_tree = scenario_tree
  /\ Forall (fun f => quiet f = true \/ capturing f = true) (_find_swift_files scenario_tree)
  /\ filter (fun f => capturing f = true) (_find_swift_files scenario_tree)
     = [ swift_file "Player.swift" "load { [self] in refresh() }";
         swift_file "Session.swift" "start {[self] in resume() }" ].
Proof.
  split; [reflexivity|]. split; [reflexivity|]. split; [|reflexivity].
  change (_find_swift_files scenario_tree) with scenario_tree.
  repeat (apply Forall_cons; split;
          [first [left; vm_compute; reflexivity | right; vm_compute; reflexivity]|]).
  constructor.
Qed.

(** C7. The claim is what the rule table intends, and the code misses it:
    the strong-self-capture expression is listed twice in [retain_cycles]
    (once with [\s], once with [[\s]]), with the same description, so
    [_check_patterns] appends the findings of its matches twice. In the
    tree of ten Swift files of which two contain one such closure and
    where nothing else matches any rule, the scan therefore yields 4 High
    findings of category Memory Management, two equal ones for each
    closure, and [category_counts] is {Memory Management: 4}, not 2; the
    score is 50 all the same. *)
Theorem self_capture_scenario :
  (retain_cycles !! 0%nat = Some (self_capture, "Strong self capture in closure")
   /\ retain_cycles !! 1%nat = Some (self_capture, "Strong self capture in closure"))
  /\ (forall content lines file_name categ sev imp recomm st,
        exists others,
          metrics (_check_patterns content lines file_name "retain_cycles"
                     categ sev imp recomm st)
          = (metrics st
             ++ (pattern_metric content file_name "retain_cycles" categ sev imp recomm
                   "Strong self capture in closure" <$> finditer false self_capture content)
             ++ (pattern_metric content file_name "retain_cycles" categ sev imp recomm
                   "Strong self capture in closure" <$> finditer false self_capture content)
             ++ others)%list)
  /\ (length scenario_tree = 10%nat
      /\ _find_swift_files scenario_tree = scenario_tree
      /\ Forall (fun f => quiet f = true \/ capturing f = true) scenario_tree
      /\ length (filter (fun f => capturing f = true) scenario_tree) = 2%nat)
  /\ report_metrics (analyze "VoiceFlow" scenario_tree).1
     = [ capture_metric "Player.swift"; capture_metric "Player.swift";
         capture_metric "Session.swift"; capture_metric "Session.swift" ]
  /\ total_issues (summary (analyze "VoiceFlow" scenario_tree).1) = 4%nat
  /\ severity_counts (summary (analyze "VoiceFlow" scenario_tree).1) !! "high" = Some 4%nat
  /\ category_counts (summary (analyze "VoiceFlow" scenario_tree).1)
     = {[ "Memory Management" := 4%nat ]}
  /\ category_counts (summary (analyze "VoiceFlow" scenario_tree).1)
     <> {[ "Memory Management" := 2%nat ]}
  /\ performance_score (summary (analyze "VoiceFlow" scenario_tree).1) = f64 50.
Proof.
  destruct scenario_tree_files as (H10 & Hkept & Hfiles & Htwo).
  assert (Htwo' : length (filter (fun f => capturing f = true)
                            (_find_swift_files scenario_tree)) = 2%nat)
    by by rewrite Htwo.
  destruct (scenario_findings "VoiceFlow" scenario_tree Hfiles Htwo')
    as (_ & _ & Htotal & Hhigh & Hcat & _ & Hscore).
  split; [by split|]. split.
  { intros content lines file_name categ sev imp recomm st.
    rewrite emits_check_patterns. unfold extend, pattern_metrics; simpl metrics.
    change (default [] (PATTERNS !! "retain_cycles"))
      with ((self_capture, "Strong self capture in closure")
            :: (self_capture, "Strong self capture in closure")
            :: drop 2 retain_cycles).
    rewrite !fmap_cons, !concat_cons. cbn [fst snd]. by eexists. }
  split.
  { rewrite Hkept in Hfiles, Htwo'. by repeat split. }
  split; [by vm_compute|]. split; [exact Htotal|]. split; [exact Hhigh|].
  split; [exact Hcat|]. split; [|exact Hscore].
  rewrite Hcat. intros Heq.
  assert (Hl : ({[ "Memory Management" := 4%nat ]} : gmap string nat) !! "Memory Management"
               = ({[ "Memory Management" := 2%nat ]} : gmap string nat) !! "Memory Management")
    by by rewrite Heq.
  rewrite !lookup_singleton_eq in Hl. discriminate.
Qed.

End PerfFacts.

(** * Properties of the security analyzer *)

Module SecFacts.
Import Re Fs Sec SecNotions.

(** ** What a pass appends *)

Lemma dapp_empty_r d : dapp d dempty = d.
Proof. destruct d; unfold dapp; simpl. by rewrite !app_nil_r. Qed.

Lemma dapp_empty_l d : dapp dempty d = d.
Proof. by destruct d. Qed.

Lemma dapp_assoc a b c : dapp (dapp a b) c = dapp a (dapp b c).
Proof. unfold dapp; simpl. by rewrite <- !app_assoc. Qed.

Lemma dconcat_app ds1 ds2 : dconcat (ds1 ++ ds2) = dapp (dconcat ds1) (dconcat ds2).
Proof.
  induction ds1 as [|d ds1 IH]; simpl; [by rewrite dapp_empty_l|].
  by rewrite IH, dapp_assoc.
Qed.

Lemma extend_empty st : extend dempty st = st.
Proof. destruct st; unfold extend; simpl. by rewrite !app_nil_r. Qed.

Lemma extend_twice a b st : extend b (extend a st) = extend (dapp a b) st.
Proof. unfold extend; simpl. by rewrite !app_assoc. Qed.

Lemma emits_skip : emits (fun st => st) dempty.
Proof. intros st. by rewrite extend_empty. Qed.

Lemma emits_append_critical i : emits (append_critical i) (in_critical i).
Proof. intros st. destruct st; unfold append_critical, extend; simpl. by rewrite !app_nil_r. Qed.

Lemma emits_append_high i : emits (append_high i) (in_high i).
Proof. intros st. destruct st; unfold append_high, extend; simpl. by rewrite !app_nil_r. Qed.

Lemma emits_append_medium i : emits (append_medium i) (in_medium i).
Proof. intros st. destruct st; unfold append_medium, extend; simpl. by rewrite !app_nil_r. Qed.

Lemma emits_append_low i : emits (append_low i) (in_low i).
Proof. intros st. destruct st; unfold append_low, extend; simpl. by rewrite !app_nil_r. Qed.

Lemma emits_append_info i : emits (append_info i) (in_info i).
Proof. intros st. destruct st; unfold append_info, extend; simpl. by rewrite !app_nil_r. Qed.

Lemma emits_progress msg : emits (print msg) (in_out msg).
Proof. intros st. destruct st; unfold print, extend; simpl. by rewrite !app_nil_r. Qed.

Lemma emits_then g1 g2 d1 d2 :
  emits g1 d1 -> emits g2 d2 -> emits (fun st => g2 (g1 st)) (dapp d1 d2).
Proof. intros H1 H2 st. by rewrite H1, H2, extend_twice. Qed.

(** A loop whose body appends: the loop appends the contributions of the
    bodies in order. *)
Lemma emits_loop {X} (g : X -> analyzer -> analyzer) (d : X -> delta) (l : list X) :
  (forall x, emits (g x) (d x)) ->
  emits (fun st => foldl (fun st x => g x st) st l) (dconcat (d <$> l)).
Proof.
  intros Hg. induction l as [|x l IH] using rev_ind; intros st; simpl.
  - by rewrite extend_empty.
  - rewrite foldl_snoc, IH, Hg, extend_twice, fmap_app, dconcat_app.
    simpl. by rewrite dapp_empty_r.
Qed.

Lemma emits_for_each_file exts body (d : source_file -> string -> delta) walk :
  (forall f content, emits (body f content) (d f content)) ->
  emits (for_each_file exts body walk) (dconcat (file_delta exts d <$> walk)).
Proof.
  intros Hbody. unfold for_each_file.
  apply (emits_loop
           (fun f st => if has_ext exts f
                        then match read f with
                             | ReadOk content => body f content st
                             | ReadError _ => st
                             end
                        else st)
           (file_delta exts d)).
  intros f st. unfold file_delta.
  destruct (has_ext exts f); [|by rewrite extend_empty].
  destruct (read f); [apply Hbody|by rewrite extend_empty].
Qed.

(** *** Credentials *)

Lemma emits_credential_match f line_num line pattern_name m :
  emits (credential_match f line_num line pattern_name m)
        (credential_match_delta f line_num line pattern_name m).
Proof.
  unfold credential_match, credential_match_delta. intros st.
  destruct (is_false_positive _ _); [by rewrite extend_empty|].
  destruct (String.eqb _ _); [apply emits_append_critical|apply emits_append_high].
Qed.

Lemma emits_credential_line f line_num line :
  emits (credential_line f line_num line) (credential_line_delta f line_num line).
Proof.
  unfold credential_line, credential_line_delta.
  apply (emits_loop
           (fun (rule : string * (bool * regex)) st =>
              foldl (fun st m => credential_match f line_num line rule.1 m st)
                    st (finditer rule.2.1 rule.2.2 line))
           (credential_rule_delta f line_num line)).
  intros rule. unfold credential_rule_delta.
  apply (emits_loop (credential_match f line_num line rule.1)
                     (credential_match_delta f line_num line rule.1)).
  intros m. apply emits_credential_match.
Qed.

Lemma emits_scan_credentials walk :
  emits (scan_credentials walk) (credential_delta walk).
Proof.
  unfold scan_credentials, credential_delta.
  apply (emits_then (print "  🔍 Scanning for credentials...")); [apply emits_progress|].
  apply emits_for_each_file. intros f content. unfold credential_file_delta.
  apply (emits_loop (fun (nl : nat * string) => credential_line f nl.1 nl.2)
                     (fun nl => credential_line_delta f nl.1 nl.2)).
  intros nl. apply emits_credential_line.
Qed.

(** *** The passes without a filter *)

Lemma emits_add_issue i severity : emits (add_issue i severity) (add_issue_delta i severity).
Proof.
  unfold add_issue, add_issue_delta. intros st.
  repeat case_match;
    [apply emits_append_critical|apply emits_append_high
    |apply emits_append_medium|apply emits_append_low].
Qed.

Lemma emits_scan_vulnerabilities walk :
  emits (scan_vulnerabilities walk) (vulnerability_delta walk).
Proof.
  unfold scan_vulnerabilities, vulnerability_delta.
  apply (emits_then (print "  🐛 Scanning for vulnerabilities...")); [apply emits_progress|].
  apply emits_for_each_file. intros f content. unfold vulnerability_file_delta.
  apply (emits_loop
           (fun (rule : string * regex) st =>
              foldl (fun st m =>
                       add_issue (vulnerability_issue f content rule.1 m)
                                 (get_vulnerability_severity rule.1) st)
                    st (finditer true rule.2 content))
           (vulnerability_rule_delta f content)).
  intros rule. unfold vulnerability_rule_delta.
  apply (emits_loop
           (fun m => add_issue (vulnerability_issue f content rule.1 m)
                               (get_vulnerability_severity rule.1))
           (fun m => add_issue_delta (vulnerability_issue f content rule.1 m)
                                     (get_vulnerability_severity rule.1))).
  intros m. apply emits_add_issue.
Qed.

Lemma emits_check_network_security walk :
  emits (check_network_security walk) (network_delta walk).
Proof.
  unfold check_network_security, network_delta.
  apply (emits_then (print "  🌐 Checking network security...")); [apply emits_progress|].
  apply emits_for_each_file. intros f content. unfold network_file_delta.
  apply (emits_loop
           (fun (rule : string * regex) st =>
              if search false rule.2 content
              then add_issue (network_issue f rule.1) (network_severity rule.1) st
              else st)
           (network_rule_delta f content)).
  intros rule st. unfold network_rule_delta.
  destruct (search false rule.2 content); [apply emits_add_issue|by rewrite extend_empty].
Qed.

Lemma emits_check_memory_security walk :
  emits (check_memory_security walk) (memory_delta walk).
Proof.
  unfold check_memory_security, memory_delta.
  apply (emits_then (print "  💾 Checking memory security...")); [apply emits_progress|].
  apply emits_for_each_file. intros f content. unfold memory_file_delta.
  apply (emits_loop
           (fun (rule : string * regex) st =>
              foldl (fun st m => append_medium (memory_issue f content rule.1 m) st)
                    st (finditer false rule.2 content))
           (memory_rule_delta f content)).
  intros rule. unfold memory_rule_delta.
  apply (emits_loop
           (fun m => append_medium (memory_issue f content rule.1 m))
           (fun m => in_medium (memory_issue f content rule.1 m))).
  intros m. apply emits_append_medium.
Qed.

(** ** Properties of everything a pass appends *)

Section dall.
Context (Pc Ph Pm Pl : issue -> Prop).

Lemma dall_empty : dall Pc Ph Pm Pl dempty.
Proof. repeat split; constructor. Qed.

Lemma dall_app a b : dall Pc Ph Pm Pl a -> dall Pc Ph Pm Pl b -> dall Pc Ph Pm Pl (dapp a b).
Proof.
  intros (?&?&?&?) (?&?&?&?). unfold dall, dapp; simpl.
  rewrite !Forall_app. tauto.
Qed.

Lemma dall_concat_fmap {X} (d : X -> delta) (l : list X) :
  (forall x, x ∈ l -> dall Pc Ph Pm Pl (d x)) -> dall Pc Ph Pm Pl (dconcat (d <$> l)).
Proof.
  induction l as [|x l IH]; intros H; [apply dall_empty|].
  rewrite fmap_cons. simpl. apply dall_app.
  - apply H. left.
  - apply IH. intros y Hy. apply H. by right.
Qed.

Lemma dall_in_out msg : dall Pc Ph Pm Pl (in_out msg).
Proof. repeat split; constructor. Qed.

Lemma dall_in_critical i : Pc i -> dall Pc Ph Pm Pl (in_critical i).
Proof. intros H. repeat split; simpl; by repeat constructor. Qed.

Lemma dall_in_high i : Ph i -> dall Pc Ph Pm Pl (in_high i).
Proof. intros H. repeat split; simpl; by repeat constructor. Qed.

Lemma dall_in_medium i : Pm i -> dall Pc Ph Pm Pl (in_medium i).
Proof. intros H. repeat split; simpl; by repeat constructor. Qed.

Lemma dall_in_low i : Pl i -> dall Pc Ph Pm Pl (in_low i).
Proof. intros H. repeat split; simpl; by repeat constructor. Qed.
End dall.

Lemma dsize_app a b : dsize (dapp a b) = (dsize a + dsize b)%nat.
Proof. unfold dsize, dapp; simpl. rewrite !length_app. lia. Qed.

Lemma dsize_concat_fmap {X} (d : X -> delta) (l : list X) :
  dsize (dconcat (d <$> l)) = sum_list_with (fun x => dsize (d x)) l.
Proof.
  induction l as [|x l IH]; [done|].
  rewrite fmap_cons. simpl. by rewrite dsize_app, IH.
Qed.

Lemma sum_list_with_length {X Y} (f : X -> list Y) (l : list X) :
  sum_list_with (fun x => length (f x)) l = length (concat (f <$> l)).
Proof.
  induction l as [|x l IH]; [done|].
  rewrite fmap_cons, concat_cons, length_app. simpl. by rewrite IH.
Qed.

Lemma sum_list_with_ext {X} (f g : X -> nat) (l : list X) :
  (forall x, f x = g x) -> sum_list_with f l = sum_list_with g l.
Proof. intros H. induction l as [|x l IH]; simpl; [done|]. by rewrite H, IH. Qed.

Lemma no_finding_nil (l : list issue) : Forall (fun _ => False) l -> l = [].
Proof. by destruct 1. Qed.

(** ** The direct-deduction score *)

(** C3. The direct-deduction score is
    max(0, 100 - 20*#critical - 10*#high - 5*#medium - 2*#low): a fixed
    penalty per finding, clamped at 0; it depends on the four counts only,
    so neither on the order of the findings nor on the Info entries, and
    it is not divided by the total count. *)
Theorem direct_deduction_score (files_scanned : nat) (st : analyzer) :
  security_score (calculate_security_score files_scanned st)
  = Z.max 0 (deduction (length (critical_issues st)) (length (high_issues st))
                       (length (medium_issues st)) (length (low_issues st)))
  /\ (0 <= security_score (calculate_security_score files_scanned st) <= 100)%Z
  /\ (forall i, security_score (calculate_security_score files_scanned (append_info i st))
                = security_score (calculate_security_score files_scanned st))
  /\ (forall i,
        security_score (calculate_security_score files_scanned (append_critical i st))
        = Z.max 0 (security_score (calculate_security_score files_scanned st) - 20)
        /\ security_score (calculate_security_score files_scanned (append_high i st))
          = Z.max 0 (security_score (calculate_security_score files_scanned st) - 10)
        /\ security_score (calculate_security_score files_scanned (append_medium i st))
          = Z.max 0 (security_score (calculate_security_score files_scanned st) - 5)
        /\ security_score (calculate_security_score files_scanned (append_low i st))
          = Z.max 0 (security_score (calculate_security_score files_scanned st) - 2)).
Proof.
  unfold calculate_security_score, deduction; simpl.
  split; [f_equal; lia|]. split; [lia|]. split; [done|].
  intros i. rewrite !length_app; simpl. lia.
Qed.

(** ** Severity of credential findings *)

Lemma credential_severity_critical pattern_name :
  String.eqb (credential_severity pattern_name) "critical"
  = Str.contains "key" (Str.lower pattern_name).
Proof. unfold credential_severity. by destruct (Str.contains _ _). Qed.

Lemma credential_match_severity f line_num line rule m :
  rule ∈ credential_patterns ->
  dall (credential_finding "critical") (credential_finding "high")
       (fun _ => False) (fun _ => False)
       (credential_match_delta f line_num line rule.1 m).
Proof.
  intros Hrule. unfold credential_match_delta.
  destruct (is_false_positive _ _); [apply dall_empty|].
  rewrite credential_severity_critical.
  destruct (Str.contains "key" (Str.lower rule.1)) eqn:Hkey.
  - apply dall_in_critical. exists rule.1. unfold credential_issue, credential_severity.
    rewrite Hkey. repeat split; try done. by apply list_elem_of_fmap_2.
  - apply dall_in_high. exists rule.1. unfold credential_issue, credential_severity.
    rewrite Hkey. repeat split; try done. by apply list_elem_of_fmap_2.
Qed.

Lemma credential_delta_severity walk :
  dall (credential_finding "critical") (credential_finding "high")
       (fun _ => False) (fun _ => False) (credential_delta walk).
Proof.
  unfold credential_delta. apply dall_app; [apply dall_in_out|].
  apply dall_concat_fmap. intros f _. unfold file_delta.
  destruct (has_ext _ _); [|apply dall_empty].
  destruct (read f) as [content|e]; [|apply dall_empty].
  apply dall_concat_fmap. intros [line_num line] _.
  apply dall_concat_fmap. intros rule Hrule.
  apply dall_concat_fmap. intros m _.
  by apply credential_match_severity.
Qed.

(** C10. Every credential finding has severity 'critical' or 'high': it is
    'critical' exactly when the name of its rule contains "key" (in lower
    case) and 'high' otherwise; the scan adds nothing to the medium and low
    lists. The generic secret rule [hardcoded_secret] has no "key" in its
    name, so what it matches is reported as 'high'. *)
Theorem credential_severity_by_rule_name (walk : list source_file) :
  Forall (credential_finding "critical")
         (critical_issues (scan_credentials walk initial))
  /\ Forall (credential_finding "high") (high_issues (scan_credentials walk initial))
  /\ medium_issues (scan_credentials walk initial) = []
  /\ low_issues (scan_credentials walk initial) = []
  /\ (fun rule : string * (bool * regex) => (rule.1, credential_severity rule.1))
       <$> credential_patterns
     = [ ("api_key_generic", "critical"); ("hardcoded_secret", "high");
         ("aws_key", "critical"); ("github_token", "high");
         ("slack_token", "high"); ("private_key", "critical");
         ("bearer_token", "high"); ("basic_auth", "high");
         ("deepgram_key", "critical"); ("openai_key", "critical");
         ("anthropic_key", "critical") ].
Proof.
  rewrite emits_scan_credentials.
  destruct (credential_delta_severity walk) as (Hc & Hh & Hm & Hl).
  unfold extend, initial; simpl.
  repeat split; try done.
  - by apply no_finding_nil.
  - by apply no_finding_nil.
Qed.

(** ** The false-positive filter *)

Lemma lower_app a b : Str.lower (a ++ b) = Str.lower a ++ Str.lower b.
Proof. induction a as [|c a IH]; simpl; [done|]. by rewrite IH. Qed.

Lemma startswith_app p s : Str.startswith p (p ++ s) = true.
Proof.
  induction p as [|c p IH]; simpl; [done|]. by rewrite Ascii.eqb_refl, IH.
Qed.

Lemma contains_app_r p a s : Str.contains p s = true -> Str.contains p (a ++ s) = true.
Proof.
  intros H. induction a as [|c a IH]; simpl; [done|].
  rewrite IH. apply orb_true_r.
Qed.

(** A text with [p] somewhere inside it contains [p]. *)
Lemma contains_infix p a b : Str.contains p (a ++ p ++ b) = true.
Proof.
  apply contains_app_r. destruct (p ++ b) eqn:E; simpl; rewrite <- E;
    by rewrite startswith_app.
Qed.

Lemma is_false_positive_iff text pattern_name :
  is_false_positive text pattern_name = true
  <-> exists indicator, indicator ∈ false_positive_indicators
                        /\ Str.contains (Str.lower indicator) (Str.lower text) = true.
Proof.
  unfold is_false_positive. rewrite existsb_exists.
  split; intros (w & Hw & ?); exists w; (split; [|done]); by apply list_elem_of_In.
Qed.

Lemma is_false_positive_false text pattern_name :
  is_false_positive text pattern_name = false
  <-> forall indicator, indicator ∈ false_positive_indicators ->
                        Str.contains (Str.lower indicator) (Str.lower text) = false.
Proof.
  rewrite <- not_true_iff_false, is_false_positive_iff. split.
  - intros Hno w Hw. apply not_true_iff_false. intros Hc. apply Hno. eauto.
  - intros Hall (w & Hw & Hc). rewrite (Hall w Hw) in Hc. discriminate.
Qed.

Lemma findings_count_extend d st :
  findings_count (extend d st) = (findings_count st + dsize d)%nat.
Proof. unfold findings_count, extend, dsize; simpl. rewrite !length_app. lia. Qed.

Lemma dsize_file_deltas exts (d : source_file -> string -> delta) walk :
  dsize (dconcat (file_delta exts d <$> walk))
  = sum_list_with (fun fc : source_file * string => dsize (d fc.1 fc.2))
                  (scanned exts walk).
Proof.
  rewrite dsize_concat_fmap. unfold scanned, file_delta.
  induction walk as [|f walk IH]; [done|]. simpl.
  destruct (has_ext exts f); [|by rewrite IH].
  destruct (read f); simpl; by rewrite IH.
Qed.

Lemma dsize_add_issue i sev : dsize (add_issue_delta i sev) = 1%nat.
Proof. unfold add_issue_delta. by repeat case_match. Qed.

Lemma dsize_credential_match f line_num line pattern_name m :
  dsize (credential_match_delta f line_num line pattern_name m)
  = if is_false_positive (m_text m) pattern_name then 0%nat else 1%nat.
Proof. unfold credential_match_delta. by repeat case_match. Qed.

Lemma sum_list_with_indicator {X} (P : X -> bool) (l : list X) :
  sum_list_with (fun x => if P x then 0%nat else 1%nat) l
  = length (filter (fun x => P x = false) l).
Proof.
  induction l as [|x l IH]; [done|]. simpl. rewrite filter_cons, IH.
  destruct (P x); by case_decide.
Qed.

Lemma sum_list_with_const_1 {X} (l : list X) :
  sum_list_with (fun _ => 1%nat) l = length l.
Proof. induction l as [|x l IH]; simpl; [done|]. by rewrite IH. Qed.

Lemma dsize_credential_line f line_num line :
  dsize (credential_line_delta f line_num line) = length (kept_matches line).
Proof.
  unfold credential_line_delta, kept_matches.
  rewrite dsize_concat_fmap, <- sum_list_with_length.
  apply sum_list_with_ext. intros rule. unfold credential_rule_delta.
  rewrite dsize_concat_fmap.
  rewrite (sum_list_with_ext _ _ _ (dsize_credential_match f line_num line rule.1)).
  apply sum_list_with_indicator.
Qed.

Lemma credential_delta_reported walk :
  dall (reported_from walk) (reported_from walk) (fun _ => False) (fun _ => False)
       (credential_delta walk).
Proof.
  unfold credential_delta. apply dall_app; [apply dall_in_out|].
  apply dall_concat_fmap. intros f Hf. unfold file_delta.
  destruct (has_ext _ _); [|apply dall_empty].
  destruct (read f) as [content|e] eqn:Hread; [|apply dall_empty].
  apply dall_concat_fmap. intros [line_num line] Hline.
  apply dall_concat_fmap. intros rule Hrule.
  apply dall_concat_fmap. intros m Hm.
  unfold credential_match_delta.
  destruct (is_false_positive (m_text m) rule.1) eqn:Hfp; [apply dall_empty|].
  assert (reported_from walk (credential_issue f line_num line rule.1)).
  { exists f, content, line_num, line, rule, m. repeat split; try done.
    by apply is_false_positive_false with rule.1. }
  case_match; [by apply dall_in_critical|by apply dall_in_high].
Qed.

Lemma vulnerability_count walk :
  dsize (vulnerability_delta walk)
  = length (table_matches true vulnerability_patterns
              (scanned [".swift"; ".m"; ".h"] walk)).
Proof.
  unfold vulnerability_delta. rewrite dsize_app, dsize_file_deltas.
  change (dsize (in_out _)) with 0%nat. rewrite Nat.add_0_l.
  unfold table_matches. rewrite <- sum_list_with_length.
  apply sum_list_with_ext. intros [f content]. cbn [fst snd].
  unfold vulnerability_file_delta.
  rewrite dsize_concat_fmap, <- sum_list_with_length.
  apply sum_list_with_ext. intros rule. unfold vulnerability_rule_delta.
  rewrite dsize_concat_fmap.
  rewrite (sum_list_with_ext _ (fun _ => 1%nat)) by (intros m; apply dsize_add_issue).
  apply sum_list_with_const_1.
Qed.

Lemma memory_count walk :
  dsize (memory_delta walk)
  = length (table_matches false memory_security (scanned [".swift"] walk)).
Proof.
  unfold memory_delta. rewrite dsize_app, dsize_file_deltas.
  change (dsize (in_out _)) with 0%nat. rewrite Nat.add_0_l.
  unfold table_matches. rewrite <- sum_list_with_length.
  apply sum_list_with_ext. intros [f content]. cbn [fst snd].
  unfold memory_file_delta.
  rewrite dsize_concat_fmap, <- sum_list_with_length.
  apply sum_list_with_ext. intros rule. unfold memory_rule_delta.
  rewrite dsize_concat_fmap.
  rewrite (sum_list_with_ext _ (fun _ => 1%nat)) by done.
  apply sum_list_with_const_1.
Qed.

(** The network pass reports every rule that occurs in a file, once. *)
Lemma network_count walk :
  dsize (network_delta walk)
  = sum_list_with
      (fun fc : source_file * string =>
         length (filter (fun rule : string * regex => search false rule.2 fc.2 = true)
                        network_security))
      (scanned [".swift"; ".plist"] walk).
Proof.
  unfold network_delta. rewrite dsize_app, dsize_file_deltas.
  change (dsize (in_out _)) with 0%nat. rewrite Nat.add_0_l.
  apply sum_list_with_ext. intros [f content]. cbn [fst snd].
  unfold network_file_delta. rewrite dsize_concat_fmap.
  generalize network_security. intros table.
  induction table as [|rule table IH]; [done|].
  rewrite filter_cons. cbn [sum_list_with]. rewrite IH. unfold network_rule_delta.
  destruct (search false rule.2 content).
  - rewrite dsize_add_issue. by rewrite decide_True.
  - by rewrite decide_False.
Qed.

(** C5. A credential match whose text contains a word of the placeholder
    vocabulary, in any letter case, is a false positive and adds no
    finding: the findings of the credential scan are exactly the matches
    the filter keeps, none of which contains a vocabulary word (so none
    contains "example"). The vulnerability, memory and network passes have
    no filter: they report every match (the network pass every rule that
    occurs in a file). *)
Theorem placeholder_matches_suppressed (walk : list source_file) :
  (forall before word after indicator pattern_name,
      indicator ∈ false_positive_indicators ->
      Str.lower word = Str.lower indicator ->
      is_false_positive (before ++ word ++ after) pattern_name = true)
  /\ (forall before word after pattern_name,
        Str.lower word = "example" ->
        is_false_positive (before ++ word ++ after) pattern_name = true)
  /\ (forall f line_num line pattern_name m st,
        is_false_positive (m_text m) pattern_name = true ->
        credential_match f line_num line pattern_name m st = st)
  /\ Forall (reported_from walk)
            (critical_issues (scan_credentials walk initial)
             ++ high_issues (scan_credentials walk initial))
  /\ (forall f line_num line st,
        findings_count (credential_line f line_num line st)
        = (findings_count st + length (kept_matches line))%nat)
  /\ findings_count (scan_vulnerabilities walk initial)
     = length (table_matches true vulnerability_patterns
                 (scanned [".swift"; ".m"; ".h"] walk))
  /\ findings_count (check_memory_security walk initial)
     = length (table_matches false memory_security (scanned [".swift"] walk))
  /\ findings_count (check_network_security walk initial)
     = sum_list_with
         (fun fc : source_file * string =>
            length (filter (fun rule : string * regex => search false rule.2 fc.2 = true)
                           network_security))
         (scanned [".swift"; ".plist"] walk).
Proof.
  assert (HA : forall before word after indicator pattern_name,
             indicator ∈ false_positive_indicators ->
             Str.lower word = Str.lower indicator ->
             is_false_positive (before ++ word ++ after) pattern_name = true).
  { intros before word after indicator pattern_name Hin Hlow.
    apply is_false_positive_iff. exists indicator. split; [done|].
    rewrite !lower_app, Hlow. apply contains_infix. }
  split; [exact HA|]. split.
  { intros before word after pattern_name Hlow.
    apply (HA before word after "example"); [|done].
    apply list_elem_of_In. simpl. tauto. }
  split.
  { intros f line_num line pattern_name m st Hfp.
    unfold credential_match. by rewrite Hfp. }
  split.
  { rewrite emits_scan_credentials.
    destruct (credential_delta_reported walk) as (Hc & Hh & _).
    unfold extend, initial; simpl. rewrite Forall_app. by split. }
  split.
  { intros f line_num line st.
    by rewrite emits_credential_line, findings_count_extend, dsize_credential_line. }
  split; [by rewrite emits_scan_vulnerabilities, findings_count_extend, vulnerability_count|].
  split; [by rewrite emits_check_memory_security, findings_count_extend, memory_count|].
  by rewrite emits_check_network_security, findings_count_extend, network_count.
Qed.

Lemma placeholder_matches_suppressed_witness :
  (fun rule : string * (bool * regex) =>
     (rule.1, finditer rule.2.1 rule.2.2 placeholder_line))
    <$> head credential_patterns
  = Some ("api_key_generic", [placeholder_match])
  /\ is_false_positive "apiKey = 'EXAMPLE_KEY'" "api_key_generic" = true
  /\ credential_match (config_file placeholder_line) 1 placeholder_line
       "api_key_generic" placeholder_match initial = initial.
Proof.
  destruct (placeholder_matches_suppressed [config_file placeholder_line])
    as (HA & _ & HB & _).
  assert (Hfp : is_false_positive "apiKey = 'EXAMPLE_KEY'" "api_key_generic" = true).
  { apply (HA "apiKey = '" "EXAMPLE" "_KEY'" "example" "api_key_generic").
    - apply list_elem_of_In. simpl. tauto.
    - reflexivity. }
  split; [reflexivity|]. split; [exact Hfp|]. apply HB. exact Hfp.
Defined.

End SecFacts.

(** * Unreadable files *)

Module ReadErrors.
Import Fs Samples.

(** The frame of the security passes steps over a file that cannot be
    read. *)
Lemma for_each_file_skip {S} exts (body : source_file -> string -> S -> S)
    (f : source_file) e before after (st : S) :
  read f = ReadError e ->
  Sec.for_each_file exts body (before ++ f :: after)%list st
  = Sec.for_each_file exts body (before ++ after)%list st.
Proof.
  intros Hread. unfold Sec.for_each_file. rewrite !foldl_app. simpl.
  rewrite Hread. by destruct (Sec.has_ext exts f).
Qed.

Lemma find_swift_files_app walk1 walk2 :
  Perf._find_swift_files (walk1 ++ walk2)%list
  = (Perf._find_swift_files walk1 ++ Perf._find_swift_files walk2)%list.
Proof. apply filter_app. Qed.

Lemma unreadable_metrics f e : read f = ReadError e -> PerfNotions.file_metrics f = [].
Proof. intros H. unfold PerfNotions.file_metrics. by rewrite H. Qed.

(** C8, as the code has it. A file whose content cannot be read contributes
    no finding and the run goes on over the other files, in the performance
    analyzer and in every file-scanning pass of the security analyzer. The
    performance analyzer prints a warning for the file; the passes of the
    security analyzer skip it silently: their final state, output
    included, is the one of the walk without the file. *)
Theorem unreadable_file_skipped (f : source_file) (e : string) :
  read f = ReadError e ->
  (forall st,
      Perf.metrics (Perf._analyze_file f st) = Perf.metrics st
      /\ Perf.stdout (Perf._analyze_file f st)
         = (Perf.stdout st
            ++ [("⚠️  Error reading " ++ path_str f ++ ": " ++ e)%string])%list)
  /\ (forall project before after,
        Perf.report_metrics (Perf.analyze project (before ++ f :: after)%list).1
        = Perf.report_metrics (Perf.analyze project (before ++ after)%list).1)
  /\ (forall before after st,
        Sec.scan_credentials (before ++ f :: after)%list st
        = Sec.scan_credentials (before ++ after)%list st
        /\ Sec.scan_vulnerabilities (before ++ f :: after)%list st
           = Sec.scan_vulnerabilities (before ++ after)%list st
        /\ Sec.check_network_security (before ++ f :: after)%list st
           = Sec.check_network_security (before ++ after)%list st
        /\ Sec.check_memory_security (before ++ f :: after)%list st
           = Sec.check_memory_security (before ++ after)%list st
        /\ Sec.check_encryption (before ++ f :: after)%list st
           = Sec.check_encryption (before ++ after)%list st
        /\ Sec.check_authentication (before ++ f :: after)%list st
           = Sec.check_authentication (before ++ after)%list st).
Proof.
  intros Hread. split; [|split].
  - intros st. unfold Perf._analyze_file. by rewrite Hread.
  - intros project before after. rewrite !PerfFacts.analyze_metrics.
    rewrite !find_swift_files_app, !fmap_app, !concat_app. f_equal.
    unfold Perf._find_swift_files. rewrite filter_cons.
    case_decide; [|done].
    by rewrite fmap_cons, concat_cons, (unreadable_metrics f e).
  - intros before after st.
    unfold Sec.scan_credentials, Sec.scan_vulnerabilities, Sec.check_network_security,
      Sec.check_memory_security, Sec.check_encryption, Sec.check_authentication,
      Sec.auth_found_of.
    by rewrite !(for_each_file_skip _ _ f e before after).
Qed.

Lemma unreadable_file_skipped_witness :
  Perf.stdout (Perf._analyze_file undecodable Perf.initial)
  = ["⚠️  Error reading Sources/Secrets.swift: "
     ++ "'utf-8' codec can't decode byte 0xff in position 0"]
  /\ Perf.stdout (Perf._analyze_file undecodable_here Perf.initial)
     = ["⚠️  Error reading Secrets.swift: "
        ++ "'utf-8' codec can't decode byte 0xff in position 0"]
  /\ Sec.scan_credentials [undecodable] Sec.initial = Sec.scan_credentials [] Sec.initial.
Proof.
  destruct (unreadable_file_skipped undecodable _ eq_refl) as (Hperf & _ & Hsec).
  destruct (unreadable_file_skipped undecodable_here _ eq_refl) as (Hhere & _).
  split; [|split].
  - by destruct (Hperf Perf.initial) as [_ ->].
  - by destruct (Hhere Perf.initial) as [_ ->].
  - destruct (Hsec [] [] Sec.initial) as (H & _). exact H.
Defined.

(** C8 as the specification states it fails for the security analyzer:
    scanning the unreadable file prints nothing but the progress line of
    the pass, which is all that a scan of no file prints; no warning is
    logged. *)
Lemma unreadable_file_counterexample :
  Sec.stdout (Sec.scan_credentials [undecodable] Sec.initial)
  = ["  🔍 Scanning for credentials..."]
  /\ Sec.stdout (Sec.scan_credentials [] Sec.initial)
     = ["  🔍 Scanning for credentials..."]
  /\ ~ (exists warning,
          warning ∈ Sec.stdout (Sec.scan_credentials [undecodable] Sec.initial)
          /\ warning ∉ Sec.stdout (Sec.scan_credentials [] Sec.initial)).
Proof.
  split; [reflexivity|]. split; [reflexivity|].
  intros (warning & Hin & Hout). by apply Hout.
Qed.

End ReadErrors.

(** * Worked examples *)

Module Examples.
Import Re Fs Samples.

(** The matcher: greedy repetition with back-tracking, leftmost match,
    matches that do not overlap. *)
Example finditer_greedy :
  finditer false (cat [chr "a"; Star any; chr "b"]) "xxaybzzb a"
  = [ {| m_start := 2; m_text := "aybzzb" |} ].
Proof. reflexivity. Qed.

Example finditer_disjoint :
  findall false (lit "aa") "aaaaa" = ["aa"; "aa"].
Proof. reflexivity. Qed.

Example finditer_lookahead :
  findall false (cat [lit "Data("; Perf.not_later "async"]) "Data(x) Data(y) async Data(z)"
  = ["Data("].
Proof. reflexivity. Qed.

Example finditer_ignorecase :
  findall true (cat [lit "http://"; none_of [IChar "s"]]) "HTTP://a http://S http://t"
  = ["HTTP://a"; "http://t"].
Proof. reflexivity. Qed.

Example force_unwraps :
  Perf.force_unwrap_count "a! , b!) c!x d!! }" = 3%nat.
Proof. reflexivity. Qed.

Example title_of_key :
  Str.title (Str.replace_char "_" " " "retain_cycles") = "Retain Cycles".
Proof. reflexivity. Qed.

(** The impact labels compare as strings: "Low ..." sorts before
    "Medium ...". *)
Example impact_labels_lexical :
  String.leb (Perf.impact_value Perf.IMPACT_HIGH) (Perf.impact_value Perf.IMPACT_LOW) = true
  /\ String.leb (Perf.impact_value Perf.IMPACT_LOW) (Perf.impact_value Perf.IMPACT_MEDIUM) = true
  /\ String.leb (Perf.impact_value Perf.IMPACT_MEDIUM) (Perf.impact_value Perf.NEGLIGIBLE) = true.
Proof. by repeat split. Qed.

(** The scenario tree in binary64: the score is exactly 50. *)
Example scenario_score_float :
  Perf.performance_score_float
    (Perf.report_metrics (Perf.analyze "VoiceFlow" PerfNotions.scenario_tree).1)
  = Perf.f64 50.
Proof. by vm_compute. Qed.

(** An empty project: no finding, score 100, no recommendation. *)
Example empty_project :
  Perf.total_issues (Perf.summary (Perf.analyze "VoiceFlow" []).1) = 0%nat
  /\ Perf.performance_score (Perf.summary (Perf.analyze "VoiceFlow" []).1) = Perf.f64 100
  /\ Perf.recommendations (Perf.summary (Perf.analyze "VoiceFlow" []).1) = [].
Proof. by repeat split. Qed.

(** [finditer] where the pattern can match the empty string: after an empty
    match a match that is not empty is still found at the same position. *)
Example finditer_empty_matches :
  finditer false (Alt (NegLook (chr "b")) (chr "a")) "a"
  = [ {| m_start := 0; m_text := "" |}; {| m_start := 0; m_text := "a" |};
      {| m_start := 1; m_text := "" |} ]
  /\ findall false (Star (chr "a")) "baac" = [""; "aa"; ""; ""].
Proof. by split. Qed.

(** Paths as [pathlib] prints them. *)
Example path_strings :
  path_str {| root := "."; fname := "A.swift"; relative := "A.swift"; read := ReadOk "" |}
  = "A.swift"
  /\ path_str {| root := "/"; fname := "A.swift"; relative := "A.swift"; read := ReadOk "" |}
     = "/A.swift"
  /\ path_str {| root := "App//Sources/./UI/"; fname := "A.swift";
                 relative := "Sources/UI/A.swift"; read := ReadOk "" |}
     = "App/Sources/UI/A.swift".
Proof. by repeat split. Qed.

(** A key whose value is the placeholder YOUR_API_KEY is not reported. *)
Example placeholder_key_not_reported :
  Sec.critical_issues
    (Sec.scan_credentials [swift "Config.swift" ("let apiKey = " ++ q ++ "YOUR_API_KEY" ++ q)]
       Sec.initial) = []
  /\ Sec.high_issues
       (Sec.scan_credentials [swift "Config.swift" ("let apiKey = " ++ q ++ "YOUR_API_KEY" ++ q)]
          Sec.initial) = [].
Proof. by vm_compute. Qed.

(** A hard-coded password is matched by the generic secret rule only, and
    reported as 'high'. *)
Example password_reported_high :
  Sec.critical_issues
    (Sec.scan_credentials [swift "Login.swift" ("let password = " ++ q ++ "hunter2" ++ q)]
       Sec.initial) = []
  /\ Sec.high_issues
       (Sec.scan_credentials [swift "Login.swift" ("let password = " ++ q ++ "hunter2" ++ q)]
          Sec.initial)
     = [ Sec.credential_issue
           (swift "Login.swift" ("let password = " ++ q ++ "hunter2" ++ q)) 1
           ("let password = " ++ q ++ "hunter2" ++ q) "hardcoded_secret" ].
Proof. by vm_compute. Qed.

(** The vulnerability pass has no filter: a match that contains "test" is
    reported. *)
Example vulnerability_with_placeholder_word :
  Sec.is_false_positive "SELECT test + x" "sql_injection" = true
  /\ Sec.critical_issues
       (Sec.scan_vulnerabilities [swift "Query.swift" "SELECT test + x"] Sec.initial)
     = [ Sec.vulnerability_issue (swift "Query.swift" "SELECT test + x")
           "SELECT test + x" "sql_injection"
           {| m_start := 0; m_text := "SELECT test + x" |} ].
Proof. by vm_compute. Qed.

End Examples.

(** * Further properties of the performance analyzer *)

Module PerfMore.
Import Re Fs Perf PerfNotions MoreNotions PerfFacts.

(** ** Line numbers *)

Lemma split_lines_length s :
  length (Str.split_lines s) = (Str.count_char Str.newline s + 1)%nat.
Proof.
  induction s as [|c s IH]; [done|]. simpl.
  destruct (Ascii.eqb c Str.newline); simpl; [by rewrite IH|].
  destruct (Str.split_lines s); simpl in *; lia.
Qed.

Lemma take_nil n : Str.take n "" = "".
Proof. by destruct n. Qed.

Lemma take_cons n c s : Str.take (S n) (String c s) = String c (Str.take n s).
Proof. done. Qed.

Lemma count_char_take_le c n s :
  (Str.count_char c (Str.take n s) <= Str.count_char c s)%nat.
Proof.
  revert n. induction s as [|a s IH]; intros [|n]; simpl; try lia.
  fold (Str.take n s). specialize (IH n). lia.
Qed.

Lemma count_char_take_mono c n1 n2 s :
  (n1 <= n2)%nat ->
  (Str.count_char c (Str.take n1 s) <= Str.count_char c (Str.take n2 s))%nat.
Proof.
  revert n1 n2. induction s as [|a s IH]; intros n1 n2 Hle.
  - by rewrite !take_nil.
  - destruct n1 as [|n1]; [simpl; lia|]. destruct n2 as [|n2]; [lia|].
    rewrite !take_cons. simpl. specialize (IH n1 n2). lia.
Qed.

Lemma pattern_metrics_all (P : PerformanceMetric -> Prop)
    content file_name key categ sev imp recomm :
  (forall descr m, P (pattern_metric content file_name key categ sev imp recomm descr m)) ->
  Forall P (pattern_metrics content file_name key categ sev imp recomm).
Proof.
  intros HP. unfold pattern_metrics. apply Forall_concat, Forall_fmap, Forall_forall.
  intros pd _. apply Forall_fmap, Forall_forall. intros m _. apply HP.
Qed.

Lemma specific_metrics_all (P : PerformanceMetric -> Prop) content lines file_name :
  (forall n, P (excessive_userdefaults file_name n)) ->
  (forall n, P (large_file file_name n)) ->
  P (synchronous_network_call file_name) ->
  (forall n, P (excessive_force_unwrapping file_name n)) ->
  Forall P (specific_metrics content lines file_name).
Proof.
  intros H1 H2 H3 H4. unfold specific_metrics. rewrite !Forall_app.
  repeat split; (case_match; [by apply Forall_singleton | apply Forall_nil_2]).
Qed.

(** A property of every metric of a readable file: it holds when it holds
    for what the pattern groups and the specific checks build. *)
Lemma content_metrics_all (P : PerformanceMetric -> Prop) file_name content :
  (forall key categ sev imp recomm descr m,
      P (pattern_metric content file_name key categ sev imp recomm descr m)) ->
  (forall n, P (excessive_userdefaults file_name n)) ->
  (forall n, P (large_file file_name n)) ->
  P (synchronous_network_call file_name) ->
  (forall n, P (excessive_force_unwrapping file_name n)) ->
  Forall P (content_metrics file_name content).
Proof.
  intros Hp H1 H2 H3 H4. unfold content_metrics. rewrite !Forall_app.
  repeat split; try (apply pattern_metrics_all; intros; apply Hp).
  - case_match; [|constructor]. apply pattern_metrics_all; intros; apply Hp.
  - by apply specific_metrics_all.
Qed.

(** X1. The line number of a position is 1 plus the newlines before it: it
    is the number of lines of the text before the position, lies between 1
    and the number of lines of the file, and grows with the position. So
    every finding that [_check_patterns] appends carries the number of a
    line of the file, and every finding that the analysis of a file
    appends either carries such a number or none. *)
Theorem line_numbers_within_file (content : string) :
  (forall position,
      (1 <= _get_line_number position content <= length (Str.split_lines content))%nat
      /\ _get_line_number position content
         = length (Str.split_lines (Str.take position content)))
  /\ _get_line_number 0 content = 1%nat
  /\ (forall p1 p2, (p1 <= p2)%nat ->
        (_get_line_number p1 content <= _get_line_number p2 content)%nat)
  /\ (forall lines file_name key categ sev imp recomm st,
        exists added,
          metrics (_check_patterns content lines file_name key categ sev imp recomm st)
          = (metrics st ++ added)%list
          /\ Forall (fun m => exists n,
                       line m = Some n
                       /\ (1 <= n <= length (Str.split_lines content))%nat)
                    added)
  /\ (forall f st, read f = ReadOk content ->
        exists added,
          metrics (_analyze_file f st) = (metrics st ++ added)%list
          /\ Forall (fun m => forall n, line m = Some n ->
                       (1 <= n <= length (Str.split_lines content))%nat)
                    added).
Proof.
  assert (Hbound : forall position,
             (1 <= _get_line_number position content
              <= length (Str.split_lines content))%nat).
  { intros position. unfold _get_line_number. rewrite split_lines_length.
    pose proof (count_char_take_le Str.newline position content). lia. }
  split; [|split; [|split; [|split]]].
  - intros position. split; [apply Hbound|].
    unfold _get_line_number. by rewrite split_lines_length.
  - unfold _get_line_number. by destruct content.
  - intros p1 p2 Hle. unfold _get_line_number.
    pose proof (count_char_take_mono Str.newline p1 p2 content Hle). lia.
  - intros lines file_name key categ sev imp recomm st.
    exists (pattern_metrics content file_name key categ sev imp recomm).
    split; [by rewrite emits_check_patterns|].
    apply pattern_metrics_all. intros descr m. eexists. split; [reflexivity|apply Hbound].
  - intros f st Hread. exists (file_metrics f).
    split; [apply analyze_file_metrics|].
    unfold file_metrics. rewrite Hread.
    apply content_metrics_all; try (intros; simpl; discriminate).
    intros key categ sev imp recomm descr m n. simpl. intros [= <-]. apply Hbound.
Qed.

Lemma line_numbers_within_file_witness :
  line <$> metrics (_analyze_file three_lines initial) = [Some 2%nat; Some 2%nat]
  /\ Forall (fun m => forall n, line m = Some n -> (1 <= n <= 3)%nat)
            (metrics (_analyze_file three_lines initial)).
Proof.
  split; [by vm_compute|].
  destruct (line_numbers_within_file
              ("import Foundation" ++ String Str.newline ""
               ++ "load { [self] in refresh() }" ++ String Str.newline ""
               ++ "let x = 1")) as (_ & _ & _ & _ & H).
  destruct (H three_lines initial eq_refl) as (added & -> & Hall).
  exact Hall.
Defined.

(** ** Which files are analysed *)

Lemma swift_source_dec_eq f :
  (Str.endswith ".swift" (fname f) = true ∧ Str.contains "Tests" (root f) = false)
  <-> swift_source f.
Proof. done. Qed.

Lemma find_swift_files_idem walk :
  _find_swift_files (_find_swift_files walk) = _find_swift_files walk.
Proof.
  unfold _find_swift_files. rewrite list_filter_filter.
  apply list_filter_iff. tauto.
Qed.

Lemma find_swift_files_cons_skip f walk :
  ~ swift_source f -> _find_swift_files (f :: walk) = _find_swift_files walk.
Proof. intros H. unfold _find_swift_files. by rewrite filter_cons_False. Qed.

(** X2. Only Swift files outside test directories are analysed: the files
    kept are those of the walk, in its order, whose name ends in ".swift"
    and whose directory does not contain "Tests"; the findings of a scan
    are those of the scan of the kept files, and a file that is not kept
    changes no finding. *)
Theorem only_swift_sources_analysed (project : string) (walk : list source_file) :
  _find_swift_files walk `sublist_of` walk
  /\ (forall f, f ∈ _find_swift_files walk <-> f ∈ walk /\ swift_source f)
  /\ report_metrics (analyze project walk).1
     = report_metrics (analyze project (_find_swift_files walk)).1
  /\ (forall before f after,
        Str.endswith ".swift" (fname f) = false \/ Str.contains "Tests" (root f) = true ->
        walk = (before ++ f :: after)%list ->
        report_metrics (analyze project walk).1
        = report_metrics (analyze project (before ++ after)%list).1).
Proof.
  split; [apply sublist_filter|]. split; [|split].
  - intros f. unfold _find_swift_files. rewrite list_elem_of_filter. unfold swift_source. tauto.
  - by rewrite !analyze_metrics, find_swift_files_idem.
  - intros before f after Hskip ->. rewrite !analyze_metrics.
    unfold _find_swift_files. rewrite !filter_app, filter_cons_False; [done|].
    intros [H1 H2]. destruct Hskip as [H|H]; congruence.
Qed.

Lemma only_swift_sources_analysed_witness :
  report_metrics (analyze "VoiceFlow" [player_tests; three_lines]).1
  = report_metrics (analyze "VoiceFlow" [three_lines]).1.
Proof.
  destruct (only_swift_sources_analysed "VoiceFlow" [player_tests; three_lines])
    as (_ & _ & _ & H).
  apply (H [] player_tests [three_lines]); [right; reflexivity | reflexivity].
Defined.

(** ** The counts of the summary *)

Lemma sum_values_insert_new (m : gmap string nat) k v :
  m !! k = None -> sum_values (<[k:=v]> m) = (v + sum_values m)%nat.
Proof.
  intros Hk. unfold sum_values. apply map_fold_insert_L; [|done].
  intros. lia.
Qed.

Lemma sum_values_lookup (m : gmap string nat) k v :
  m !! k = Some v -> sum_values m = (v + sum_values (delete k m))%nat.
Proof.
  intros Hk. unfold sum_values.
  apply (map_fold_delete_L (fun _ n acc => (n + acc)%nat)); [|done].
  intros. lia.
Qed.

Lemma sum_values_bump (m : gmap string nat) k :
  sum_values (<[k := (default 0 (m !! k) + 1)%nat]> m) = S (sum_values m).
Proof.
  rewrite <- insert_delete_eq, sum_values_insert_new by apply lookup_delete_eq.
  destruct (m !! k) as [v|] eqn:Hk; simpl.
  - rewrite (sum_values_lookup m k v Hk). lia.
  - rewrite delete_id by done. lia.
Qed.

Lemma sum_values_category_counts ms : sum_values (category_counts_of ms) = length ms.
Proof.
  induction ms as [|m ms IH] using rev_ind; [done|].
  rewrite category_counts_snoc, sum_values_bump, IH, length_app. simpl. lia.
Qed.

Lemma count_severity_total ms :
  (count_severity CRITICAL ms + count_severity HIGH ms + count_severity MEDIUM ms
   + count_severity LOW ms + count_severity INFO ms)%nat = length ms.
Proof.
  induction ms as [|m ms IH]; [done|].
  rewrite !count_severity_cons. simpl length. rewrite <- IH.
  destruct (severity m); simpl; lia.
Qed.

Lemma sum_values_severity_counts ms : sum_values (severity_counts_of ms) = length ms.
Proof.
  unfold severity_counts_of. simpl list_to_map.
  rewrite !sum_values_insert_new by done.
  change (sum_values ∅) with 0%nat. pose proof (count_severity_total ms). lia.
Qed.

Lemma category_value_inj c1 c2 : category_value c1 = category_value c2 -> c1 = c2.
Proof. by destruct c1, c2. Qed.

Lemma count_category_snoc c ms m :
  count_category c (ms ++ [m])
  = (count_category c ms + if decide (category m = c) then 1 else 0)%nat.
Proof.
  unfold count_category. rewrite filter_app, length_app, filter_cons, filter_nil.
  by case_decide.
Qed.

(** An entry of [category_counts] is the number of findings of its
    category; a category without findings has no entry. *)
Lemma category_counts_lookup c ms :
  category_counts_of ms !! category_value c
  = if decide (count_category c ms = 0%nat) then None else Some (count_category c ms).
Proof.
  induction ms as [|m ms IH] using rev_ind; [done|].
  rewrite category_counts_snoc, count_category_snoc.
  destruct (decide (category m = c)) as [->|Hne].
  - rewrite lookup_insert_eq, IH.
    destruct (decide (count_category c ms = 0%nat)) as [->|?]; simpl.
    + done.
    + rewrite decide_False by lia. done.
  - rewrite lookup_insert_ne by (intros H; by apply category_value_inj in H).
    rewrite IH, Nat.add_0_r. done.
Qed.

(** X3. In every summary the severity counts add up to the number of
    findings, and so do the category counts; the entry of a category is
    the number of its findings, and a category without findings has no
    entry (the severity counts always have their five entries). *)
Theorem summary_counts_add_up (st : analyzer) :
  total_issues (_generate_summary st) = length (metrics st)
  /\ sum_values (severity_counts (_generate_summary st)) = total_issues (_generate_summary st)
  /\ sum_values (category_counts (_generate_summary st)) = total_issues (_generate_summary st)
  /\ (forall c,
        category_counts (_generate_summary st) !! category_value c
        = if decide (count_category c (metrics st) = 0%nat) then None
          else Some (count_category c (metrics st)))
  /\ dom (severity_counts (_generate_summary st))
     = {[ "critical"; "high"; "medium"; "low"; "info" ]}.
Proof.
  split; [done|]. split; [apply sum_values_severity_counts|].
  split; [apply sum_values_category_counts|]. split.
  - intros c. apply category_counts_lookup.
  - simpl. unfold severity_counts_of. simpl list_to_map.
    rewrite !dom_insert_L, dom_empty_L. set_solver.
Qed.

(** ** Recommendations *)

Lemma add_if_app c msg recs :
  add_if c msg recs = (recs ++ if c then [msg] else [])%list.
Proof. destruct c; simpl; [done|by rewrite app_nil_r]. Qed.

Lemma elem_of_if_singleton (c : bool) (msg x : string) :
  x ∈ (if c then [msg] else []) <-> c = true /\ x = msg.
Proof.
  destruct c.
  - rewrite list_elem_of_singleton. tauto.
  - split; [by intros ?%elem_of_nil|by intros [? _]].
Qed.

Lemma cc_count_category ms c : cc (category_counts_of ms) c = count_category c ms.
Proof. unfold cc. rewrite category_counts_lookup. by case_decide. Qed.

(** The recommendations as the code assembles them. *)
Lemma recommendations_of_summary st :
  recommendations (_generate_summary st)
  = ((if (0 <? count_severity CRITICAL (metrics st))%nat
      then [fix_critical (count_severity CRITICAL (metrics st))] else [])
     ++ (if (3 <? count_category MEMORY (metrics st))%nat
         then ["Review memory management patterns"] else [])
     ++ (if (3 <? count_category CONCURRENCY (metrics st))%nat
         then ["Audit concurrency patterns for thread safety"] else [])
     ++ (if (2 <? count_category UI (metrics st))%nat
         then ["Optimize UI operations for responsiveness"] else [])
     ++ (if match (performance_score_of (metrics st) ?= 70)%Q with
            | Lt => true | _ => false end
         then ["Consider performance profiling with Instruments"] else []))%list.
Proof.
  change (recommendations (_generate_summary st))
    with (recommendations_of (severity_counts_of (metrics st))
            (category_counts_of (metrics st)) (performance_score_of (metrics st))).
  unfold recommendations_of.
  destruct (sc_counts (metrics st)) as (-> & _).
  rewrite !cc_count_category, !add_if_app, app_nil_l, <- !app_assoc.
  reflexivity.
Qed.

Lemma all_recommendations_NoDup n : NoDup (all_recommendations n).
Proof.
  unfold all_recommendations, fix_critical.
  repeat (apply NoDup_cons; split;
          [rewrite ?elem_of_cons, elem_of_nil; simpl; intuition discriminate|]).
  apply NoDup_nil_2.
Qed.

(** X5. The recommendations are a selection, in the fixed order of the
    five tests, of the five possible lines, each at most once: the line on
    critical findings is there exactly when there is a critical finding,
    the lines on memory, concurrency and UI exactly when the category has
    more than 3, 3 and 2 findings, the profiling line exactly when the
    (unrounded) score is below 70. A scan without findings recommends
    nothing. *)
Theorem recommendations_in_fixed_order (st : analyzer) :
  recommendations (_generate_summary st)
    `sublist_of` all_recommendations (count_severity CRITICAL (metrics st))
  /\ NoDup (recommendations (_generate_summary st))
  /\ (fix_critical (count_severity CRITICAL (metrics st))
        ∈ recommendations (_generate_summary st)
      <-> (0 < count_severity CRITICAL (metrics st))%nat)
  /\ ("Review memory management patterns" ∈ recommendations (_generate_summary st)
      <-> (3 < count_category MEMORY (metrics st))%nat)
  /\ ("Audit concurrency patterns for thread safety"
        ∈ recommendations (_generate_summary st)
      <-> (3 < count_category CONCURRENCY (metrics st))%nat)
  /\ ("Optimize UI operations for responsiveness"
        ∈ recommendations (_generate_summary st)
      <-> (2 < count_category UI (metrics st))%nat)
  /\ ("Consider performance profiling with Instruments"
        ∈ recommendations (_generate_summary st)
      <-> (performance_score_of (metrics st) < 70)%Q)
  /\ (metrics st = [] -> recommendations (_generate_summary st) = []).
Proof.
  assert (Hsub : recommendations (_generate_summary st)
                   `sublist_of` all_recommendations (count_severity CRITICAL (metrics st))).
  { rewrite recommendations_of_summary. unfold all_recommendations.
    repeat case_match; simpl;
      repeat first [apply sublist_nil_l | apply sublist_skip | apply sublist_cons]. }
  split; [exact Hsub|]. split.
  { eapply sublist_NoDup; [apply all_recommendations_NoDup|exact Hsub]. }
  rewrite recommendations_of_summary.
  rewrite !elem_of_app, !elem_of_if_singleton, !Nat.ltb_lt.
  assert (Hlt : match (performance_score_of (metrics st) ?= 70)%Q with
                | Lt => true | _ => false end = true
                <-> (performance_score_of (metrics st) < 70)%Q).
  { rewrite Qlt_alt. destruct (performance_score_of (metrics st) ?= 70)%Q; split; done. }
  rewrite Hlt. unfold fix_critical.
  repeat split; try (intros; by intuition discriminate).
  intros Hnil. rewrite Hnil. reflexivity.
Qed.

Lemma recommendations_in_fixed_order_witness :
  recommendations (_generate_summary initial) = [].
Proof.
  destruct (recommendations_in_fixed_order initial) as (_ & _ & _ & _ & _ & _ & _ & H).
  by apply H.
Defined.

(** ** The file-level checks *)

(** X6. [_check_specific_issues] appends at most four findings to the
    metrics, one at most per check: they have no line number, carry the
    name of the file, and their names are pairwise different; nothing is
    printed. *)
Theorem specific_issues_are_file_level (content : string) (lines : list string)
    (file_name : string) (st : analyzer) :
  exists added,
    metrics (_check_specific_issues content lines file_name st)
    = (metrics st ++ added)%list
    /\ stdout (_check_specific_issues content lines file_name st) = stdout st
    /\ (length added <= 4)%nat
    /\ Forall (fun m => line m = None /\ file m = file_name) added
    /\ NoDup (name <$> added)
    /\ name <$> added
       `sublist_of` [ "Excessive UserDefaults Access"; "Large File";
                      "Synchronous Network Call"; "Excessive Force Unwrapping" ].
Proof.
  exists (specific_metrics content lines file_name).
  rewrite emits_check_specific_issues. unfold extend; simpl.
  split; [done|]. split; [by rewrite app_nil_r|].
  assert (Hsub : name <$> specific_metrics content lines file_name
                 `sublist_of` [ "Excessive UserDefaults Access"; "Large File";
                                "Synchronous Network Call"; "Excessive Force Unwrapping" ]).
  { unfold specific_metrics. repeat case_match; simpl;
      repeat first [apply sublist_nil_l | apply sublist_skip | apply sublist_cons]. }
  split; [|split; [|split; [|exact Hsub]]].
  - apply sublist_length in Hsub. by rewrite length_fmap in Hsub.
  - by apply specific_metrics_all.
  - eapply sublist_NoDup; [|exact Hsub].
    repeat (apply NoDup_cons; split;
            [rewrite ?elem_of_cons, elem_of_nil; intuition discriminate|]).
    apply NoDup_nil_2.
Qed.

(** ** Which rule gives which severity and category *)

Lemma contains_cons p c s : Str.contains p s = true -> Str.contains p (String c s) = true.
Proof. intros H. simpl. rewrite H. apply orb_true_r. Qed.

Lemma startswith_prefix p1 p2 s :
  Str.startswith (p1 ++ p2) s = true -> Str.startswith p1 s = true.
Proof.
  revert s. induction p1 as [|a p1 IH]; intros s; [done|].
  destruct s as [|b s]; simpl; [done|].
  rewrite !andb_true_iff. intros [? ?]. split; [done|by apply IH].
Qed.

Lemma contains_prefix p1 p2 s :
  Str.contains (p1 ++ p2) s = true -> Str.contains p1 s = true.
Proof.
  induction s as [|c s IH]; simpl; rewrite !orb_true_iff.
  - intros [H|H]; [|done]. left. by apply (startswith_prefix p1 p2).
  - intros [H|H]; [left; by apply (startswith_prefix p1 p2 (String c s))|right; by apply IH].
Qed.

(** The second test of the UI gate is implied by the first. *)
Lemma view_gate file_name :
  Str.contains "View" file_name || Str.contains "ViewModel" file_name
  = Str.contains "View" file_name.
Proof.
  destruct (Str.contains "View" file_name) eqn:Hv; [done|]. simpl.
  destruct (Str.contains "ViewModel" file_name) eqn:Hvm; [|done].
  apply (contains_prefix "View" "Model") in Hvm. congruence.
Qed.

Lemma count_severity_app sev ms1 ms2 :
  count_severity sev (ms1 ++ ms2) = (count_severity sev ms1 + count_severity sev ms2)%nat.
Proof. unfold count_severity. by rewrite filter_app, length_app. Qed.

Lemma count_severity_concat sev (mss : list (list PerformanceMetric)) :
  count_severity sev (concat mss) = sum_list_with (count_severity sev) mss.
Proof.
  induction mss as [|ms mss IH]; [done|]. simpl.
  by rewrite count_severity_app, IH.
Qed.

Lemma count_critical_pattern_metrics content file_name key categ sev imp recomm :
  sev <> CRITICAL ->
  count_severity CRITICAL (pattern_metrics content file_name key categ sev imp recomm) = 0%nat.
Proof.
  intros Hsev. apply count_severity_0.
  eapply Forall_impl; [apply pattern_metrics_severity|]. by intros m ->.
Qed.

Lemma count_critical_file f :
  count_severity CRITICAL (file_metrics f)
  = match read f with
    | ReadOk content =>
        if Str.contains "URLSession" content && negb (Str.contains "async" content)
        then 1%nat else 0%nat
    | ReadError _ => 0%nat
    end.
Proof.
  unfold file_metrics. destruct (read f) as [content|e]; [|done].
  unfold content_metrics. rewrite !count_severity_app.
  rewrite !count_critical_pattern_metrics by done.
  assert (count_severity CRITICAL
            (if Str.contains "View" (fname f) || Str.contains "ViewModel" (fname f)
             then pattern_metrics content (fname f) "ui" UI HIGH IMPACT_HIGH
                    "Move heavy operations out of UI code"
             else []) = 0%nat) as ->.
  { case_match; [|done]. by apply count_critical_pattern_metrics. }
  unfold specific_metrics. rewrite !count_severity_app.
  by repeat case_match.
Qed.

Lemma Forall_file_metrics (P : PerformanceMetric -> Prop) f :
  (forall content, read f = ReadOk content -> Forall P (content_metrics (fname f) content)) ->
  Forall P (file_metrics f).
Proof.
  intros H. unfold file_metrics. destruct (read f) as [content|e] eqn:E.
  - by apply H.
  - apply Forall_nil_2.
Qed.

(** X7. The only critical finding the analyzer emits is the file-level
    "Synchronous Network Call": a file has one exactly when it can be read,
    contains "URLSession" and does not contain "async", and none
    otherwise, so a scan has at most one critical finding per file. It is
    also the only finding of category Network; no finding has category
    Database. *)
Theorem critical_findings_are_network_calls (project : string) (walk : list source_file) :
  Forall (fun m =>
            (severity m = CRITICAL \/ category m = NETWORK ->
             name m = "Synchronous Network Call" /\ severity m = CRITICAL
             /\ category m = NETWORK /\ line m = None)
            /\ category m <> DATABASE)
         (report_metrics (analyze project walk).1)
  /\ (forall f,
        count_severity CRITICAL (file_metrics f)
        = match read f with
          | ReadOk content =>
              if Str.contains "URLSession" content && negb (Str.contains "async" content)
              then 1%nat else 0%nat
          | ReadError _ => 0%nat
          end)
  /\ (count_severity CRITICAL (report_metrics (analyze project walk).1)
      <= length (_find_swift_files walk))%nat.
Proof.
  split; [|split].
  - rewrite analyze_metrics. apply Forall_concat, Forall_fmap, Forall_forall.
    intros f _. apply Forall_file_metrics. intros content _.
    unfold content_metrics. rewrite !Forall_app.
    assert (Hpat : forall key categ sev imp recomm,
               sev <> CRITICAL -> categ <> NETWORK -> categ <> DATABASE ->
               Forall (fun m =>
                         (severity m = CRITICAL \/ category m = NETWORK ->
                          name m = "Synchronous Network Call" /\ severity m = CRITICAL
                          /\ category m = NETWORK /\ line m = None)
                         /\ category m <> DATABASE)
                      (pattern_metrics content (fname f) key categ sev imp recomm)).
    { intros key categ sev imp recomm H1 H2 H3. apply pattern_metrics_all.
      intros descr m. simpl. split; [|done]. by intros [?|?]. }
    repeat split; try (apply Hpat; done).
    + case_match; [by apply Hpat|constructor].
    + apply specific_metrics_all; intros; simpl;
        (split; [|done]); try (by intros [?|?]); done.
  - apply count_critical_file.
  - rewrite analyze_metrics, count_severity_concat.
    induction (_find_swift_files walk) as [|f files IH]; [done|].
    rewrite fmap_cons. simpl. rewrite count_critical_file.
    destruct (read f); [case_match|]; lia.
Qed.

(** X8. The UI rules are applied only to files whose name contains View
    (the second test, for ViewModel, never adds a file): whatever its
    content, the analysis of a file whose name does not contain View
    appends no finding of category UI Responsiveness, and a scan of files
    of which none has View in its name reports none. *)
Theorem ui_rules_only_for_views (f : source_file) :
  Str.contains "View" (fname f) = false ->
  (forall st,
      exists added,
        metrics (_analyze_file f st) = (metrics st ++ added)%list
        /\ Forall (fun m => category m <> UI) added)
  /\ (forall project walk,
        Forall (fun g => Str.contains "View" (fname g) = false) walk ->
        Forall (fun m => category m <> UI) (report_metrics (analyze project walk).1)).
Proof.
  assert (Hfile : forall g, Str.contains "View" (fname g) = false ->
                            Forall (fun m => category m <> UI) (file_metrics g)).
  { intros g Hview. apply Forall_file_metrics. intros content _.
    unfold content_metrics. rewrite view_gate, Hview, !Forall_app.
    repeat split; try (apply pattern_metrics_all; by intros).
    - constructor.
    - by apply specific_metrics_all. }
  intros Hview. split.
  - intros st. exists (file_metrics f). split; [apply analyze_file_metrics|by apply Hfile].
  - intros project walk Hwalk. rewrite analyze_metrics.
    apply Forall_concat, Forall_fmap, Forall_forall. intros g Hg. apply Hfile.
    apply list_elem_of_filter in Hg as [_ Hg].
    rewrite Forall_forall in Hwalk. by apply Hwalk.
Qed.

(** The same content gives a UI finding under a name that contains View
    and none under a name that does not. *)
Lemma ui_rules_only_for_views_witness :
  Forall (fun m => category m <> UI) (metrics (_analyze_file loader initial))
  /\ category <$> metrics (_analyze_file loader_view initial) = [UI].
Proof.
  split; [|by vm_compute].
  destruct (ui_rules_only_for_views loader eq_refl) as [H _].
  destruct (H initial) as (added & -> & Hall). exact Hall.
Defined.

End PerfMore.

(** * The matches of a pattern *)

Module ReMore.
Import Re Fs Perf PerfNotions MoreNotions PerfFacts.

Lemma take_length n s : String.length (Str.take n s) = Nat.min n (String.length s).
Proof.
  revert n. induction s as [|c s IH]; intros [|n]; simpl; try done.
  fold (Str.take n s). by rewrite IH.
Qed.

(** What a run returns, its continuation has returned. *)
Lemma run_result (A : Set) (P : A -> Prop) ic r :
  forall s (k : string -> option A) x,
    (forall rest y, k rest = Some y -> P y) ->
    run ic r s k = Some x -> P x.
Proof.
  induction r as [|neg items|r1 IH1 r2 IH2|r1 IH1 r2 IH2|r IH|r IH];
    intros s k x Hk; simpl.
  - apply Hk.
  - destruct s as [|c s]; [done|]. destruct (cset_has ic neg items c); [apply Hk|done].
  - apply IH1. intros rest y. apply IH2. exact Hk.
  - destruct (run ic r1 s k) eqn:E1.
    + intros [= <-]. eapply IH1; [exact Hk|exact E1].
    + by apply IH2.
  - generalize (String.length s) at 1. intros fuel. revert s x.
    induction fuel as [|fuel IHf]; intros s x; [apply Hk|].
    match goal with |- context [run ic r s ?k'] => destruct (run ic r s k') eqn:E end.
    + intros [= <-]. eapply IH; [|exact E].
      intros rest y. simpl. case_match; [apply IHf|done].
    + apply Hk.
  - destruct (run ic r s _); [done|apply Hk].
Qed.

Lemma match_len_le ic r s n : match_len ic r s = Some n -> (n <= String.length s)%nat.
Proof.
  apply (run_result nat (fun n => (n <= String.length s)%nat)).
  intros rest y [= <-]. lia.
Qed.

Lemma match_len_nonempty_le ic r s n :
  match_len_nonempty ic r s = Some n -> (1 <= n <= String.length s)%nat.
Proof.
  apply (run_result nat (fun n => (1 <= n <= String.length s)%nat)).
  intros rest y. case_match eqn:E; [|done]. apply Nat.ltb_lt in E. intros [= <-]. lia.
Qed.

Lemma substring_shift k n c s : substring (S k) n (String c s) = substring k n s.
Proof. done. Qed.

(** What [scan] yields from position [pos], where [s] is what is left of
    the text: matches inside the text, each the text found at its
    position, none overlapping a later one. *)
Lemma scan_spec ic r s : forall skip pos,
  Forall (fun m =>
            (pos + skip <= m_start m)%nat
            /\ (m_end m <= pos + String.length s)%nat
            /\ substring (m_start m - pos) (String.length (m_text m)) s = m_text m)
         (scan ic r skip pos s)
  /\ StronglySorted precedes (scan ic r skip pos s).
Proof.
  induction s as [|c s IH]; intros skip pos.
  - simpl. destruct skip; [|split; constructor].
    destruct (match_len ic r "") as [n|] eqn:E; [|split; constructor].
    split; [|repeat constructor].
    apply Forall_singleton. unfold m_end. simpl. rewrite Nat.sub_diag.
    repeat split; try lia; done.
  - assert (Hshift : forall skip',
        Forall (fun m =>
                  (pos + S skip' <= m_start m)%nat
                  /\ (m_end m <= pos + S (String.length s))%nat
                  /\ substring (m_start m - pos) (String.length (m_text m)) (String c s)
                     = m_text m)
               (scan ic r skip' (S pos) s)).
    { intros skip'. destruct (IH skip' (S pos)) as [Hall _].
      eapply Forall_impl; [exact Hall|]. intros m (H1 & H2 & H3).
      replace (m_start m - pos)%nat with (S (m_start m - S pos)) by lia.
      rewrite substring_shift. repeat split; try lia; done. }
    assert (Hweak : forall skip',
        Forall (fun m =>
                  (pos + 0 <= m_start m)%nat
                  /\ (m_end m <= pos + String.length (String c s))%nat
                  /\ substring (m_start m - pos) (String.length (m_text m)) (String c s)
                     = m_text m)
               (scan ic r skip' (S pos) s)).
    { intros skip'. eapply Forall_impl; [apply (Hshift skip')|].
      intros m (H1 & H2 & H3). simpl. repeat split; try lia; done. }
    assert (Hhead : forall n, (n <= String.length (String c s))%nat ->
        let m := {| m_start := pos; m_text := Str.take n (String c s) |} in
        ((pos + 0 <= m_start m)%nat
         /\ (m_end m <= pos + String.length (String c s))%nat
         /\ substring (m_start m - pos) (String.length (m_text m)) (String c s) = m_text m)
        /\ m_end m = (pos + n)%nat).
    { intros n Hn m. unfold m_end, m. cbn [m_start m_text].
      rewrite take_length, Nat.min_l, Nat.sub_diag by done.
      repeat split; try lia; done. }
    assert (Hafter : forall n skip', (n <= S skip')%nat ->
        Forall (fun m => (pos + n <= m_start m)%nat) (scan ic r skip' (S pos) s)).
    { intros n skip' Hn. eapply Forall_impl; [apply (Hshift skip')|].
      intros m (H1 & _). lia. }
    simpl scan. destruct skip as [|skip].
    + destruct (match_len ic r (String c s)) as [[|n]|] eqn:E.
      * pose proof (Hhead 0%nat ltac:(simpl; lia)) as [Hempty Hend].
        change (Str.take 0 (String c s)) with "" in Hempty, Hend.
        destruct (match_len_nonempty ic r (String c s)) as [n|] eqn:E'.
        -- pose proof (match_len_nonempty_le _ _ _ _ E') as Hn.
           pose proof (Hhead n ltac:(lia)) as [Hm Hmend].
           split.
           ++ apply Forall_cons. split; [exact Hempty|].
              apply Forall_cons. split; [exact Hm|apply Hweak].
           ++ apply SSorted_cons; [apply SSorted_cons; [apply (IH (Nat.pred n) (S pos))|]|].
              ** eapply Forall_impl; [apply (Hafter n (Nat.pred n)); lia|].
                 intros m Hle. unfold precedes. rewrite Hmend. exact Hle.
              ** apply Forall_cons. split; [unfold precedes; rewrite Hend; simpl; lia|].
                 eapply Forall_impl; [apply (Hafter 0%nat (Nat.pred n)); lia|].
                 intros m Hle. unfold precedes. rewrite Hend. exact Hle.
        -- split.
           ++ apply Forall_cons. split; [exact Hempty|apply Hweak].
           ++ apply SSorted_cons; [apply (IH 0%nat (S pos))|].
              eapply Forall_impl; [apply (Hafter 0%nat 0%nat); lia|].
              intros m Hle. unfold precedes. rewrite Hend. exact Hle.
      * pose proof (match_len_le _ _ _ _ E) as Hn.
        pose proof (Hhead (S n) Hn) as [Hm Hmend].
        split.
        -- apply Forall_cons. split; [exact Hm|apply Hweak].
        -- apply SSorted_cons; [apply (IH n (S pos))|].
           eapply Forall_impl; [apply (Hafter (S n) n); lia|].
           intros m Hle. unfold precedes. rewrite Hmend. exact Hle.
      * split; [apply Hweak|apply (IH 0%nat (S pos))].
    + split; [|apply (IH skip (S pos))].
      eapply Forall_impl; [apply (Hshift skip)|].
      intros m (H1 & H2 & H3). simpl. repeat split; try lia; done.
Qed.

(** The matches of [finditer] lie inside the text, each is the text found
    at its position, and none overlaps a later one. *)
Lemma finditer_spec ic r s :
  Forall (fun m =>
            (m_end m <= String.length s)%nat
            /\ substring (m_start m) (String.length (m_text m)) s = m_text m)
         (finditer ic r s)
  /\ StronglySorted precedes (finditer ic r s).
Proof.
  destruct (scan_spec ic r s 0 0) as [Hall Hsorted]. split; [|exact Hsorted].
  eapply Forall_impl; [exact Hall|]. intros m (_ & H2 & H3).
  rewrite Nat.sub_0_r in H3. by split.
Qed.

Lemma StronglySorted_fmap {A B} (R : A -> A -> Prop) (R' : B -> B -> Prop)
    (g : A -> B) (l : list A) :
  (forall a b, R a b -> R' (g a) (g b)) ->
  StronglySorted R l -> StronglySorted R' (g <$> l).
Proof.
  intros HR. induction 1 as [|x l Hl IH Hx]; csimpl; constructor; [done|].
  apply Forall_fmap. eapply Forall_impl; [exact Hx|]. intros y. apply HR.
Qed.

(** X9. The findings that [_check_patterns] appends for a pattern group
    are those of its patterns, one pattern after the other in the order
    of the table and one finding for each match; the findings of one
    pattern carry the description of that pattern and come in the order
    of the text, so their line numbers never decrease. *)
Theorem pattern_findings_in_text_order (content : string) (lines : list string)
    (file_name key : string) (categ : Category) (sev : Severity) (imp : Impact)
    (recomm : string) (st : analyzer) :
  exists chunks : list (list PerformanceMetric),
    metrics (_check_patterns content lines file_name key categ sev imp recomm st)
    = (metrics st ++ concat chunks)%list
    /\ Forall2 (fun (pd : regex * string) chunk =>
                  length chunk = length (finditer false pd.1 content)
                  /\ Forall (fun m => description m = pd.2) chunk
                  /\ StronglySorted line_le chunk)
               (default [] (PATTERNS !! key)) chunks.
Proof.
  exists ((fun pd : regex * string =>
             pattern_metric content file_name key categ sev imp recomm pd.2
               <$> finditer false pd.1 content)
          <$> default [] (PATTERNS !! key)).
  split; [by rewrite emits_check_patterns|].
  apply Forall2_fmap_r, Forall_Forall2_diag, Forall_forall. intros pd _.
  split; [by rewrite length_fmap|]. split.
  - apply Forall_fmap, Forall_forall. by intros m _.
  - destruct (finditer_spec false pd.1 content) as [Hall Hsorted].
    eapply StronglySorted_fmap; [|exact Hsorted].
    intros a b Hab. unfold line_le, precedes, m_end in *. simpl.
    unfold _get_line_number.
    pose proof (PerfMore.count_char_take_mono Str.newline (m_start a) (m_start b) content).
    lia.
Qed.

End ReMore.

(** * Further properties of the security analyzer *)

Module SecMore.
Import Re Fs Sec SecNotions SecRest MoreNotions SecFacts.

(** ** What the passes keep *)

Lemma foldl_preserves {X} (I : analyzer -> Prop) (g : analyzer -> X -> analyzer)
    (l : list X) :
  (forall st x, I st -> I (g st x)) -> forall st, I st -> I (foldl g st l).
Proof. intros Hg. induction l as [|x l IH]; simpl; auto. Qed.

Lemma for_each_file_preserves (I : analyzer -> Prop) exts
    (body : source_file -> string -> analyzer -> analyzer) walk :
  (forall f content st, I st -> I (body f content st)) ->
  forall st, I st -> I (for_each_file exts body walk st).
Proof.
  intros Hb. unfold for_each_file. apply foldl_preserves.
  intros st f Hst. destruct (has_ext exts f); [|done]. destruct (read f); auto.
Qed.

Lemma same_findings_refl st : same_findings st st.
Proof. by repeat split. Qed.

Lemma same_findings_trans a b c : same_findings a b -> same_findings b c -> same_findings a c.
Proof.
  intros (H1 & H2 & H3 & H4) (G1 & G2 & G3 & G4).
  repeat split; congruence.
Qed.

Lemma same_findings_print msg st : same_findings (print msg st) st.
Proof. by repeat split. Qed.

Lemma same_findings_append_info i st : same_findings (append_info i st) st.
Proof. by repeat split. Qed.

Lemma filed_same a b : same_findings a b -> filed b -> filed a.
Proof. intros (H1 & H2 & H3 & H4). unfold filed. by rewrite H1, H2, H3, H4. Qed.

Lemma filed_append_critical i st :
  has_severity "critical" i -> filed st -> filed (append_critical i st).
Proof.
  intros Hi (H1 & H2 & H3 & H4). repeat split; try done.
  simpl. rewrite Forall_app, Forall_singleton. by split.
Qed.

Lemma filed_append_high i st :
  has_severity "high" i -> filed st -> filed (append_high i st).
Proof.
  intros Hi (H1 & H2 & H3 & H4). repeat split; try done.
  simpl. rewrite Forall_app, Forall_singleton. by split.
Qed.

Lemma filed_append_medium i st :
  has_severity "medium" i -> filed st -> filed (append_medium i st).
Proof.
  intros Hi (H1 & H2 & H3 & H4). repeat split; try done.
  simpl. rewrite Forall_app, Forall_singleton. by split.
Qed.

Lemma filed_append_low i st :
  has_severity "low" i -> filed st -> filed (append_low i st).
Proof.
  intros Hi (H1 & H2 & H3 & H4). repeat split; try done.
  simpl. rewrite Forall_app, Forall_singleton. by split.
Qed.

(** [add_issue] files an issue under the severity it is given when that is
    one of the four names; any other name goes to the low list. *)
Lemma filed_add_issue i sev st :
  has_severity sev i -> sev ∈ ["critical"; "high"; "medium"; "low"] ->
  filed st -> filed (add_issue i sev st).
Proof.
  intros Hi Hsev Hst. unfold add_issue.
  destruct (String.eqb sev "critical") eqn:E1.
  { apply String.eqb_eq in E1 as ->. by apply filed_append_critical. }
  destruct (String.eqb sev "high") eqn:E2.
  { apply String.eqb_eq in E2 as ->. by apply filed_append_high. }
  destruct (String.eqb sev "medium") eqn:E3.
  { apply String.eqb_eq in E3 as ->. by apply filed_append_medium. }
  apply String.eqb_neq in E1, E2, E3.
  rewrite !elem_of_cons, elem_of_nil in Hsev.
  destruct Hsev as [?|[?|[?|[->|[]]]]]; try done.
  by apply filed_append_low.
Qed.

Lemma vulnerability_severity_named vuln_name :
  get_vulnerability_severity vuln_name ∈ ["critical"; "high"; "medium"; "low"].
Proof.
  unfold get_vulnerability_severity.
  repeat case_match; apply list_elem_of_In; simpl; tauto.
Qed.

Lemma network_severity_named sec_name :
  network_severity sec_name ∈ ["critical"; "high"; "medium"; "low"].
Proof. unfold network_severity. case_match; apply list_elem_of_In; simpl; tauto. Qed.

Lemma credential_match_filed f line_num line pattern_name m st :
  filed st -> filed (credential_match f line_num line pattern_name m st).
Proof.
  intros Hst. unfold credential_match.
  destruct (is_false_positive _ _); [done|].
  destruct (String.eqb (credential_severity pattern_name) "critical") eqn:E.
  - apply filed_append_critical; [|done].
    apply String.eqb_eq in E. unfold has_severity, credential_issue. by rewrite E.
  - apply filed_append_high; [|done].
    unfold has_severity, credential_issue. unfold credential_severity in *.
    by destruct (Str.contains "key" (Str.lower pattern_name)).
Qed.

Lemma scan_credentials_filed walk st : filed st -> filed (scan_credentials walk st).
Proof.
  intros Hst. unfold scan_credentials.
  apply for_each_file_preserves; [|done].
  intros f content. apply foldl_preserves. intros st1 nl.
  unfold credential_line. apply foldl_preserves. intros st2 rule.
  apply foldl_preserves. intros st3 m. apply credential_match_filed.
Qed.

Lemma scan_vulnerabilities_filed walk st : filed st -> filed (scan_vulnerabilities walk st).
Proof.
  intros Hst. unfold scan_vulnerabilities.
  apply for_each_file_preserves; [|done].
  intros f content. apply foldl_preserves. intros st1 rule.
  apply foldl_preserves. intros st2 m.
  apply filed_add_issue; [done|apply vulnerability_severity_named].
Qed.

Lemma check_network_security_filed walk st :
  filed st -> filed (check_network_security walk st).
Proof.
  intros Hst. unfold check_network_security.
  apply for_each_file_preserves; [|done].
  intros f content. apply foldl_preserves. intros st1 rule Hst1.
  destruct (search false rule.2 content); [|done].
  apply filed_add_issue; [done|apply network_severity_named|done].
Qed.

Lemma check_memory_security_filed walk st :
  filed st -> filed (check_memory_security walk st).
Proof.
  intros Hst. unfold check_memory_security.
  apply for_each_file_preserves; [|done].
  intros f content. apply foldl_preserves. intros st1 rule.
  apply foldl_preserves. intros st2 m. by apply filed_append_medium.
Qed.

Lemma check_file_permissions_filed rglob st :
  filed st -> filed (check_file_permissions rglob st).
Proof.
  intros Hst. unfold check_file_permissions.
  apply foldl_preserves; [|done]. intros st1 pattern.
  apply foldl_preserves. intros st2 e Hst2. unfold check_permission.
  destruct (st_mode e); [|done]. case_match; [|done].
  by apply filed_append_low.
Qed.

Lemma check_dependencies_filed urls package st :
  filed st -> filed (check_dependencies urls package st).
Proof.
  intros Hst. unfold check_dependencies.
  destruct package as [[content|e]|]; try done.
  case_match; [|done]. by apply filed_append_medium.
Qed.

(** ** The passes that only inform *)

Lemma check_encryption_same walk st : same_findings (check_encryption walk st) st.
Proof.
  unfold check_encryption.
  apply (for_each_file_preserves (fun s => same_findings s st));
    [|apply same_findings_print].
  intros f content. apply (foldl_preserves (fun s => same_findings s st)).
  intros st1 chk Hst1.
  destruct (Str.contains chk.1 content); [|done].
  eapply same_findings_trans; [apply same_findings_append_info|done].
Qed.

Lemma check_authentication_same walk st : same_findings (check_authentication walk st) st.
Proof. unfold check_authentication. by destruct (auth_found_of walk). Qed.

Lemma analyze_info_plist_same plist st : same_findings (analyze_info_plist plist st) st.
Proof.
  unfold analyze_info_plist. destruct plist as [[content|e]|]; try done.
  apply (foldl_preserves (fun s => same_findings s st)); [|apply same_findings_print].
  intros st1 kd Hst1. destruct (Str.contains kd.1 content); [|done].
  eapply same_findings_trans; [apply same_findings_append_info|done].
Qed.

Lemma scanning_passes_filed p st : filed st -> filed (scanning_passes p st).
Proof.
  intros Hst. unfold scanning_passes.
  eapply filed_same; [apply analyze_info_plist_same|].
  eapply filed_same; [apply check_authentication_same|].
  eapply filed_same; [apply check_encryption_same|].
  apply check_dependencies_filed, check_file_permissions_filed,
    check_memory_security_filed, check_network_security_filed,
    scan_vulnerabilities_filed, scan_credentials_filed.
  by eapply filed_same; [apply same_findings_print|].
Qed.

(** What [analyze] returns when it returns. *)
Lemma analyze_done p st st' :
  analyze p st = Done st' ->
  exists practices,
    st' = calculate_security_score (swift_files p)
            (set_best_practices practices
               (print "  ✅ Checking best practices..." (scanning_passes p st)))
    /\ exists first last,
         gitignore_practice (gitignore p) = inr first
         /\ swiftlint_practice (swiftlint p) = inr last
         /\ practices = (first ++ [docs_practice (security_docs p)] ++ [last])%list.
Proof.
  unfold analyze, check_best_practices.
  destruct (gitignore_practice (gitignore p)) as [e|first] eqn:E1; [done|].
  destruct (swiftlint_practice (swiftlint p)) as [e|last] eqn:E2; [done|].
  intros [= <-]. eexists. split; [reflexivity|].
  exists first, last. by rewrite <- app_assoc.
Qed.

(** X10. Every finding is kept in the list of its own severity: the issues
    that the passes append to the critical, high, medium and low lists
    carry the severity 'critical', 'high', 'medium' and 'low', so when the
    lists are so filed before a pass they are after it, after the nine
    scanning passes, and in what [analyze] returns. *)
Theorem issues_filed_by_severity (p : project) (st : analyzer) :
  filed st ->
  filed (scan_credentials (walk p) st)
  /\ filed (scan_vulnerabilities (walk p) st)
  /\ filed (check_network_security (walk p) st)
  /\ filed (check_memory_security (walk p) st)
  /\ filed (check_file_permissions (rglob p) st)
  /\ filed (check_dependencies (dependency_urls p) (package_swift p) st)
  /\ filed (scanning_passes p st)
  /\ (forall st', analyze p st = Done st' -> filed st').
Proof.
  intros Hst.
  split; [by apply scan_credentials_filed|].
  split; [by apply scan_vulnerabilities_filed|].
  split; [by apply check_network_security_filed|].
  split; [by apply check_memory_security_filed|].
  split; [by apply check_file_permissions_filed|].
  split; [by apply check_dependencies_filed|].
  split; [by apply scanning_passes_filed|].
  intros st' (practices & -> & _)%analyze_done.
  eapply filed_same; [|apply (scanning_passes_filed p st Hst)]. by repeat split.
Qed.

Lemma issues_filed_by_severity_witness :
  filed initial
  /\ (fun st => (length (critical_issues st), length (high_issues st),
                 length (medium_issues st), length (low_issues st)))
       (scanning_passes sample_project initial) = (0, 2, 2, 1)%nat
  /\ filed (scanning_passes sample_project initial).
Proof.
  assert (H0 : filed initial) by (repeat split; constructor).
  split; [exact H0|]. split; [by vm_compute|].
  by destruct (issues_filed_by_severity sample_project initial H0)
    as (_ & _ & _ & _ & _ & _ & H & _).
Defined.

(** ** The run as a whole *)

Lemma gitignore_practice_cases g :
  (exists e, g = Some (ReadError e) /\ gitignore_practice g = inl e)
  \/ (exists l, gitignore_practice g = inr l
                /\ (forall e, g <> Some (ReadError e))
                /\ (length l <= 1)%nat /\ (length l = 1%nat <-> g <> None)).
Proof.
  destruct g as [[content|e]|]; simpl.
  - right.
    case_match; eexists; (split; [reflexivity|]); (split; [done|]); simpl;
      (split; [lia|]); split; done.
  - left. by exists e.
  - right. exists []. split; [done|]. split; [done|]. simpl. split; [lia|].
    split; done.
Qed.

Lemma swiftlint_practice_cases g :
  (exists e, g = Some (ReadError e) /\ swiftlint_practice g = inl e)
  \/ (exists l, swiftlint_practice g = inr l /\ (forall e, g <> Some (ReadError e))).
Proof.
  destruct g as [[content|e]|]; simpl.
  - right. case_match; eexists; split; done.
  - left. by exists e.
  - right. eexists; split; done.
Qed.

(** X11. [analyze] raises exactly when a [.gitignore] or a [.swiftlint.yml]
    that exists cannot be read; the other failures to read are absorbed by
    the passes. When it returns, the findings and the Info entries are
    those of the nine scanning passes, the score is the direct deduction
    from these findings, between 0 and 100 and equal to 100 exactly when
    there is none, the statistics count them, and there are two or three
    best-practice lines, three exactly when a [.gitignore] exists. *)
Theorem analyze_outcome (p : project) (st : analyzer) :
  ((exists e, analyze p st = Raised e)
   <-> (exists e, gitignore p = Some (ReadError e))
       \/ (exists e, swiftlint p = Some (ReadError e)))
  /\ (forall st', analyze p st = Done st' ->
        same_findings st' (scanning_passes p st)
        /\ info st' = info (scanning_passes p st)
        /\ security_score st'
           = Z.max 0 (deduction (length (critical_issues st')) (length (high_issues st'))
                        (length (medium_issues st')) (length (low_issues st')))
        /\ (0 <= security_score st' <= 100)%Z
        /\ (security_score st' = 100%Z <-> findings_count st' = 0%nat)
        /\ statistics st' !! "total_issues" = Some (findings_count st')
        /\ statistics st' !! "files_scanned" = Some (swift_files p)
        /\ (2 <= length (best_practices st') <= 3)%nat
        /\ (length (best_practices st') = 3%nat <-> gitignore p <> None)
        /\ docs_practice (security_docs p) ∈ best_practices st').
Proof.
  split.
  - unfold analyze, check_best_practices.
    destruct (gitignore_practice_cases (gitignore p))
      as [(e & Hg & ->)|(l & -> & Hg & _)].
    { split; [intros _; left; by exists e|intros _; by exists e]. }
    destruct (swiftlint_practice_cases (swiftlint p))
      as [(e & Hs & ->)|(l' & -> & Hs)].
    { split; [intros _; right; by exists e|intros _; by exists e]. }
    split; [by intros [e ?]|].
    intros [[e He]|[e He]]; [by apply Hg in He|by apply Hs in He].
  - intros st' (practices & -> & first & last & Hfirst & _ & ->)%analyze_done.
    destruct (gitignore_practice_cases (gitignore p))
      as [(e & _ & Hg)|(l & Hg & _ & Hlen & Hthree)]; rewrite Hg in Hfirst; [done|].
    injection Hfirst as <-.
    set (S := scanning_passes p st).
    split; [by repeat split|]. split; [done|].
    unfold calculate_security_score, deduction, findings_count; simpl.
    split; [f_equal; lia|]. split; [lia|]. split; [lia|].
    split; [done|]. split; [done|].
    rewrite !length_app. simpl. split; [lia|]. split.
    + rewrite <- Hthree. lia.
    + rewrite elem_of_app, elem_of_cons. auto.
Qed.

Lemma analyze_outcome_witness :
  (exists e, analyze locked_project initial = Raised e)
  /\ (exists st', analyze sample_project initial = Done st'
                  /\ security_score st' = 68%Z
                  /\ best_practices st'
                     = ["❌ No security documentation (SECURITY.md)";
                        "❌ No SwiftLint configuration"]).
Proof.
  split.
  - apply (analyze_outcome locked_project initial). left. by eexists.
  - destruct (analyze sample_project initial) as [st'|e] eqn:E; [|by vm_compute in E].
    exists st'. split; [done|].
    destruct (analyze_outcome sample_project initial) as [_ H].
    destruct (H st' E) as (_ & _ & Hscore & _).
    assert (E' : Done st' = analyze sample_project initial) by done.
    vm_compute in E'. injection E' as ->. by split.
Defined.

(** ** The passes that only inform *)



(** ** File permissions *)

Lemma sapp_assoc (a b c : string) : (a ++ b) ++ c = a ++ (b ++ c).
Proof.
  induction a as [|x a IH]; [done|].
  change (String x ((a ++ b) ++ c) = String x (a ++ (b ++ c))). by rewrite IH.
Qed.

Lemma sapp_length (a b : string) :
  String.length (a ++ b) = (String.length a + String.length b)%nat.
Proof.
  induction a as [|x a IH]; [done|].
  change (S (String.length (a ++ b)) = S (String.length a + String.length b)).
  by rewrite IH.
Qed.

Lemma drop_sapp (a b : string) : Str.drop (String.length a) (a ++ b) = b.
Proof.
  induction a as [|x a IH]; [by destruct b|].
  change (Str.drop (String.length a) (a ++ b) = b). exact IH.
Qed.

Lemma oct_digits_suffix fuel n acc : exists pre, oct_digits fuel n acc = pre ++ acc.
Proof.
  revert n acc. induction fuel as [|fuel IH]; intros n acc; simpl; [by exists ""|].
  destruct (n <? 8)%N; [by exists (String (oct_digit (n mod 8)) "")|].
  destruct (IH (n / 8)%N (String (oct_digit (n mod 8)) acc)) as [pre ->].
  exists (pre ++ String (oct_digit (n mod 8)) ""). by rewrite sapp_assoc.
Qed.

(** From three octal digits on, the last three characters of [oct n] are
    the last three digits. *)
Lemma last3_oct n : (64 <= n)%N -> last3 (oct n) = octal3 n.
Proof.
  intros Hn. unfold oct.
  assert (Hlog : (6 <= N.log2 n)%N)
    by (change 6%N with (N.log2 64); by apply N.log2_le_mono).
  destruct (N.to_nat (N.log2 n)) as [|[|k]] eqn:Ek; [lia|lia|].
  assert (H8 : (n <? 8)%N = false) by (apply N.ltb_ge; lia).
  assert (H64 : (n / 8 <? 8)%N = false).
  { apply N.ltb_ge. change 8%N with (64 / 8)%N at 1. by apply N.Div0.div_le_mono. }
  assert (Hpre : exists pre,
             oct_digits (S (S (S k))) n "" = pre ++ octal3 n).
  { cbn [oct_digits]. rewrite H8, H64.
    assert (Hdiv : (n / 8 / 8 = n / 64)%N) by (by rewrite N.Div0.div_div).
    rewrite Hdiv. unfold octal3.
    destruct (n / 64 <? 8)%N; [by exists ""|].
    rewrite <- Hdiv. apply oct_digits_suffix. }
  destruct Hpre as [pre ->]. unfold last3.
  rewrite <- sapp_assoc, sapp_length.
  replace (String.length ("0o" ++ pre) + String.length (octal3 n) - 3)%nat
    with (String.length ("0o" ++ pre)) by (unfold octal3; simpl; lia).
  apply drop_sapp.
Qed.

Lemma oct_digit_inj a b : (a < 8)%N -> (b < 8)%N -> oct_digit a = oct_digit b -> a = b.
Proof.
  intros Ha Hb.
  assert (Hcases : forall d, (d < 8)%N ->
             d = 0%N \/ d = 1%N \/ d = 2%N \/ d = 3%N \/ d = 4%N \/ d = 5%N
             \/ d = 6%N \/ d = 7%N) by (intros d Hd; lia).
  destruct (Hcases a Ha) as [->|[->|[->|[->|[->|[->|[->| ->]]]]]]];
    destruct (Hcases b Hb) as [->|[->|[->|[->|[->|[->|[->| ->]]]]]]];
    vm_compute; congruence.
Qed.

Lemma octal3_eq n (a b c : N) :
  (a < 8)%N -> (b < 8)%N -> (c < 8)%N ->
  octal3 n = String (oct_digit a) (String (oct_digit b) (String (oct_digit c) ""))
  <-> (n mod 512 = 64 * a + 8 * b + c)%N.
Proof.
  intros Ha Hb Hc. unfold octal3.
  assert (H1 : (n mod 8 < 8)%N) by (apply N.mod_lt; lia).
  assert (H2 : ((n / 8) mod 8 < 8)%N) by (apply N.mod_lt; lia).
  assert (H3 : ((n / 64) mod 8 < 8)%N) by (apply N.mod_lt; lia).
  assert (Hn : (n mod 512 = 64 * ((n / 64) mod 8) + 8 * ((n / 8) mod 8) + n mod 8)%N).
  { assert (E1 : (n mod 512 = n mod 64 + 64 * ((n / 64) mod 8))%N)
      by (change 512%N with (64 * 8)%N; apply N.Div0.mod_mul_r).
    assert (E2 : (n mod 64 = n mod 8 + 8 * ((n / 8) mod 8))%N)
      by (change 64%N with (8 * 8)%N; apply N.Div0.mod_mul_r).
    lia. }
  rewrite Hn. clear Hn.
  generalize dependent ((n / 64) mod 8)%N. intros x Hx.
  generalize dependent ((n / 8) mod 8)%N. intros y Hy.
  generalize dependent (n mod 8)%N. intros z Hz.
  split.
  - intros [= E3 E2 E1].
    apply oct_digit_inj in E1, E2, E3; try done. lia.
  - intros E. assert (x = a /\ y = b /\ z = c) as (-> & -> & ->) by lia. done.
Qed.

(** X13. A sensitive file is reported by its last three octal digits only:
    for a mode of at least three octal digits the permission check adds
    one low finding, which shows these digits, unless they are 644 or 600,
    that is unless the mode is 0o644 or 0o600 modulo 0o1000; the bits
    above them play no part. A file whose [os.stat] fails is passed
    over. *)
Theorem permissions_by_last_three_digits (e : stat_entry) (n : N) (st : analyzer) :
  (64 <= n)%N ->
  (st_mode e = Some n ->
   check_permission e st
   = if bool_decide (n mod 512 = 420 \/ n mod 512 = 384)%N then st
     else append_low (permission_issue (st_relative e) (octal3 n)) st)
  /\ (st_mode e = None -> check_permission e st = st).
Proof.
  intros Hn. split; intros Hmode; unfold check_permission; rewrite Hmode; [|done].
  rewrite last3_oct by done.
  assert (H644 : octal3 n = "644" <-> (n mod 512 = 420)%N)
    by (apply (octal3_eq n 6 4 4); lia).
  assert (H600 : octal3 n = "600" <-> (n mod 512 = 384)%N)
    by (apply (octal3_eq n 6 0 0); lia).
  destruct (String.eqb_spec (octal3 n) "644") as [E1|E1].
  { simpl. rewrite bool_decide_eq_true_2; [done|]. left. by apply H644. }
  destruct (String.eqb_spec (octal3 n) "600") as [E2|E2].
  { simpl. rewrite bool_decide_eq_true_2; [done|]. right. by apply H600. }
  simpl. rewrite bool_decide_eq_false_2; [done|].
  intros [H|H]; [by apply H644 in H|by apply H600 in H].
Qed.

(** An executable property list (0o100755) is reported with 755; a file
    with mode 0o104644, set-user-ID, is not. *)
Lemma permissions_by_last_three_digits_witness :
  low_issues (check_permission
                {| st_relative := "App/Info.plist"; st_mode := Some 33261%N |} initial)
  = [permission_issue "App/Info.plist" "755"]
  /\ check_permission {| st_relative := "App/Info.plist"; st_mode := Some 35236%N |} initial
     = initial.
Proof.
  split.
  - destruct (permissions_by_last_three_digits
                {| st_relative := "App/Info.plist"; st_mode := Some 33261%N |}
                33261 initial) as [H _]; [done|].
    by rewrite H.
  - destruct (permissions_by_last_three_digits
                {| st_relative := "App/Info.plist"; st_mode := Some 35236%N |}
                35236 initial) as [H _]; [done|].
    by rewrite H.
Defined.

(** ** Which files a pass reads *)

Lemma for_each_file_other {S} exts (body : source_file -> string -> S -> S)
    (f : source_file) before after (st : S) :
  has_ext exts f = false ->
  for_each_file exts body (before ++ f :: after)%list st
  = for_each_file exts body (before ++ after)%list st.
Proof.
  intros Hext. unfold for_each_file. rewrite !foldl_app. simpl. by rewrite Hext.
Qed.

(** X14. A pass reads only the files whose name ends in one of its
    extensions: a file with another name changes nothing in what the pass
    does, whatever it contains. The credential scan reads seven kinds of
    file, the vulnerability scan three, the network pass two, and the
    memory, encryption and authentication passes Swift files only. *)
Theorem other_files_not_read (f : source_file) (before after : list source_file)
    (st : analyzer) :
  (has_ext [".swift"; ".m"; ".h"; ".json"; ".plist"; ".yaml"; ".yml"] f = false ->
   scan_credentials (before ++ f :: after)%list st
   = scan_credentials (before ++ after)%list st)
  /\ (has_ext [".swift"; ".m"; ".h"] f = false ->
      scan_vulnerabilities (before ++ f :: after)%list st
      = scan_vulnerabilities (before ++ after)%list st)
  /\ (has_ext [".swift"; ".plist"] f = false ->
      check_network_security (before ++ f :: after)%list st
      = check_network_security (before ++ after)%list st)
  /\ (Str.endswith ".swift" (fname f) = false ->
      check_memory_security (before ++ f :: after)%list st
      = check_memory_security (before ++ after)%list st
      /\ check_encryption (before ++ f :: after)%list st
         = check_encryption (before ++ after)%list st
      /\ check_authentication (before ++ f :: after)%list st
         = check_authentication (before ++ after)%list st).
Proof.
  split; [|split; [|split]].
  - intros H. unfold scan_credentials. by apply for_each_file_other.
  - intros H. unfold scan_vulnerabilities. by apply for_each_file_other.
  - intros H. unfold check_network_security. by apply for_each_file_other.
  - intros H.
    assert (Hext : has_ext [".swift"] f = false) by (unfold has_ext; simpl; by rewrite H).
    unfold check_memory_security, check_encryption, check_authentication, auth_found_of.
    by rewrite !(for_each_file_other _ _ f before after _ Hext).
Qed.

(** The password in a text file is not reported; in a Swift file it is. *)
Lemma other_files_not_read_witness :
  scan_credentials [notes_txt] initial = scan_credentials [] initial
  /\ length (high_issues (scan_credentials [login_swift] initial)) = 1%nat.
Proof.
  split; [|by vm_compute].
  destruct (other_files_not_read notes_txt [] [] initial) as [H _].
  by apply H.
Defined.

End SecMore.
